(** * build-release.py: a shallow embedding of the release packaging script

    The script [build-scripts/build-release.py] is sequential orchestration:
    it shells out to git and to the platform tool chains, reads and writes
    files, and packs archives.  The embedding below follows the Python text
    function by function.

    - Python [str] is [string]; a character is a code point below 256.
    - Python [bytes] is [string] as well (one character per byte).
    - Exceptions are an error monad whose state survives a raise, since a
      Python exception does not undo the files written before it.
    - What the script delegates to a library or to another program (git,
      gzip/zip encoders, the regular expression engine, glob, fnmatch) is a
      [Variable] of the section that needs it. *)

From Stdlib Require Import ZArith List Ascii String Sorted Permutation Lia Bool.
From stdpp Require Import gmap strings list fin_maps pretty.

Open Scope string_scope.
Open Scope Z_scope.

(** ** Python strings *)

Module PyStr.

(** [str.isspace] on the code points below 256. *)
Definition isspace (c : ascii) : bool :=
  let n := nat_of_ascii c in
  ((9 <=? n)%nat && (n <=? 13)%nat) || ((28 <=? n)%nat && (n <=? 32)%nat)
  || (n =? 133)%nat || (n =? 160)%nat.

(** [s.startswith(p)] *)
Fixpoint startswith (p s : string) : bool :=
  match p, s with
  | EmptyString, _ => true
  | String a p', String b s' => Ascii.eqb a b && startswith p' s'
  | String _ _, EmptyString => false
  end.
Arguments startswith : simpl never.

Fixpoint drop (n : nat) (s : string) : string :=
  match n, s with
  | S k, String _ s' => drop k s'
  | _, _ => s
  end.

(** [s.removeprefix(p)] *)
Definition removeprefix (p s : string) : string :=
  if startswith p s then drop (String.length p) s else s.

(** [s.lstrip()] *)
Fixpoint lstrip (s : string) : string :=
  match s with
  | String c s' => if isspace c then lstrip s' else s
  | EmptyString => EmptyString
  end.

(** [s.rstrip()] *)
Fixpoint rstrip (s : string) : string :=
  match s with
  | String c s' =>
      match rstrip s' with
      | EmptyString => if isspace c then EmptyString else String c EmptyString
      | r => String c r
      end
  | EmptyString => EmptyString
  end.

(** [s.strip()] *)
Definition strip (s : string) : string := rstrip (lstrip s).

(** The first whitespace-free word of [s] and what follows it. *)
Fixpoint span_word (s : string) : string * string :=
  match s with
  | String c s' =>
      if isspace c then (EmptyString, s)
      else let '(w, r) := span_word s' in (String c w, r)
  | EmptyString => (EmptyString, EmptyString)
  end.

(** [s.split(maxsplit=1)]: split on runs of whitespace, at most once. *)
Definition split_maxsplit1 (s : string) : list string :=
  match lstrip s with
  | EmptyString => []
  | s1 =>
      let '(w, r) := span_word s1 in
      match lstrip r with
      | EmptyString => [w]
      | r' => [w; r']
      end
  end.

(** [s.split(sep)] for a one-character separator. *)
Fixpoint split_sep (sep : ascii) (s : string) : list string :=
  match s with
  | EmptyString => [EmptyString]
  | String c s' =>
      if Ascii.eqb c sep then EmptyString :: split_sep sep s'
      else match split_sep sep s' with
           | h :: t => String c h :: t
           | [] => [String c EmptyString]
           end
  end.

Fixpoint replace_go (old new : string) (skip : nat) (s : string) : string :=
  match s with
  | EmptyString => EmptyString
  | String c s' =>
      match skip with
      | S k => replace_go old new k s'
      | O =>
          if startswith old s
          then String.append new (replace_go old new (String.length old - 1) s')
          else String c (replace_go old new 0 s')
      end
  end.

(** [s.replace(old, new)] for a non-empty [old]. *)
Definition replace (old new s : string) : string := replace_go old new 0 s.

(** [str(x)] inside an f-string, for a value that may be [None]. *)
Definition fmt (o : option string) : string :=
  match o with Some s => s | None => "None" end.

Definition tab : ascii := ascii_of_nat 9.
Definition nl : string := String (ascii_of_nat 10) EmptyString.

(** [s.encode()]: UTF-8 of the code points below 256. *)
Fixpoint encode (s : string) : string :=
  match s with
  | EmptyString => EmptyString
  | String c s' =>
      let n := nat_of_ascii c in
      if (n <? 128)%nat then String c (encode s')
      else String (ascii_of_nat (192 + n / 64))
             (String (ascii_of_nat (128 + n mod 64)) (encode s'))
  end.

End PyStr.

(** ** Exceptions and results *)

Inductive exn : Type :=
  | AssertionError | ValueError | KeyError | IndexError | StopIteration
  | RuntimeError | Exception | CalledProcessError | FileNotFoundError
  | FileExistsError | IsADirectoryError | ReadError | BadZipFile | TypeError
  | AttributeError | NameError | ReError.

Inductive result (A : Type) : Type :=
  | Ok (a : A)
  | Raise (e : exn).
Arguments Ok {A} a.
Arguments Raise {A} e.

Definition is_ok {A} (r : result A) : bool :=
  match r with Ok _ => true | Raise _ => false end.

(** ** Aware datetimes

    [git log --pretty=time=%cI] prints strict ISO 8601 with a UTC offset and
    whole seconds, so every datetime of the script is timezone-aware.  Python
    orders aware datetimes by the instant they denote. *)

Record datetime : Type := mkDatetime {
  year : Z; month : Z; day : Z;
  hour : Z; minute : Z; second : Z;
  utcoffset : Z (* seconds east of UTC *)
}.

(** Days since 1970-01-01 of a proleptic Gregorian date. *)
Definition days_from_civil (y m d : Z) : Z :=
  let y' := if m <=? 2 then y - 1 else y in
  let era := y' / 400 in
  let yoe := y' - era * 400 in
  let mp := (m + 9) mod 12 in
  let doy := (153 * mp + 2) / 5 + d - 1 in
  let doe := yoe * 365 + yoe / 4 - yoe / 100 + doy in
  era * 146097 + doe - 719468.

(** [t.timestamp()] *)
Definition timestamp (t : datetime) : Z :=
  days_from_civil (year t) (month t) (day t) * 86400
  + hour t * 3600 + minute t * 60 + second t - utcoffset t.

(** [a <= b] and [a < b] on aware datetimes. *)
Definition dt_le (a b : datetime) : Prop := timestamp a <= timestamp b.
Definition dt_leb (a b : datetime) : bool := timestamp a <=? timestamp b.
Definition dt_ltb (a b : datetime) : bool := timestamp a <? timestamp b.

(** ** Paths (pathlib, POSIX flavour) *)

Module PyPath.

Definition slash : ascii := "/"%char.
Definition dot : ascii := "."%char.

Definition is_absolute (p : string) : bool := PyStr.startswith "/" p.

Fixpoint ends_with_slash (p : string) : bool :=
  match p with
  | EmptyString => false
  | String c EmptyString => Ascii.eqb c slash
  | String _ p' => ends_with_slash p'
  end.

(** [a / b] *)
Definition join (a b : string) : string :=
  if is_absolute b then b
  else if String.eqb b EmptyString then a
  else if String.eqb a EmptyString then b
  else if ends_with_slash a then String.append a b
  else String.append a (String.append "/" b).

(** The components between slashes, without the empty and ["."] ones. *)
Definition components (p : string) : list string :=
  List.filter (fun c => negb (String.eqb c EmptyString || String.eqb c "."))
    (PyStr.split_sep slash p).

(** [Path(p).parts] *)
Definition parts (p : string) : list string :=
  if PyStr.startswith "//" p && negb (PyStr.startswith "///" p)
  then "//" :: components p
  else if is_absolute p then "/" :: components p
  else components p.

Definition join_parts (l : list string) : string :=
  match l with
  | [] => EmptyString
  | h :: t =>
      fold_left (fun acc c => String.append acc (String.append "/" c)) t h
  end.

(** [Path(p).name] *)
Definition name (p : string) : string := List.last (components p) EmptyString.

(** Index of the last ["."] of [s], if any. *)
Fixpoint rfind_dot (s : string) : option nat :=
  match s with
  | EmptyString => None
  | String c s' =>
      match rfind_dot s' with
      | Some i => Some (S i)
      | None => if Ascii.eqb c dot then Some O else None
      end
  end.

(** [Path(p).suffix] *)
Definition suffix (p : string) : string :=
  let n := name p in
  match rfind_dot n with
  | Some i =>
      if (0 <? i)%nat && (i <? String.length n - 1)%nat
      then PyStr.drop i n else EmptyString
  | None => EmptyString
  end.

(** [p] without its last component, as a string. *)
Fixpoint dirname (p : string) : string :=
  match p with
  | EmptyString => EmptyString
  | String c p' =>
      if existsb (Ascii.eqb slash) (list_ascii_of_string p')
      then String c (dirname p')
      else EmptyString
  end.

(** [Path(p).parent] *)
Definition parent (p : string) : string :=
  match dirname p with
  | EmptyString => if is_absolute p then "/" else "."
  | d => d
  end.

(** The ancestors of [p], nearest first, up to the root. *)
Fixpoint ancestors_go (fuel : nat) (p : string) : list string :=
  match fuel with
  | O => []
  | S k =>
      let d := parent p in
      if String.eqb d p then [] else d :: ancestors_go k d
  end.
Definition ancestors (p : string) : list string :=
  ancestors_go (S (String.length p)) p.

End PyPath.

(** ** Ordered dictionaries

    A Python [dict] keeps insertion order; assigning to a key that is already
    there keeps the key's place. *)

Fixpoint dict_set {V : Type} (k : string) (v : V) (d : list (string * V))
  : list (string * V) :=
  match d with
  | [] => [(k, v)]
  | (k', v') :: d' =>
      if String.eqb k k' then (k, v) :: d' else (k', v') :: dict_set k v d'
  end.

Fixpoint dict_get {V : Type} (k : string) (d : list (string * V)) : option V :=
  match d with
  | [] => None
  | (k', v) :: d' => if String.eqb k k' then Some v else dict_get k d'
  end.

Definition dict_keys {V : Type} (d : list (string * V)) : list string := map fst d.
Definition dict_values {V : Type} (d : list (string * V)) : list V := map snd d.

(** ** The world: files, processes started, and the artifact registry *)

Inductive node : Type :=
  | File (data : string)
  | Dir.

Record world : Type := mkWorld {
  fs : gmap string node;
  procs : list (list string);          (* commands really executed, oldest first *)
  artifacts : list (string * string)   (* [Releaser.artifacts] *)
}.

Definition with_fs (f : gmap string node) (w : world) : world :=
  mkWorld f (procs w) (artifacts w).

(** A computation returns or raises, and leaves a world behind either way. *)
Definition M (A : Type) : Type := world -> result A * world.

Definition ret {A} (a : A) : M A := fun w => (Ok a, w).
Definition raise {A} (e : exn) : M A := fun w => (Raise e, w).
Definition bind {A B} (m : M A) (k : A -> M B) : M B :=
  fun w => match m w with
           | (Ok a, w') => k a w'
           | (Raise e, w') => (Raise e, w')
           end.
Definition lift {A} (r : result A) : M A := fun w => (r, w).
Definition gets {A} (f : world -> A) : M A := fun w => (Ok (f w), w).
Definition modify (f : world -> world) : M unit := fun w => (Ok tt, f w).

#[global] Instance M_ret : MRet M := @ret.
#[global] Instance M_bind : MBind M := fun A B k m => bind m k.

(** [assert c] *)
Definition assert (c : bool) : M unit :=
  if c then ret tt else raise AssertionError.

(** [for x in l: body x] *)
Fixpoint for_each {A} (l : list A) (body : A -> M unit) : M unit :=
  match l with
  | [] => ret tt
  | x :: l' => body x ;; for_each l' body
  end.

(** [if c: body] *)
Definition when (c : bool) (body : M unit) : M unit :=
  if c then body else ret tt.

(** ** Archive members *)

(** A member of a tar stream as [tarfile] yields it when reading. *)
Record TarInfo : Type := mkTarInfo {
  ti_name : string;
  ti_mode : Z;
  ti_isfile : bool;
  ti_data : string
}.

(** What the script hands to [ZipFile.writestr] or [ZipFile.write]: the
    metadata is [None] when [ZipFile.write] takes it from the file itself. *)
Record ZipEntry : Type := mkZipEntry {
  ze_filename : string;
  ze_meta : option ((Z * Z * Z * Z * Z * Z) * Z); (* date_time, external_attr *)
  ze_data : string
}.

(** What the script hands to [TarFile.addfile]. *)
Record TarEntry : Type := mkTarEntry {
  te_name : string;
  te_mode : Z;
  te_size : Z;
  te_mtime : Z;
  te_data : string
}.

(** ** What the script delegates *)

Class Platform : Type := {
  (** [os.getcwd()], absolute *)
  cwd : string;
  (** [tempfile.gettempdir()] *)
  gettempdir : string;
  (** a child process: command, working directory, files before; its
      standard output ([None] on a non-zero exit) and the files after *)
  subprocess : list string -> string -> gmap string node
               -> option string * gmap string node;
  (** [datetime.datetime.fromisoformat], [None] for [ValueError] *)
  fromisoformat : string -> option datetime;
  (** the members of a non-empty gzip'ed tar stream *)
  tar_parse : string -> result (list TarInfo);
  (** the bytes of a zip archive with these entries *)
  zip_bytes : list ZipEntry -> string;
  (** the bytes of a tar archive with these entries, by compression *)
  tar_bytes : string -> list TarEntry -> string;
  (** [re.finditer(pattern, text, flags=re.M)]: per match its groups,
      group 0 first, [None] for a group that took no part *)
  re_finditer : string -> string -> result (list (list (option string)));
  (** [glob.glob(pattern, root_dir=d)] *)
  glob : string -> string -> gmap string node -> list string;
  (** [fnmatch.fnmatch(name, pattern)] *)
  fnmatch : string -> string -> bool;
  (** [ZipFile(bytes).namelist()] and [ZipFile(bytes).read(member)] *)
  zip_namelist : string -> result (list string);
  zip_read : string -> string -> result string;
  (** [Path.resolve()] *)
  resolve : gmap string node -> string -> string
}.

(** ** The release manifest (release-info.json) *)

Record FilesEntry : Type := mkFilesEntry {
  fe_lib : option string;       (* ["lib"], when the key is present *)
  fe_devel : option string;     (* ["devel"], when the key is present *)
  fe_paths : list string
}.

Record CopyInstr : Type := mkCopyInstr { ci_src : string; ci_dst : string }.

Record MsvcDep : Type := mkMsvcDep {
  md_artifact : string;
  md_copy : list CopyInstr
}.

Record Msbuild : Type := mkMsbuild {
  mb_files : list FilesEntry;
  mb_projects : list string
}.

Record Manifest : Type := mkManifest {
  mf_name : string;
  mf_version_file : string;
  mf_re_major : string;
  mf_re_minor : string;
  mf_re_micro : string;
  mf_source_checks : list string;
  mf_dependencies : list string;                 (* keys of ["dependencies"] *)
  mf_mingw_dependencies : list (string * string); (* dep -> ["artifact"] *)
  mf_dmg_dependencies : list (string * string);
  mf_msvc_dependencies : list (string * MsvcDep);
  mf_dmg_path : string;
  mf_dmg_project : string;
  mf_dmg_target : string;
  mf_msvc_msbuild : option Msbuild;              (* ["msvc"]["msbuild"] *)
  mf_msvc_has_cmake : bool;                      (* "cmake" in ["msvc"] *)
  mf_msvc_files : list FilesEntry
}.

Definition GIT_HASH_FILENAME : string := ".git-hash".

(** ** class VsArchPlatformConfig *)

Record VsArchPlatformConfig : Type := mkVsArchPlatformConfig {
  arch : string;
  platform : string;
  configuration : string
}.

Definition configure (c : VsArchPlatformConfig) (s : string) : string :=
  PyStr.replace "@CONFIGURATION@" (configuration c)
    (PyStr.replace "@PLATFORM@" (platform c)
       (PyStr.replace "@ARCH@" (arch c) s)).

(** ** Files *)

Section Files.
Context `{Platform}.

Definition abspath (p : string) : string := PyPath.join cwd p.

Definition node_at (p : string) : M (option node) :=
  gets (fun w => fs w !! abspath p).

(** [p.exists()], [p.is_file()], [p.is_dir()] *)
Definition path_exists (p : string) : M bool :=
  o ← node_at p; ret (match o with Some _ => true | None => false end).
Definition is_file (p : string) : M bool :=
  o ← node_at p; ret (match o with Some (File _) => true | _ => false end).
Definition is_dir (p : string) : M bool :=
  o ← node_at p; ret (match o with Some Dir => true | _ => false end).

Definition set_node (a : string) (n : node) : M unit :=
  modify (fun w => with_fs (<[a := n]> (fs w)) w).

(** Create or replace the file [p]; its directory must be there. *)
Definition write_file (p data : string) : M unit :=
  let a := abspath p in
  o ← node_at p;
  match o with
  | Some Dir => raise IsADirectoryError
  | Some (File _) => set_node a (File data)
  | None =>
      d ← node_at (PyPath.parent a);
      match d with
      | Some Dir => set_node a (File data)
      | _ => raise FileNotFoundError
      end
  end.

(** [open(p).read()] *)
Definition read_file (p : string) : M string :=
  o ← node_at p;
  match o with
  | Some (File d) => ret d
  | Some Dir => raise IsADirectoryError
  | None => raise FileNotFoundError
  end.

(** [p.touch()] *)
Definition touch (p : string) : M unit :=
  o ← node_at p;
  match o with
  | Some _ => ret tt
  | None => write_file p EmptyString
  end.

(** [p.mkdir(parents=True, exist_ok=True)] *)
Definition mkdir_parents (p : string) : M unit :=
  let a := abspath p in
  let chain := a :: PyPath.ancestors a in
  blocked ← gets (fun w =>
    existsb (fun d => match fs w !! d with Some (File _) => true | _ => false end)
      chain);
  if blocked : bool then raise FileExistsError
  else modify (fun w => with_fs (foldr (fun d f => <[d := Dir]> f) (fs w) chain) w).

(** [p.unlink(missing_ok=True)] *)
Definition unlink_missing_ok (p : string) : M unit :=
  o ← node_at p;
  match o with
  | Some (File _) => modify (fun w => with_fs (delete (abspath p) (fs w)) w)
  | Some Dir => raise IsADirectoryError
  | None => ret tt
  end.

Definition under (d p : string) : bool :=
  String.eqb d p || PyStr.startswith (String.append d "/") p.

(** [shutil.rmtree(p, ignore_errors=True)] *)
Definition rmtree (p : string) : M unit :=
  modify (fun w =>
    with_fs (filter (fun kv => under (abspath p) (fst kv) = false) (fs w)) w).

(** [shutil.copy(src, dst)] *)
Definition copy (src dst : string) : M unit :=
  data ← read_file src;
  d ← is_dir dst;
  write_file (if d : bool then PyPath.join dst (PyPath.name src) else dst) data.

Definition zero : ascii := ascii_of_nat 0.

Fixpoint overwrite_bytes (new old : string) : string :=
  match new with
  | EmptyString => old
  | String c new' =>
      String c (overwrite_bytes new' (match old with String _ o => o | _ => EmptyString end))
  end.

(** The bytes of a file after [seek(off)] and [write(new)]; a seek past
    the end leaves zero bytes in between. *)
Fixpoint write_at (off : nat) (new old : string) : string :=
  match off with
  | O => overwrite_bytes new old
  | S k =>
      match old with
      | String c o => String c (write_at k new o)
      | EmptyString => String zero (write_at k new EmptyString)
      end
  end.

(** [with open(p, "r+b") as f: f.seek(off, 0); f.write(new)] *)
Definition patch_file (p : string) (off : nat) (new : string) : M unit :=
  old ← read_file p;
  set_node (abspath p) (File (write_at off new old)).

End Files.

(** ** class Executer *)

Record Executer : Type := mkExecuter { ex_root : string; ex_dry : bool }.

Section Process.
Context `{Platform}.

(** [cwd or self.root] *)
Definition cwd_or_root (ex : Executer) (dir : option string) : string :=
  match dir with
  | Some d => if String.eqb d EmptyString then ex_root ex else d
  | None => ex_root ex
  end.

(** Start a child process and wait for it. *)
Definition spawn (cmd : list string) (dir : string) : M string :=
  fun w =>
    let '(out, f) := subprocess cmd dir (fs w) in
    let w' := mkWorld f (procs w ++ [cmd])%list (artifacts w) in
    match out with
    | Some o => (Ok o, w')
    | None => (Raise CalledProcessError, w')
    end.

(** [Executer.run] *)
Definition Executer_run (ex : Executer) (cmd : list string) (dir : option string)
  : M unit :=
  if ex_dry ex then ret tt
  else spawn cmd (cwd_or_root ex dir) ;; ret tt.

(** [Executer.check_output]; the value is [None] when Python's is. *)
Definition Executer_check_output (ex : Executer) (cmd : list string)
    (dir : option string) (dry_out : option string) : M (option string) :=
  if ex_dry ex then ret dry_out
  else o ← spawn cmd (cwd_or_root ex dir); ret (Some o).

End Process.

(** ** class Releaser *)

Record TreeItem : Type := mkTreeItem {
  path : string;
  mode : Z;
  data : string;
  time : datetime
}.

Record Releaser : Type := mkReleaser {
  release_info : Manifest;
  project : string;
  version : string;
  root : string;
  commit : string;
  dist_path : string;
  executer : Executer;
  deps_path : string;
  overwrite : bool
}.

(** [Releaser.dry] *)
Definition dry (r : Releaser) : bool := ex_dry (executer r).

(** [self.artifacts[k] = p] *)
Definition set_artifact (k p : string) : M unit :=
  modify (fun w => mkWorld (fs w) (procs w) (dict_set k p (artifacts w))).

(** [d[k]] *)
Definition dict_lookup {V : Type} (k : string) (d : list (string * V)) : M V :=
  match dict_get k d with
  | Some v => ret v
  | None => raise KeyError
  end.

(** *** Lines of text *)

Definition is_linebreak (c : ascii) : bool :=
  let n := nat_of_ascii c in
  ((10 <=? n)%nat && (n <=? 13)%nat) || ((28 <=? n)%nat && (n <=? 30)%nat)
  || (n =? 133)%nat.

(** [s.splitlines(keepends=False)]; [after_cr] is set right after a
    carriage return, whose line feed belongs to the same break. *)
Fixpoint splitlines_go (after_cr : bool) (s : string) : list string :=
  match s with
  | EmptyString => []
  | String c s' =>
      if after_cr && Ascii.eqb c (ascii_of_nat 10) then splitlines_go false s'
      else if is_linebreak c
      then EmptyString :: splitlines_go (Ascii.eqb c (ascii_of_nat 13)) s'
      else match splitlines_go false s' with
           | h :: t => String c h :: t
           | [] => [String c EmptyString]
           end
  end.

Definition splitlines (s : string) : list string := splitlines_go false s.

(** *** Sorting by timestamp

    [list.sort(key=...)] is a stable sort; insertion from the right, placing
    an item before the first one that is not older, is one. *)

Fixpoint insert_by_time (x : TreeItem) (l : list TreeItem) : list TreeItem :=
  match l with
  | [] => [x]
  | y :: l' =>
      if dt_leb (time x) (time y) then x :: l else y :: insert_by_time x l'
  end.

(** [git_files.sort(key=lambda v: v.time)] *)
Definition sort_by_time (l : list TreeItem) : list TreeItem :=
  foldr insert_by_time [] l.

(** [max(ts)]: the first of the largest; [ValueError] on an empty sequence. *)
Definition latest (ts : list datetime) : result datetime :=
  match ts with
  | [] => Raise ValueError
  | t :: ts' => Ok (fold_left (fun m x => if dt_ltb m x then x else m) ts' t)
  end.

(** The text the script feeds to [git log] when it runs dry. *)
Definition dry_git_log : string :=
  "time=2024-03-14T15:40:25-07:00" +:+ PyStr.nl +:+ PyStr.nl
  +:+ "M" +:+ String PyStr.tab "CMakeLists.txt" +:+ PyStr.nl.

(** [Releaser._path_filter] *)
Definition _path_filter (p : string) : bool :=
  if PyStr.startswith ".git" p then false else true.

Section Release.
Context `{Platform}.

(** *** Releaser._get_file_times *)

(** The inner loop: [for file_path in file_paths.split("\t")]. *)
Definition record_paths (set_paths : gset string) (current_time : datetime)
    (file_paths : string) (path_times : gmap string datetime)
  : gmap string datetime :=
  fold_left
    (fun pt file_path =>
       if bool_decide (file_path ∈ set_paths)
          && negb (bool_decide (is_Some (pt !! file_path)))
       then <[file_path := current_time]> pt else pt)
    (PyStr.split_sep PyStr.tab file_paths) path_times.

(** One turn of the loop over the lines of the log. *)
Definition file_times_line (set_paths : gset string)
    (st : option datetime * gmap string datetime) (line : string)
  : result (option datetime * gmap string datetime) :=
  let '(current_time, path_times) := st in
  if String.eqb line EmptyString then Ok st
  else if PyStr.startswith "time=" line then
    match fromisoformat (PyStr.removeprefix "time=" line) with
    | Some t => Ok (Some t, path_times)
    | None => Raise ValueError
    end
  else
    match PyStr.split_maxsplit1 line with
    | [mod_type; file_paths] =>
        match current_time with
        | None => Raise AssertionError
        | Some t => Ok (current_time, record_paths set_paths t file_paths path_times)
        end
    | _ => Raise ValueError
    end.

Fixpoint file_times_loop (set_paths : gset string) (lines : list string)
    (st : option datetime * gmap string datetime)
  : result (option datetime * gmap string datetime) :=
  match lines with
  | [] => Ok st
  | line :: rest =>
      match file_times_line set_paths st line with
      | Ok st' => file_times_loop set_paths rest st'
      | Raise e => Raise e
      end
  end.

(** The body of [_get_file_times] once [git_log_out] is at hand. *)
Definition file_times_of_log (paths : list string) (git_log_out : list string)
  : result (gmap string datetime) :=
  let set_paths : gset string := list_to_set paths in
  match file_times_loop set_paths git_log_out (None, ∅) with
  | Ok (_, path_times) =>
      if bool_decide (dom path_times = set_paths) then Ok path_times
      else Raise AssertionError
  | Raise e => Raise e
  end.

Definition _get_file_times (r : Releaser) (paths : list string)
  : M (gmap string datetime) :=
  out ← Executer_check_output (executer r)
          ["git"; "log"; "--name-status"; "--pretty=time=%cI"; commit r]
          None (Some dry_git_log);
  match out with
  | Some text => lift (file_times_of_log paths (splitlines text))
  | None => raise AttributeError
  end.

(** *** Releaser._get_git_contents *)

(** [io.BytesIO(b)]: an empty buffer for [None]. *)
Definition io_BytesIO (b : option string) : string :=
  match b with Some s => s | None => EmptyString end.

(** [tarfile.open(fileobj=..., mode="r:gz")]: an empty stream is a
    [ReadError("empty file")]. *)
Definition tarfile_open (stream : string) : result (list TarInfo) :=
  match stream with
  | EmptyString => Raise ReadError
  | _ => tar_parse stream
  end.

(** [contents.extractfile(name)]: the last member of that name; no file
    object unless it is a regular file. *)
Definition extractfile (contents : list TarInfo) (name : string)
  : result (option string) :=
  match List.find (fun m => String.eqb (ti_name m) name) (rev contents) with
  | Some m => Ok (if ti_isfile m then Some (ti_data m) else None)
  | None => Raise KeyError
  end.

(** The loop [for ti in contents] that fills [git_contents]. *)
Fixpoint git_contents_loop (file_times : gmap string datetime)
    (contents : list TarInfo) (todo : list TarInfo)
    (git_contents : list (string * TreeItem))
  : result (list (string * TreeItem)) :=
  match todo with
  | [] => Ok git_contents
  | ti :: rest =>
      if negb (ti_isfile ti) then git_contents_loop file_times contents rest git_contents
      else if negb (_path_filter (ti_name ti))
      then git_contents_loop file_times contents rest git_contents
      else
        match extractfile contents (ti_name ti) with
        | Raise e => Raise e
        | Ok None => Raise AssertionError
        | Ok (Some d) =>
            match file_times !! ti_name ti with
            | None => Raise KeyError
            | Some t =>
                git_contents_loop file_times contents rest
                  (dict_set (ti_name ti)
                     (mkTreeItem (ti_name ti) (ti_mode ti) d t) git_contents)
            end
        end
  end.

Definition _get_git_contents (r : Releaser) : M (list (string * TreeItem)) :=
  contents_tgz ← Executer_check_output (executer r)
    ["git"; "archive"; "--format=tar.gz"; commit r; "-o"; "/dev/stdout"]
    None None;
  contents ← lift (tarfile_open (io_BytesIO contents_tgz));
  let filenames := map ti_name (List.filter ti_isfile contents) in
  for_each (mf_source_checks (release_info r))
    (fun file => assert (bool_decide (file ∈ filenames))) ;;
  file_times ← _get_file_times r filenames;
  lift (git_contents_loop file_times contents contents []).

(** *** Releaser.create_source_archives *)

Definition date_time (t : datetime) : Z * Z * Z * Z * Z * Z :=
  (year t, month t, day t, hour t, minute t, second t).

Definition zip_entry (archive_base : string) (git_file : TreeItem) : ZipEntry :=
  mkZipEntry (archive_base +:+ "/" +:+ path git_file)
    (Some (date_time (time git_file), Z.shiftl (mode git_file) 16))
    (data git_file).

Definition tar_entry (archive_base : string) (git_file : TreeItem) : TarEntry :=
  mkTarEntry (archive_base +:+ "/" +:+ path git_file)
    (mode git_file)
    (Z.of_nat (String.length (data git_file)))
    (timestamp (time git_file))
    (data git_file).

Definition archive_base (r : Releaser) : string :=
  project r +:+ "-" +:+ version r.

Definition version_item (r : Releaser) (t : datetime) : TreeItem :=
  mkTreeItem "VERSION.txt" 33188 (PyStr.encode (version r +:+ PyStr.nl)) t.

Definition git_hash_item (r : Releaser) (t : datetime) : TreeItem :=
  mkTreeItem GIT_HASH_FILENAME 33188 (PyStr.encode (commit r +:+ PyStr.nl)) t.

Definition four_zero_bytes : string :=
  String zero (String zero (String zero (String zero EmptyString))).

Definition tar_types : list (string * string) :=
  [(".tar.gz", "gz"); (".tar.xz", "xz")].

(** [git_files] of [create_source_archives] as it stands after the two
    [append] calls, and after [sort]. *)
Definition appended (r : Releaser) (git_files : list TreeItem)
    (latest_mod_time : datetime) : list TreeItem :=
  let git_files := (git_files ++ [version_item r latest_mod_time])%list in
  (git_files ++ [git_hash_item r latest_mod_time])%list.

Definition create_source_archives (r : Releaser) : M unit :=
  git_contents ← _get_git_contents r;
  let git_files := dict_values git_contents in
  assert (length git_contents =? length git_files)%nat ;;
  latest_mod_time ← lift (latest (map time git_files));
  let git_files := appended r git_files latest_mod_time in
  let git_files := sort_by_time git_files in
  let zip_path := PyPath.join (dist_path r) (archive_base r +:+ ".zip") in
  (if dry r then touch zip_path
   else write_file zip_path (zip_bytes (map (zip_entry (archive_base r)) git_files))) ;;
  set_artifact "src-zip" zip_path ;;
  for_each tar_types (fun '(ext, comp) =>
    let tar_path := PyPath.join (dist_path r) (archive_base r +:+ ext) in
    (if dry r then touch tar_path
     else write_file tar_path
            (tar_bytes comp (map (tar_entry (archive_base r)) git_files))) ;;
    when (String.eqb (PyPath.suffix tar_path) ".gz")
      (patch_file tar_path 4 four_zero_bytes) ;;
    set_artifact ("src-tar-" +:+ comp) tar_path).

End Release.

(** ** class VisualStudio *)

Record VisualStudio : Type := mkVisualStudio {
  vs_executer : Executer;
  vsdevcmd : option string;
  msbuild : option string
}.

Definition VS_YEAR_TO_VERSION : list (string * Z) :=
  [("2022", 17); ("2019", 16); ("2017", 15); ("2015", 14); ("2013", 12)].

Definition dquote : string := String (ascii_of_nat 34) EmptyString.

(** [sep.join(l)] *)
Fixpoint str_join (sep : string) (l : list string) : string :=
  match l with
  | [] => EmptyString
  | [x] => x
  | x :: l' => x +:+ sep +:+ str_join sep l'
  end.

Section VS.
Context `{Platform}.

(** [o.strip()] on what [check_output] gave back. *)
Definition strip_output (o : option string) : M string :=
  match o with
  | Some s => ret (PyStr.strip s)
  | None => raise AttributeError
  end.

(** [VisualStudio.find_vsdevcmd] *)
Definition find_vsdevcmd (ex : Executer) (year : option string)
  : M (option string) :=
  let locate (vswhere_spec : list string) : M (option string) :=
    let vswhere_cmd :=
      (["vswhere"] ++ vswhere_spec ++ ["-property"; "installationPath"])%list in
    out ← Executer_check_output ex vswhere_cmd None (Some "/tmp");
    vs_install_path ← strip_output out;
    d ← is_dir vs_install_path;
    assert d ;;
    let vsdevcmd_path := PyPath.join vs_install_path "Common7/Tools/vsdevcmd.bat" in
    when (ex_dry ex)
      (mkdir_parents (PyPath.parent vsdevcmd_path) ;; touch vsdevcmd_path) ;;
    f ← is_file vsdevcmd_path;
    assert f ;;
    ret (Some vsdevcmd_path) in
  match year with
  | None => locate ["-latest"]
  | Some y =>
      match dict_get y VS_YEAR_TO_VERSION with
      | None => ret None
      | Some v =>
          locate ["-latest"; "-version";
                  "[" +:+ pretty v +:+ "," +:+ pretty (v + 1) +:+ ")"]
      end
  end.

(** [VisualStudio.find_msbuild] *)
Definition find_msbuild (ex : Executer) : M (option string) :=
  out ← Executer_check_output ex
    ["vswhere"; "-latest"; "-requires"; "Microsoft.Component.MSBuild";
     "-find"; "MSBuild\**\Bin\MSBuild.exe"]
    None (Some "/tmp/MSBuild.exe");
  msbuild_path ← strip_output out;
  when (ex_dry ex)
    (mkdir_parents (PyPath.parent msbuild_path) ;; touch msbuild_path) ;;
  f ← is_file msbuild_path;
  assert f ;;
  ret (Some msbuild_path).

(** [VisualStudio.__init__] *)
Definition VisualStudio_init (ex : Executer) (year : option string)
  : M VisualStudio :=
  v ← find_vsdevcmd ex year;
  m ← find_msbuild ex;
  ret (mkVisualStudio ex v m).

(** [VisualStudio.build] *)
Definition VisualStudio_build (vs : VisualStudio)
    (arch_platform : VsArchPlatformConfig) (projects : list string) : M unit :=
  assert (match projects with [] => false | _ => true end) ;;
  let vsdev_cmd_str :=
    dquote +:+ PyStr.fmt (vsdevcmd vs) +:+ dquote +:+ " -arch=" +:+ arch arch_platform in
  let msbuild_cmd_str :=
    str_join " && "
      (map (fun project =>
              dquote +:+ PyStr.fmt (msbuild vs) +:+ dquote +:+ " "
              +:+ dquote +:+ project +:+ dquote
              +:+ " /m /p:BuildInParallel=true /p:Platform=" +:+ platform arch_platform
              +:+ " /p:Configuration=" +:+ configuration arch_platform)
         projects) in
  let bat_contents := vsdev_cmd_str +:+ " && " +:+ msbuild_cmd_str +:+ PyStr.nl in
  let bat_path := PyPath.join gettempdir "cmd.bat" in
  write_file bat_path (PyStr.encode bat_contents) ;;
  Executer_run (vs_executer vs)
    ["cmd.exe"; "/D"; "/E:ON"; "/V:OFF"; "/S"; "/C"; "CALL " +:+ bat_path] None.

End VS.

Section Platforms.
Context `{Platform}.

(** *** Releaser.prepare *)
Definition prepare (r : Releaser) : M unit := mkdir_parents (dist_path r).

(** *** Releaser.create_dmg *)
Definition create_dmg (r : Releaser) (configuration : string) : M unit :=
  let dmg_in := PyPath.join (root r) (mf_dmg_path (release_info r)) in
  let xcode_project := PyPath.join (root r) (mf_dmg_project (release_info r)) in
  d ← is_dir xcode_project;
  (* the message of this assertion names [xcode_projet], which is unbound *)
  (if d : bool then ret tt else raise NameError) ;;
  (* the next assertion tests the bound method [is_file], which is true *)
  unlink_missing_ok dmg_in ;;
  Executer_run (executer r)
    ["xcodebuild"; "-project"; xcode_project;
     "-target"; mf_dmg_target (release_info r);
     "-configuration"; configuration] None ;;
  when (dry r) (mkdir_parents (PyPath.parent dmg_in) ;; touch dmg_in) ;;
  f ← is_file dmg_in;
  assert f ;;
  let dmg_out :=
    PyPath.join (dist_path r) (project r +:+ "-" +:+ version r +:+ ".dmg") in
  copy dmg_in dmg_out ;;
  set_artifact "dmg" dmg_out.

(** *** Releaser.verify_dependencies *)

(** [glob.glob(pattern, root_dir=self.deps_path)] *)
Definition glob_deps (r : Releaser) (pattern : string) : M (list string) :=
  gets (fun w => glob pattern (deps_path r) (fs w)).

(** The body of the loop of [verify_dependencies]. *)
Definition verify_dependency (r : Releaser) (dep : string) : M unit :=
  pat ← dict_lookup dep (mf_mingw_dependencies (release_info r));
  mingw_matches ← glob_deps r pat;
  assert (length mingw_matches =? 1)%nat ;;
  pat ← dict_lookup dep (mf_dmg_dependencies (release_info r));
  dmg_matches ← glob_deps r pat;
  assert (length dmg_matches =? 1)%nat ;;
  info ← dict_lookup dep (mf_msvc_dependencies (release_info r));
  msvc_matches ← glob_deps r (md_artifact info);
  assert (length msvc_matches =? 1)%nat.

Definition verify_dependencies (r : Releaser) : M unit :=
  for_each (mf_dependencies (release_info r)) (verify_dependency r).

(** *** Releaser.build_vs *)

(** [git_hash_data] *)
Definition git_hash_data (r : Releaser) : string :=
  PyStr.encode (commit r +:+ PyStr.nl).

(** The entry [_zip_add_git_hash] writes; without [time] it is stamped
    2024-04-01. *)
Definition zip_git_hash_entry (r : Releaser) (zroot : option string)
    (t : option datetime) : ZipEntry :=
  let t := match t with
           | Some t => t
           | None => mkDatetime 2024 4 1 0 0 0 0
           end in
  let p := match zroot with
           | Some d => if String.eqb d EmptyString then GIT_HASH_FILENAME
                       else d +:+ "/" +:+ GIT_HASH_FILENAME
           | None => GIT_HASH_FILENAME
           end in
  mkZipEntry p (Some (date_time t, Z.shiftl 33188 16)) (git_hash_data r).

(** [zf.write(p, arcname=a)]: the entry read from the file system. *)
Definition zip_from_file (p a : string) : M ZipEntry :=
  o ← node_at p;
  match o with
  | Some (File d) => ret (mkZipEntry a None d)
  | Some Dir => ret (mkZipEntry (a +:+ "/") None EmptyString)
  | None => raise FileNotFoundError
  end.

(** [with zipfile.ZipFile(p, "w") as zf: ...]: the entries are added one
    by one; the archive is closed, with what it has, also when one
    raises. *)
Fixpoint zip_add_all (p : string) (acc : list ZipEntry)
    (steps : list (M ZipEntry)) : M unit :=
  match steps with
  | [] => write_file p (zip_bytes acc)
  | s :: rest =>
      fun w =>
        match s w with
        | (Ok e, w') => zip_add_all p (acc ++ [e])%list rest w'
        | (Raise x, w') => (write_file p (zip_bytes acc) ;; raise x) w'
        end
  end.

Definition zipfile_write (p : string) (steps : list (M ZipEntry)) : M unit :=
  write_file p EmptyString ;; zip_add_all p [] steps.

(** The members [zf.write] adds for the file lists that have a ["lib"]. *)
Definition lib_steps (r : Releaser) (arch_platform : VsArchPlatformConfig)
    (files : list FilesEntry) : list (M ZipEntry) :=
  flat_map (fun entry =>
    match fe_lib entry with
    | Some lib =>
        let arcdir := configure arch_platform lib in
        map (fun p =>
               let p := configure arch_platform p in
               zip_from_file (PyPath.join (root r) p)
                 (PyPath.join arcdir (PyPath.name p)))
          (fe_paths entry)
    | None => []
    end) files.

(** The first part of [build_vs]: unpacking the pre-built dependencies. *)
Definition member_path (member : string) : string :=
  str_join "/" (tail (PyPath.parts member)).

(** Where a member goes under one copy instruction. *)
Definition destination (r : Releaser) (arch_platform : VsArchPlatformConfig)
    (instr : CopyInstr) (member : string) (f : gmap string node) : string :=
  PyPath.join
    (resolve f (PyPath.join (root r) (configure arch_platform (ci_dst instr))))
    (PyPath.name (member_path member)).

(** [data = zf.read(member)] and the two lines after it. *)
Definition write_member (zdata member dst : string) : M unit :=
  d ← lift (zip_read zdata member);
  mkdir_parents (PyPath.parent dst) ;;
  write_file dst d.

(** The body of [for src_i, src_glob in enumerate(src_globs)]. *)
Definition extract_to (r : Releaser) (arch_platform : VsArchPlatformConfig)
    (zdata member : string) (instr : CopyInstr) : M unit :=
  let src_glob := configure arch_platform (ci_src instr) in
  when (fnmatch (member_path member) src_glob) (
    dst ← gets (fun w => destination r arch_platform instr member (fs w));
    e ← path_exists dst;
    when e (when (negb (overwrite r)) (raise RuntimeError)) ;;
    write_member zdata member dst).

Definition extract_member (r : Releaser) (arch_platform : VsArchPlatformConfig)
    (depinfo : MsvcDep) (zdata member : string) : M unit :=
  for_each (md_copy depinfo) (extract_to r arch_platform zdata member).

(** The body of [for dep, depinfo in ...items()]. *)
Definition extract_dependency (r : Releaser)
    (arch_platform : VsArchPlatformConfig) (item : string * MsvcDep) : M unit :=
  let depinfo := snd item in
  matches ← glob_deps r (md_artifact depinfo);
  match matches with
  | [] => raise IndexError
  | first :: _ =>
      let msvc_zip := PyPath.join (deps_path r) first in
      zdata ← read_file msvc_zip;
      names ← lift (zip_namelist zdata);
      for_each names (extract_member r arch_platform depinfo zdata)
  end.

Definition extract_msvc_dependencies (r : Releaser)
    (arch_platform : VsArchPlatformConfig) : M unit :=
  for_each (mf_msvc_dependencies (release_info r))
    (extract_dependency r arch_platform).

Definition build_vs (r : Releaser) (arch_platform : VsArchPlatformConfig)
    (vs : VisualStudio) : M unit :=
  let msvc_deps_path := PyPath.join (deps_path r) "msvc-deps" in
  rmtree msvc_deps_path ;;
  extract_msvc_dependencies r arch_platform ;;
  match mf_msvc_msbuild (release_info r) with
  | None => raise AssertionError
  | Some mb =>
      assert (negb (mf_msvc_has_cmake (release_info r))) ;;
      let built_paths :=
        flat_map (fun msbuild_files =>
                    map (configure arch_platform) (fe_paths msbuild_files))
          (mb_files mb) in
      for_each built_paths unlink_missing_ok ;;
      VisualStudio_build vs arch_platform (mb_projects mb) ;;
      when (dry r)
        (for_each built_paths (fun b =>
           mkdir_parents (PyPath.parent b) ;; touch b)) ;;
      for_each built_paths (fun b =>
        f ← is_file b; assert f ;;
        mkdir_parents (PyPath.parent b) ;; touch b) ;;
      let zip_path :=
        PyPath.join (dist_path r)
          (project r +:+ "-" +:+ version r +:+ "-win32-" +:+ arch arch_platform
           +:+ ".zip") in
      unlink_missing_ok zip_path ;;
      zipfile_write zip_path
        (lib_steps r arch_platform (mb_files mb)
         ++ lib_steps r arch_platform (mf_msvc_files (release_info r))
         ++ [ret (zip_git_hash_entry r None None)])%list ;;
      set_artifact ("VC-" +:+ arch arch_platform) zip_path ;;
      for_each built_paths (fun p => f ← is_file p; assert f)
  end.

(** *** Releaser.extract_sdl_version *)

(** [next(re.finditer(pattern, text, flags=re.M)).group(1)] *)
Definition first_group1 (pattern text : string) : result (option string) :=
  match re_finditer pattern text with
  | Raise e => Raise e
  | Ok [] => Raise StopIteration
  | Ok (m :: _) =>
      match nth_error m 1 with
      | Some g => Ok g
      | None => Raise IndexError
      end
  end.

Definition extract_sdl_version (root : string) (release_info : Manifest)
  : M string :=
  text ← read_file (PyPath.join root (mf_version_file release_info));
  major ← lift (first_group1 (mf_re_major release_info) text);
  minor ← lift (first_group1 (mf_re_minor release_info) text);
  micro ← lift (first_group1 (mf_re_micro release_info) text);
  ret (PyStr.fmt major +:+ "." +:+ PyStr.fmt minor +:+ "." +:+ PyStr.fmt micro).

End Platforms.

(** ** main, up to the clean-tree check *)

Record Args : Type := mkArgs {
  a_root : string;
  a_deps_path : string;
  a_dist_path : string;
  a_commit : string;
  a_actions : list string;
  a_dry : bool;
  a_force : bool;
  a_overwrite : bool
}.

Section Main.
Context `{Platform}.

(** The clean-tree check of [main]: skipped when building from an
    extracted archive. *)
Definition check_clean_tree (ex : Executer) (root_is_maybe_archive force : bool)
  : M unit :=
  if root_is_maybe_archive then ret tt
  else
    out ← Executer_check_output ex
      ["git"; "status"; "--ignored"; "--porcelain"] None (Some PyStr.nl);
    porcelain_status ← strip_output out;
    when (negb (String.eqb porcelain_status EmptyString))
      (when (negb force) (raise Exception)).

(** [main] from the parsed arguments and the loaded manifest to the
    clean-tree check; it returns the releaser and whether the root holds
    an extracted archive. *)
Definition main_prologue (args : Args) (info : Manifest)
  : M (Releaser * bool) :=
  let deps := abspath (a_deps_path args) in
  let dist := abspath (a_dist_path args) in
  let root_dir := abspath (a_root args) in
  let dist := if a_dry args then PyPath.join dist "dry" else dist in
  let ex := mkExecuter root_dir (a_dry args) in
  let root_git_hash_path := PyPath.join root_dir GIT_HASH_FILENAME in
  root_is_maybe_archive ← is_file root_git_hash_path;
  commit_hash ←
    (if root_is_maybe_archive : bool
     then text ← read_file root_git_hash_path; ret (PyStr.strip text)
     else out ← Executer_check_output ex ["git"; "rev-parse"; a_commit args]
                  None (Some "e5812a9fd2cda317b503325a702ba3c1c37861d9");
          strip_output out);
  v ← extract_sdl_version root_dir info;
  let releaser :=
    mkReleaser info (mf_name info) v root_dir commit_hash dist ex deps
      (a_overwrite args) in
  check_clean_tree ex root_is_maybe_archive (a_force args) ;;
  ret (releaser, root_is_maybe_archive).

End Main.

(** ** A small platform to run the script on

    The instance below stands in for git, the codecs and the matchers, so
    that the definitions above can be evaluated on concrete inputs. *)

Module Example.

Definition digit (c : ascii) : option Z :=
  let n := nat_of_ascii c in
  if (48 <=? n)%nat && (n <=? 57)%nat then Some (Z.of_nat (n - 48)) else None.

Fixpoint number (acc : Z) (s : string) : option Z :=
  match s with
  | EmptyString => Some acc
  | String c s' =>
      match digit c with
      | Some d => number (acc * 10 + d) s'
      | None => None
      end
  end.

Definition field (from len : nat) (s : string) : option Z :=
  let f := String.substring from len s in
  if (String.length f =? len)%nat then number 0 f else None.

(** Strict [YYYY-MM-DDTHH:MM:SS+HH:MM], the form [%cI] prints. *)
Definition iso (s : string) : option datetime :=
  if negb (String.length s =? 25)%nat then None else
  match field 0 4 s, field 5 2 s, field 8 2 s, field 11 2 s, field 14 2 s,
        field 17 2 s, field 20 2 s, field 23 2 s with
  | Some y, Some mo, Some d, Some h, Some mi, Some sec, Some oh, Some om =>
      let sign := if String.eqb (String.substring 19 1 s) "-" then -1 else 1 in
      Some (mkDatetime y mo d h mi sec (sign * (oh * 3600 + om * 60)))
  | _, _, _, _, _, _, _, _ => None
  end.

Definition members : list TarInfo :=
  [ mkTarInfo "src" 16877 false EmptyString;
    mkTarInfo ".gitignore" 33188 true "build";
    mkTarInfo "src/IMG.c" 33188 true "int x;";
    mkTarInfo "CMakeLists.txt" 33188 true "project(SDL2_image)";
    mkTarInfo "include/SDL_image.h" 33188 true "#define SDL_IMAGE_MAJOR_VERSION 2" ].

Definition git_log : string :=
  str_join PyStr.nl
    [ "time=2024-03-14T15:40:25-07:00"; EmptyString;
      "M" +:+ String PyStr.tab "CMakeLists.txt";
      "time=2024-03-01T10:00:00+01:00"; EmptyString;
      "M" +:+ String PyStr.tab "CMakeLists.txt";
      "A" +:+ String PyStr.tab ".gitignore";
      "time=2024-02-01T10:00:00+00:00"; EmptyString;
      "R100" +:+ String PyStr.tab "IMG.c" +:+ String PyStr.tab "src/IMG.c";
      "A" +:+ String PyStr.tab "include/SDL_image.h"; EmptyString ].

Definition git (cmd : list string) (dir : string) (f : gmap string node)
  : option string * gmap string node :=
  match cmd with
  | "git" :: "archive" :: _ => (Some "TGZ", f)
  | "git" :: "log" :: _ => (Some git_log, f)
  | "git" :: "rev-parse" :: _ => (Some ("0123abcd" +:+ PyStr.nl), f)
  | "git" :: "status" :: _ => (Some " M src/IMG.c" , f)
  | _ => (Some EmptyString, f)
  end.

Definition show_zip (e : ZipEntry) : string := ze_filename e +:+ "=" +:+ ze_data e +:+ ";".
Definition show_tar (e : TarEntry) : string := te_name e +:+ "=" +:+ te_data e +:+ ";".

(** Ten header bytes, the fifth to eighth of which stand for the time
    the gzip header carries, then the members. *)
Definition header : string := "HEADtimeXY".

(** The text after the first occurrence of [key] in [text]. *)
Fixpoint after (key text : string) : option string :=
  match text with
  | EmptyString => if String.eqb key EmptyString then Some EmptyString else None
  | String _ text' =>
      if PyStr.startswith key text then Some (PyStr.drop (String.length key) text)
      else after key text'
  end.

Fixpoint digits (s : string) : string :=
  match s with
  | String c s' => match digit c with Some _ => String c (digits s') | None => EmptyString end
  | EmptyString => EmptyString
  end.

(** A matcher for patterns of the shape [key(\d+)]: the pattern is its key. *)
Definition finditer (pattern text : string) : result (list (list (option string))) :=
  match after pattern text with
  | Some rest =>
      match digits rest with
      | EmptyString => Ok []
      | d => Ok [[Some (pattern +:+ d); Some d]]
      end
  | None => Ok []
  end.

(** Wildcard matching where [*] stands for any run of characters. *)
Fixpoint wild (pattern name : list ascii) : bool :=
  match pattern with
  | [] => match name with [] => true | _ => false end
  | c :: pattern' =>
      if Ascii.eqb c "*"%char then
        (fix try (n : list ascii) : bool :=
           wild pattern' n
           || match n with [] => false | _ :: n' => try n' end) name
      else match name with
           | c' :: name' => Ascii.eqb c c' && wild pattern' name'
           | [] => false
           end
  end.

Definition star (pattern name : string) : bool :=
  wild (list_ascii_of_string pattern) (list_ascii_of_string name).

Definition list_dir (pattern d : string) (f : gmap string node) : list string :=
  omap (fun kv =>
          let k := fst kv in
          if PyStr.startswith (d +:+ "/") k
          then let n := PyStr.drop (S (String.length d)) k in
               if star pattern n then Some n else None
          else None)
    (map_to_list f).

#[global] Instance platform : Platform := {|
  cwd := "/proj";
  gettempdir := "/tmp";
  subprocess := git;
  fromisoformat := iso;
  tar_parse := fun s => if String.eqb s "TGZ" then Ok members else Raise ReadError;
  zip_bytes := fun l => "PK" +:+ String.concat EmptyString (map show_zip l);
  tar_bytes := fun comp l => header +:+ comp +:+ ":" +:+ String.concat EmptyString (map show_tar l);
  re_finditer := finditer;
  glob := list_dir;
  fnmatch := fun n p => star p n;
  zip_namelist := fun z => Ok (PyStr.split_sep ";"%char z);
  zip_read := fun z m => Ok m;
  resolve := fun _ p => p
|}.

Definition info : Manifest :=
  mkManifest "SDL2_image" "include/SDL_image.h"
    "MAJOR_VERSION " "MINOR_VERSION " "PATCHLEVEL "
    ["CMakeLists.txt"; ".gitignore"]
    ["SDL2"]
    [("SDL2", "SDL2-devel-*-mingw.tar.gz")]
    [("SDL2", "SDL2-*.dmg")]
    [("SDL2", mkMsvcDep "SDL2-devel-*-VC.zip" [mkCopyInstr "lib/@ARCH@/*" "VisualC/external/@ARCH@"])]
    "Xcode/build/SDL2_image.dmg" "Xcode/SDL_image.xcodeproj" "Create DMG"
    (Some (mkMsbuild [mkFilesEntry (Some "lib/@ARCH@") None ["VisualC/@PLATFORM@/SDL2_image.dll"]]
                     ["VisualC/SDL_image.sln"]))
    false
    [].

Definition releaser (is_dry : bool) : Releaser :=
  mkReleaser info "SDL2_image" "2.8.1" "/proj" "0123abcd"
    (if is_dry then "/proj/dist/dry" else "/proj/dist")
    (mkExecuter "/proj" is_dry) "/proj/deps" false.

Definition files : gmap string node :=
  list_to_map
    [ ("/", Dir); ("/tmp", Dir); ("/proj", Dir); ("/proj/dist", Dir);
      ("/proj/dist/dry", Dir); ("/proj/deps", Dir);
      ("/proj/Xcode", Dir); ("/proj/Xcode/SDL_image.xcodeproj", Dir);
      ("/proj/include", Dir);
      ("/proj/include/SDL_image.h",
       File "MAJOR_VERSION 2 MINOR_VERSION 8 PATCHLEVEL 1");
      ("/proj/deps/SDL2-devel-2.30.0-mingw.tar.gz", File "a");
      ("/proj/deps/SDL2-2.30.0.dmg", File "b");
      ("/proj/deps/SDL2-devel-2.30.0-VC.zip", File "SDL2-2.30.0/lib/x86/SDL2.dll") ].

Definition start : world := mkWorld files [] [].

(** The same, with a library of an earlier build already in place. *)
Definition start_with_dll : world :=
  mkWorld (<["/proj/VisualC/external/x86/SDL2.dll" := File "old"]> files) [] [].

Definition x86 : VsArchPlatformConfig :=
  mkVsArchPlatformConfig "x86" "Win32" "Release".

Definition studio (is_dry : bool) : VisualStudio :=
  mkVisualStudio (mkExecuter "/proj" is_dry)
    (Some "/tmp/Common7/Tools/vsdevcmd.bat") (Some "/tmp/MSBuild.exe").

(** The world a release of the source archives leaves behind. *)
Definition finish : world := snd (create_source_archives (releaser false) start).

(** What [_get_git_contents] reads from the snapshot above. *)
Definition contents : list (string * TreeItem) :=
  [ ("src/IMG.c", mkTreeItem "src/IMG.c" 33188 "int x;"
                    (mkDatetime 2024 2 1 10 0 0 0));
    ("CMakeLists.txt", mkTreeItem "CMakeLists.txt" 33188 "project(SDL2_image)"
                         (mkDatetime 2024 3 14 15 40 25 (-25200)));
    ("include/SDL_image.h",
     mkTreeItem "include/SDL_image.h" 33188 "#define SDL_IMAGE_MAJOR_VERSION 2"
       (mkDatetime 2024 2 1 10 0 0 0)) ].

End Example.

(** ** Vocabulary of the statements *)

Section Vocabulary.
Context `{Platform}.

(** The paths a line of the log names; a blank line and a time header
    name none. *)
Definition touching (line : string) : list string :=
  if String.eqb line EmptyString then []
  else if PyStr.startswith "time=" line then []
  else match PyStr.split_maxsplit1 line with
       | [_; file_paths] => PyStr.split_sep PyStr.tab file_paths
       | _ => []
       end.

Definition is_header (line : string) : bool :=
  negb (String.eqb line EmptyString) && PyStr.startswith "time=" line.

(** The committer time of the commit that the lines [before] have
    reached: the time of the last header among them. *)
Definition header_time (before : list string) : option datetime :=
  match List.find is_header (rev before) with
  | Some line => fromisoformat (PyStr.removeprefix "time=" line)
  | None => None
  end.

(** [t] is the committer time of the newest commit of [log] touching [p]:
    walking the log from its top, the first line naming [p] stands under
    the header of time [t]. *)
Definition first_touch (log : list string) (p : string) (t : datetime) : Prop :=
  ∃ before line after,
    log = (before ++ line :: after)%list
    ∧ p ∈ touching line
    ∧ Forall (fun l => p ∉ touching l) before
    ∧ header_time before = Some t.

(** No commit of the log touches [p]. *)
Definition untouched (log : list string) (p : string) : Prop :=
  Forall (fun l => p ∉ touching l) log.

(** A line git log prints in this format: blank, a header whose time
    parses, or a status and its tab-separated paths. *)
Definition line_ok (line : string) : bool :=
  if String.eqb line EmptyString then true
  else if PyStr.startswith "time=" line
  then match fromisoformat (PyStr.removeprefix "time=" line) with
       | Some _ => true
       | None => false
       end
  else match PyStr.split_maxsplit1 line with
       | [_; _] => true
       | _ => false
       end.

(** Every line is one git log prints, and no status line comes before
    the first header. *)
Fixpoint well_formed (seen_header : bool) (log : list string) : bool :=
  match log with
  | [] => true
  | line :: rest =>
      line_ok line
      && (if is_header line then well_formed true rest
          else (String.eqb line EmptyString || seen_header)
               && well_formed seen_header rest)
  end.

(** The entries [create_source_archives] writes, in the order it writes
    them, when it gets that far. *)
Definition archive_members (r : Releaser) (w : world) : result (list TreeItem) :=
  match _get_git_contents r w with
  | (Ok git_contents, _) =>
      match latest (map time (dict_values git_contents)) with
      | Ok latest_mod_time =>
          Ok (sort_by_time (appended r (dict_values git_contents) latest_mod_time))
      | Raise e => Raise e
      end
  | (Raise e, _) => Raise e
  end.

(** The three archive paths of [create_source_archives]. *)
Definition source_archive_path (r : Releaser) (ext : string) : string :=
  PyPath.join (dist_path r) (archive_base r +:+ ext).

(** [p] is, or lies below, the directory [d]. *)
Definition below (d p : string) : bool := under d p.

(** The timestamp [sort] compares, and the test for one timestamp. *)
Definition ts (x : TreeItem) : Z := timestamp (time x).
Definition same_time (k : Z) (x : TreeItem) : bool := ts x =? k.

(** The names of the regular files of the snapshot: [filenames]. *)
Definition filenames (contents : list TarInfo) : list string :=
  map ti_name (List.filter ti_isfile contents).

(** What an entry of [git_contents] is: a regular file of the snapshot
    that passes the filter, under its own name, with the time
    [file_times] gives it. *)
Definition from_snapshot (file_times : gmap string datetime)
    (contents : list TarInfo) (kv : string * TreeItem) : Prop :=
  path (snd kv) = fst kv
  /\ _path_filter (fst kv) = true
  /\ file_times !! fst kv = Some (time (snd kv))
  /\ extractfile contents (fst kv) = Ok (Some (data (snd kv)))
  /\ exists ti, ti ∈ contents /\ ti_isfile ti = true /\ ti_name ti = fst kv.

(** The invariant of the loop over the log: the current time is that of
    the last header, a recorded path carries the time of its first
    mention, and a requested path without a record has not been
    mentioned. *)
Definition times_inv (S : gset string) (done : list string)
    (st : option datetime * gmap string datetime) : Prop :=
  fst st = header_time done
  /\ (forall p t, snd st !! p = Some t -> p ∈ S /\ first_touch done p t)
  /\ (forall p, p ∈ S -> snd st !! p = None -> untouched done p).

(** The manifest's glob patterns of one dependency, by platform family:
    mingw, dmg, msvc; [None] where the manifest declares none. *)
Definition dependency_patterns (r : Releaser) (dep : string)
  : list (option string) :=
  [ dict_get dep (mf_mingw_dependencies (release_info r));
    dict_get dep (mf_dmg_dependencies (release_info r));
    option_map md_artifact (dict_get dep (mf_msvc_dependencies (release_info r))) ].

(** Exactly one file of the dependency folder matches the pattern. *)
Definition one_match (r : Releaser) (w : world) (pattern : option string) : bool :=
  match pattern with
  | Some p => (length (glob p (deps_path r) (fs w)) =? 1)%nat
  | None => false
  end.

Definition dependency_ok (r : Releaser) (w : world) (dep : string) : bool :=
  forallb (one_match r w) (dependency_patterns r dep).

Definition declared (r : Releaser) (dep : string) : bool :=
  forallb (fun o => match o with Some _ => true | None => false end)
    (dependency_patterns r dep).

(** A computation that starts no process. *)
Definition quiet {A : Type} (m : M A) : Prop :=
  forall w, procs (snd (m w)) = procs w.

(** The byte at offset [i] of [s]. *)
Definition byte_at (i : nat) (s : string) : option ascii := String.get i s.

End Vocabulary.

(** * More of the script *)

(** ** Releaser.download_dependencies *)

(** An entry of the manifest's ["dependencies"]: the release name prefix and
    the repository to fetch from. *)
Record DepInfo : Type := mkDepInfo { di_startswith : string; di_repo : string }.

Section Download.
Context `{Platform}.

(** [p.mkdir(parents=True)]: the directory must not be there yet. *)
Definition mkdir_parents_new (p : string) : M unit :=
o ← node_at p;
match o with
| Some _ => raise FileExistsError
| None => mkdir_parents p
end.

(** The [--jq] filter of the release query. *)
Definition release_filter (prefix : string) : string :=
"[.[]|select(.name|startswith(" +:+ dquote +:+ prefix +:+ dquote
+:+ "))]|max_by(.createdAt)|.tagName".

(** The body of the loop of [download_dependencies]. *)
Definition download_dependency (r : Releaser) (item : string * DepInfo) : M unit :=
let depinfo := snd item in
out ← Executer_check_output (executer r)
  ["gh"; "-R"; di_repo depinfo; "release"; "list"; "--exclude-drafts";
   "--exclude-pre-releases"; "--json"; "name,createdAt,tagName"; "--jq";
   release_filter (di_startswith depinfo)] None None;
dep_tag ← strip_output out;
Executer_run (executer r)
  ["gh"; "-R"; di_repo depinfo; "release"; "download"; dep_tag]
  (Some (deps_path r)).

(** [download_dependencies]; [dependencies] are the items of the manifest's
    ["dependencies"]. *)
Definition download_dependencies (r : Releaser)
  (dependencies : list (string * DepInfo)) : M unit :=
rmtree (deps_path r) ;;
mkdir_parents_new (deps_path r) ;;
for_each dependencies (download_dependency r).

End Download.

(** ** Releaser.build_vs_devel *)

(** ["@" in s] *)
Fixpoint has_at (s : string) : bool :=
match s with
| EmptyString => false
| String c s' => Ascii.eqb c "@"%char || has_at s'
end.

Section Devel.
Context `{Platform}.

(** The [zf.write] calls of one path of a file list with a ["devel"] key.
    [p] is the local variable [p] of [build_vs_devel], unbound at first;
    [literal] says which file the branch without placeholders reads: the
    loop over the msbuild files reads [p], the loop over the extra files
    reads [path]. *)
Definition devel_path_steps (r : Releaser) (arch_platforms : list VsArchPlatformConfig)
  (literal : option string -> string -> option string)
  (devel : string) (acc : list (M ZipEntry) * option string) (path : string)
  : list (M ZipEntry) * option string :=
let '(steps, p) := acc in
if has_at path || has_at devel then
  fold_left
    (fun acc arch_platform =>
       let p := configure arch_platform path in
       let arcdir := PyPath.join (archive_base r) (configure arch_platform devel) in
       (fst acc ++ [zip_from_file (PyPath.join (root r) p)
                      (PyPath.join arcdir (PyPath.name p))], Some p)%list)
    arch_platforms (steps, p)
else
  match literal p path with
  | None => (steps ++ [raise NameError], p)%list
  | Some q =>
      (steps ++ [zip_from_file (PyPath.join (root r) q)
                   (PyPath.join (PyPath.join (archive_base r) devel)
                      (PyPath.name q))], p)%list
  end.

Definition devel_steps (r : Releaser) (arch_platforms : list VsArchPlatformConfig)
  (literal : option string -> string -> option string)
  (files : list FilesEntry) (acc : list (M ZipEntry) * option string)
  : list (M ZipEntry) * option string :=
fold_left
  (fun acc entry =>
     match fe_devel entry with
     | Some devel =>
         fold_left (devel_path_steps r arch_platforms literal devel)
           (fe_paths entry) acc
     | None => acc
     end) files acc.

(** In the loop over the msbuild files the branch without placeholders
    reads [p]; in the loop over the extra files it reads [path]. *)
Definition literal_p (p : option string) (path : string) : option string := p.
Definition literal_path (p : option string) (path : string) : option string :=
Some path.

Definition build_vs_devel (r : Releaser) (arch_platforms : list VsArchPlatformConfig)
  : M unit :=
let zip_path :=
  PyPath.join (dist_path r)
    (project r +:+ "-devel-" +:+ version r +:+ "-VC.zip") in
match mf_msvc_msbuild (release_info r) with
| None => zipfile_write zip_path [raise KeyError]
| Some mb =>
    let after_msbuild :=
      devel_steps r arch_platforms literal_p (mb_files mb) ([], None) in
    let after_extra :=
      devel_steps r arch_platforms literal_path (mf_msvc_files (release_info r))
        after_msbuild in
    zipfile_write zip_path
      (fst after_extra ++ [ret (zip_git_hash_entry r (Some (archive_base r)) None)])%list ;;
    set_artifact "VC-devel" zip_path
end.

End Devel.

(** ** class SectionPrinter, class GitHubSectionPrinter

    The printers have a state of their own: what was printed, and the flag
    [in_group] of the GitHub printer. *)

Record printer : Type := mkPrinter {
  in_group : bool;
  printed : list string
}.

Definition PM (A : Type) : Type := printer -> result A * printer.

Definition print (line : string) : PM unit :=
fun s => (Ok tt, mkPrinter (in_group s) (printed s ++ [line])%list).

Definition set_in_group (b : bool) : PM unit :=
fun s => (Ok tt, mkPrinter b (printed s)).

(** [a; b] *)
Definition pm_then {A} (a : PM unit) (b : PM A) : PM A :=
fun s => match a s with
         | (Ok _, s') => b s'
         | (Raise e, s') => (Raise e, s')
         end.

(** [with SectionPrinter().group(title): body] *)
Definition SectionPrinter_group (title : string) (body : PM unit) : PM unit :=
pm_then (print (title +:+ ":")) body.

(** [with GitHubSectionPrinter().group(title): body].  The generator has no
    [try] around its [yield]: when the body raises, what follows the
    [yield] does not run. *)
Definition GitHubSectionPrinter_group (title : string) (body : PM unit) : PM unit :=
pm_then (print ("::group::" +:+ title))
  (pm_then (fun s => if in_group s then (Raise AssertionError, s) else (Ok tt, s))
     (pm_then (set_in_group true)
        (pm_then body
           (pm_then (set_in_group false) (print "::endgroup::"))))).

(** ** chdir

    The working directory is a state of its own, next to the directories
    there are; the body of the [with] may change both.  Paths are
    absolute, as [os.getcwd] gives them and as the script passes them;
    regular files are not part of this state, so that a path that is not
    among the directories does not exist. *)

Record cstate : Type := mkCstate {
  cs_cwd : string;
  cs_dirs : gset string
}.

Definition CM (A : Type) : Type := cstate -> result A * cstate.

(** [os.chdir(path)] *)
Definition os_chdir (path : string) : CM unit :=
fun s =>
  if bool_decide (path ∈ cs_dirs s) then (Ok tt, mkCstate path (cs_dirs s))
  else (Raise FileNotFoundError, s).

(** [with chdir(path): body]: [try: os.chdir(path); yield] and
    [finally: os.chdir(original_cwd)]; an exception of the [finally]
    block replaces the one under way. *)
Definition chdir {A} (path : string) (body : CM A) : CM A :=
fun s =>
  let original_cwd := cs_cwd s in
  let attempt :=
    match os_chdir path s with
    | (Ok _, s1) => body s1
    | (Raise e, s1) => (Raise e, s1)
    end in
  match os_chdir original_cwd (snd attempt) with
  | (Ok _, s2) => (fst attempt, s2)
  | (Raise e, s2) => (Raise e, s2)
  end.

(** ** main, from [prepare] to the source archives *)

Section MainActions.
Context `{Platform}.

(** ["action" in args.actions] *)
Definition has_action (action : string) (actions : list string) : bool :=
existsb (String.eqb action) actions.

(** [main] after the summary of the arguments, up to and including the
    ["source"] action; [dependencies] are the items of the manifest's
    ["dependencies"]. *)
Definition main_source_stage (actions : list string) (r : Releaser)
  (root_is_maybe_archive : bool) (dependencies : list (string * DepInfo))
  : M unit :=
prepare r ;;
when (has_action "download" actions) (download_dependencies r dependencies) ;;
verify_dependencies r ;;
when (has_action "source" actions)
  (if root_is_maybe_archive then raise Exception
   else create_source_archives r).

End MainActions.

(** ** A platform whose processes build the disk image *)

Module Mac.

Definition xcodebuild (cmd : list string) (dir : string) (f : gmap string node)
  : option string * gmap string node :=
(Some EmptyString, <["/proj/Xcode/build/SDL2_image.dmg" := File "image"]> f).

Definition platform : Platform := {|
  cwd := "/proj";
  gettempdir := "/tmp";
  subprocess := xcodebuild;
  fromisoformat := Example.iso;
  tar_parse := fun _ => Raise ReadError;
  zip_bytes := fun _ => EmptyString;
  tar_bytes := fun _ _ => EmptyString;
  re_finditer := Example.finditer;
  glob := Example.list_dir;
  fnmatch := fun n p => Example.star p n;
  zip_namelist := fun _ => Ok [];
  zip_read := fun _ m => Ok m;
  resolve := fun _ p => p
|}.

Definition finish : world :=
snd (@create_dmg platform (Example.releaser false) "Release" Example.start).

End Mac.

(** ** A platform whose commit holds nothing to pack: a directory and a
    [.gitignore] *)

Module Bare.

Definition members : list TarInfo :=
[ mkTarInfo "src" 16877 false EmptyString;
  mkTarInfo ".gitignore" 33188 true "build" ].

Definition platform : Platform := {|
  cwd := "/proj";
  gettempdir := "/tmp";
  subprocess := Example.git;
  fromisoformat := Example.iso;
  tar_parse := fun s => if String.eqb s "TGZ" then Ok members else Raise ReadError;
  zip_bytes := fun _ => EmptyString;
  tar_bytes := fun _ _ => EmptyString;
  re_finditer := Example.finditer;
  glob := Example.list_dir;
  fnmatch := fun n p => Example.star p n;
  zip_namelist := fun _ => Ok [];
  zip_read := fun _ m => Ok m;
  resolve := fun _ p => p
|}.

End Bare.

(** ** A small manifest and its releaser, to run single functions on *)

Module Sample.

Definition manifest (checks dependencies : list string) (dmg_project : string)
  (msbuild : option Msbuild) : Manifest :=
mkManifest "x" EmptyString EmptyString EmptyString EmptyString checks dependencies
  [] [] [] "out.dmg" dmg_project EmptyString msbuild false [].

Definition releaser (info : Manifest) : Releaser :=
mkReleaser info "x" "1.0.0" "/proj" "c" "/proj/dist" (mkExecuter "/proj" false)
  "/proj/deps" false.

End Sample.

(** * Proofs *)

(** ** Running computations *)

Lemma bind_run {A B} (m : M A) (k : A -> M B) (w : world) :
  (m ≫= k) w = match m w with
               | (Ok a, w') => k a w'
               | (Raise e, w') => (Raise e, w')
               end.
Proof. reflexivity. Qed.

Lemma bind_ok {A B} (m : M A) (k : A -> M B) (w w' : world) (b : B) :
  (m ≫= k) w = (Ok b, w') ->
  exists a w1, m w = (Ok a, w1) /\ k a w1 = (Ok b, w').
Proof.
  rewrite bind_run. destruct (m w) as [[a|e] w1]; intros Hk.
  - exists a, w1. split; [reflexivity | exact Hk].
  - discriminate Hk.
Qed.

Lemma bind_raise {A B} (m : M A) (k : A -> M B) (w w' : world) (e : exn) :
  m w = (Raise e, w') -> (m ≫= k) w = (Raise e, w').
Proof. intros Hm. rewrite bind_run, Hm. reflexivity. Qed.

Lemma bind_step {A B} (m : M A) (k : A -> M B) (w w1 : world) (a : A) :
  m w = (Ok a, w1) -> (m ≫= k) w = k a w1.
Proof. intros Hm. rewrite bind_run, Hm. reflexivity. Qed.

Lemma for_each_cons {A} (x : A) (l : list A) (body : A -> M unit) :
  for_each (x :: l) body = (body x ≫= fun _ => for_each l body).
Proof. reflexivity. Qed.

(** A loop of assertions passes exactly when each one holds, and it leaves
    the world alone. *)
Lemma for_each_assert {A} (f : A -> bool) (l : list A) (w : world) :
  for_each l (fun x => assert (f x)) w
  = (if forallb f l then Ok tt else Raise AssertionError, w).
Proof.
  induction l as [|x l IH]; [reflexivity|].
  rewrite for_each_cons, bind_run. simpl. unfold assert.
  destruct (f x); simpl; [exact IH | reflexivity].
Qed.

(** ** Sorting by timestamp *)

Lemma insert_by_time_perm x l : Permutation (insert_by_time x l) (x :: l).
Proof.
  induction l as [|y l IH]; simpl; [reflexivity|].
  destruct (dt_leb (time x) (time y)); [reflexivity|].
  rewrite IH. apply perm_swap.
Qed.

Lemma sort_by_time_perm l : Permutation (sort_by_time l) l.
Proof.
  induction l as [|x l IH]; simpl; [reflexivity|].
  fold (sort_by_time l). rewrite insert_by_time_perm. by constructor.
Qed.

Lemma insert_by_time_sorted x l :
  StronglySorted (fun a b => ts a <= ts b) l ->
  StronglySorted (fun a b => ts a <= ts b) (insert_by_time x l).
Proof.
  induction 1 as [|y l Hl IH Hy]; simpl.
  - repeat constructor.
  - unfold dt_leb. fold (ts x) (ts y). destruct (Z.leb_spec (ts x) (ts y)) as [Hxy|Hxy].
    + constructor; [by constructor|].
      constructor; [exact Hxy|].
      eapply Forall_impl; [exact Hy|]. simpl. intros z Hz. lia.
    + constructor; [exact IH|].
      rewrite (insert_by_time_perm x l). constructor; [lia | exact Hy].
Qed.

Lemma sort_by_time_sorted l :
  StronglySorted (fun a b => ts a <= ts b) (sort_by_time l).
Proof.
  induction l as [|x l IH]; simpl; [constructor|].
  by apply insert_by_time_sorted.
Qed.

Lemma insert_by_time_same k x l :
  List.filter (same_time k) (insert_by_time x l)
  = if same_time k x then x :: List.filter (same_time k) l
    else List.filter (same_time k) l.
Proof.
  induction l as [|y l IH]; simpl; [reflexivity|].
  unfold dt_leb. fold (ts x) (ts y).
  destruct (Z.leb_spec (ts x) (ts y)) as [Hxy|Hxy]; [reflexivity|].
  simpl. rewrite IH. unfold same_time in *.
  destruct (Z.eqb_spec (ts x) k), (Z.eqb_spec (ts y) k); try reflexivity.
  lia.
Qed.

(** Stability: the items of one timestamp keep their order. *)
Lemma sort_by_time_stable k l :
  List.filter (same_time k) (sort_by_time l) = List.filter (same_time k) l.
Proof.
  induction l as [|x l IH]; simpl; [reflexivity|].
  fold (sort_by_time l). rewrite insert_by_time_same, IH. reflexivity.
Qed.

Lemma latest_fold_spec (l : list datetime) (m : datetime) :
  let r := fold_left (fun m x => if dt_ltb m x then x else m) l m in
  (r = m \/ In r l) /\ timestamp m <= timestamp r
  /\ Forall (fun x => timestamp x <= timestamp r) l.
Proof.
  cbv zeta. revert m. induction l as [|x l IH]; intros m; cbn [fold_left].
  - split; [by left|]. split; [lia | constructor].
  - destruct (dt_ltb m x) eqn:E; unfold dt_ltb in E.
    + apply Z.ltb_lt in E. destruct (IH x) as (Hin & Hx & Hall). split; [|split].
      * right. destruct Hin as [Heq|Hin]; [left; by rewrite Heq | by right].
      * lia.
      * constructor; [exact Hx | exact Hall].
    + apply Z.ltb_ge in E. destruct (IH m) as (Hin & Hm & Hall). split; [|split].
      * destruct Hin as [Heq|Hin]; [by left | right; by right].
      * exact Hm.
      * constructor; [lia | exact Hall].
Qed.

(** [max] returns one of the items, and none is later. *)
Lemma latest_spec (l : list datetime) (t : datetime) :
  latest l = Ok t -> In t l /\ Forall (fun x => dt_le x t) l.
Proof.
  destruct l as [|m l]; simpl; [discriminate|].
  intros [= <-]. destruct (latest_fold_spec l m) as (Hin & Hm & Hall).
  split.
  - destruct Hin as [->|Hin]; [by left | by right].
  - constructor; [exact Hm | exact Hall].
Qed.

(** ** Releaser._get_file_times *)

Section FileTimes.
Context `{Platform}.

Lemma header_time_snoc (before : list string) (line : string) :
  header_time (before ++ [line])
  = if is_header line then fromisoformat (PyStr.removeprefix "time=" line)
    else header_time before.
Proof.
  unfold header_time. rewrite rev_app_distr. simpl.
  destruct (is_header line); reflexivity.
Qed.

Lemma first_touch_app (done more : list string) (p : string) (t : datetime) :
  first_touch done p t -> first_touch (done ++ more) p t.
Proof.
  intros (before & line & after & -> & Hin & Hbefore & Ht).
  exists before, line, (after ++ more)%list.
  repeat split; try assumption.
  by rewrite <- app_assoc.
Qed.

Lemma untouched_snoc (done : list string) (line p : string) :
  untouched done p -> p ∉ touching line -> untouched (done ++ [line]) p.
Proof.
  intros Hd Hl. apply Forall_app. split; [exact Hd | by constructor].
Qed.

(** The first mention of a path is unique, so its time is too. *)
Lemma first_touch_unique (log : list string) (p : string) (t t' : datetime) :
  first_touch log p t -> first_touch log p t' -> t = t'.
Proof.
  intros (b1 & l1 & a1 & E1 & H1 & F1 & T1) (b2 & l2 & a2 & E2 & H2 & F2 & T2).
  assert (b1 = b2) as Hsame; [|rewrite Hsame in T1; congruence].
  clear T1 T2. subst log. revert b2 E2 F2.
  induction b1 as [|x b1 IH]; intros [|y b2] E2 F2; simpl in *.
  - reflexivity.
  - injection E2 as -> _. by apply Forall_cons in F2 as [? _].
  - injection E2 as -> _. by apply Forall_cons in F1 as [? _].
  - injection E2 as -> E2. f_equal.
    apply Forall_cons in F1 as [_ F1]. apply Forall_cons in F2 as [_ F2].
    by apply IH.
Qed.

(** What the inner loop leaves in [path_times]. *)
Lemma record_paths_lookup (S : gset string) (t : datetime) (file_paths : string)
    (pt : gmap string datetime) (p : string) (t0 : datetime) :
  record_paths S t file_paths pt !! p = Some t0
  <-> pt !! p = Some t0
      \/ (pt !! p = None /\ p ∈ S
          /\ p ∈ PyStr.split_sep PyStr.tab file_paths /\ t0 = t).
Proof.
  unfold record_paths.
  generalize (PyStr.split_sep PyStr.tab file_paths) as l.
  intros l. revert pt. induction l as [|x l IH]; intros pt; simpl.
  - rewrite elem_of_nil. naive_solver.
  - rewrite IH. clear IH. rewrite elem_of_cons.
    destruct (decide (x ∈ S)) as [HxS|HxS];
      [rewrite (bool_decide_eq_true_2 _ HxS)
      |rewrite (bool_decide_eq_false_2 _ HxS)]; simpl.
    + destruct (pt !! x) as [tx|] eqn:Hx.
      * rewrite bool_decide_eq_true_2 by eauto. simpl.
        destruct (decide (p = x)) as [->|Hne]; naive_solver.
      * rewrite bool_decide_eq_false_2 by (intros [? ?]; congruence). simpl.
        destruct (decide (p = x)) as [->|Hne].
        -- rewrite lookup_insert_eq. naive_solver.
        -- rewrite lookup_insert_ne by congruence. naive_solver.
    + destruct (decide (p = x)) as [->|Hne]; naive_solver.
Qed.

Lemma record_paths_none (S : gset string) (t : datetime) (file_paths : string)
    (pt : gmap string datetime) (p : string) :
  record_paths S t file_paths pt !! p = None ->
  pt !! p = None
  /\ (p ∈ S -> p ∉ PyStr.split_sep PyStr.tab file_paths).
Proof.
  intros Hnone.
  destruct (pt !! p) as [t0|] eqn:Hp.
  - assert (record_paths S t file_paths pt !! p = Some t0) as Hsome
      by (apply record_paths_lookup; by left).
    congruence.
  - split; [reflexivity|]. intros HS Hin.
    assert (record_paths S t file_paths pt !! p = Some t) as Hsome
      by (apply record_paths_lookup; right; done).
    congruence.
Qed.

Lemma times_inv_start (S : gset string) : times_inv S [] (None, ∅).
Proof.
  split; [reflexivity|]. split.
  - intros p t. simpl. by rewrite lookup_empty.
  - intros p _ _. constructor.
Qed.

Lemma times_inv_line (S : gset string) (done : list string) (line : string)
    (st st' : option datetime * gmap string datetime) :
  times_inv S done st ->
  file_times_line S st line = Ok st' ->
  times_inv S (done ++ [line]) st'.
Proof.
  destruct st as [cur pt]. intros (Hcur & Hrec & Hnone). simpl in *.
  unfold file_times_line.
  assert (Hkeep : is_header line = false -> touching line = [] ->
                  times_inv S (done ++ [line]) (cur, pt)).
  { intros Hh Ht. split; [|split]; simpl.
    - by rewrite header_time_snoc, Hh.
    - intros p t Hp. destruct (Hrec p t Hp). split; [done|].
      by apply first_touch_app.
    - intros p HS Hp. apply untouched_snoc; [by apply Hnone|].
      rewrite Ht. apply not_elem_of_nil. }
  destruct (String.eqb line EmptyString) eqn:Hblank.
  { intros [= <-]. apply Hkeep.
    - unfold is_header. by rewrite Hblank.
    - unfold touching. by rewrite Hblank. }
  destruct (PyStr.startswith "time=" line) eqn:Htime.
  { destruct (fromisoformat (PyStr.removeprefix "time=" line)) as [t|] eqn:Hparse;
      [|discriminate].
    intros [= <-]. split; [|split]; simpl.
    - rewrite header_time_snoc. unfold is_header. by rewrite Hblank, Htime.
    - intros p t0 Hp. destruct (Hrec p t0 Hp). split; [done|].
      by apply first_touch_app.
    - intros p HS Hp. apply untouched_snoc; [by apply Hnone|].
      unfold touching. rewrite Hblank, Htime. apply not_elem_of_nil. }
  destruct (PyStr.split_maxsplit1 line) as [|mod_type [|file_paths [|? ?]]] eqn:Hsplit;
    try discriminate.
  destruct cur as [t|]; [|discriminate].
  intros [= <-].
  assert (Htouch : touching line = PyStr.split_sep PyStr.tab file_paths).
  { unfold touching. by rewrite Hblank, Htime, Hsplit. }
  split; [|split]; simpl.
  - rewrite header_time_snoc. unfold is_header. by rewrite Hblank, Htime.
  - intros p t0. rewrite record_paths_lookup.
    intros [Hp|(Hp & HS & Hin & ->)].
    + destruct (Hrec p t0 Hp). split; [done|]. by apply first_touch_app.
    + split; [done|]. exists done, line, []. repeat split.
      * by rewrite Htouch.
      * by apply Hnone.
      * by symmetry.
  - intros p HS Hp. apply record_paths_none in Hp as [Hp Hnot].
    apply untouched_snoc; [by apply Hnone | rewrite Htouch; by apply Hnot].
Qed.

Lemma times_inv_loop (S : gset string) (lines done : list string)
    (st st' : option datetime * gmap string datetime) :
  times_inv S done st ->
  file_times_loop S lines st = Ok st' ->
  times_inv S (done ++ lines) st'.
Proof.
  revert done st. induction lines as [|line lines IH]; intros done st Hinv; simpl.
  - intros [= <-]. by rewrite app_nil_r.
  - destruct (file_times_line S st line) as [st1|e] eqn:Hline; [|discriminate].
    intros Hloop. rewrite (cons_middle line done lines), app_assoc.
    eapply IH; [|exact Hloop]. by eapply times_inv_line.
Qed.

(** Which exceptions one line can raise. *)
Lemma file_times_line_raise (S : gset string)
    (st : option datetime * gmap string datetime) (line : string) (e : exn) :
  file_times_line S st line = Raise e ->
  (e = AssertionError /\ fst st = None /\ is_header line = false
   /\ String.eqb line EmptyString = false)
  \/ (e = ValueError /\ line_ok line = false).
Proof.
  destruct st as [cur pt]. unfold file_times_line, line_ok, is_header.
  destruct (String.eqb line EmptyString); [discriminate|].
  destruct (PyStr.startswith "time=" line).
  - destruct (fromisoformat _); [discriminate|]. intros [= <-]. by right.
  - destruct (PyStr.split_maxsplit1 line) as [|? [|? [|? ?]]];
      try (intros [= <-]; by right).
    destruct cur; [discriminate|]. intros [= <-]. by left.
Qed.

Lemma file_times_loop_raise (S : gset string) (lines : list string)
    (st : option datetime * gmap string datetime) (e : exn) :
  file_times_loop S lines st = Raise e ->
  e = AssertionError \/ (e = ValueError /\ Exists (fun l => line_ok l = false) lines).
Proof.
  revert st. induction lines as [|line lines IH]; intros st; simpl; [discriminate|].
  destruct (file_times_line S st line) as [st1|e1] eqn:Hline.
  - intros Hloop. destruct (IH _ Hloop) as [?|[? ?]]; [by left|].
    right. split; [done | by apply Exists_cons_tl].
  - intros [= <-]. destruct (file_times_line_raise _ _ _ _ Hline) as [(? & _)|[? ?]];
      [by left|].
    right. split; [done | by apply Exists_cons_hd].
Qed.

(** On a log of the form git prints, the loop runs to its end. *)
Lemma file_times_loop_total (S : gset string) (lines : list string)
    (cur : option datetime) (pt : gmap string datetime) :
  well_formed (match cur with Some _ => true | None => false end) lines = true ->
  exists st', file_times_loop S lines (cur, pt) = Ok st'.
Proof.
  revert cur pt. induction lines as [|line lines IH]; intros cur pt; simpl.
  - intros _. by eexists.
  - intros [Hok Hrest]%andb_true_iff.
    unfold file_times_line. unfold line_ok in Hok. unfold is_header in Hrest.
    destruct (String.eqb line EmptyString) eqn:Hblank; simpl in Hrest.
    { by apply IH. }
    destruct (PyStr.startswith "time=" line) eqn:Htime.
    { destruct (fromisoformat _) as [t|]; [|discriminate].
      by apply (IH (Some t)). }
    destruct (PyStr.split_maxsplit1 line) as [|? [|? [|? ?]]]; try discriminate.
    apply andb_true_iff in Hrest as [Hseen Hrest].
    destruct cur as [t|]; [|discriminate].
    by apply (IH (Some t)).
Qed.

(** [_get_file_times] runs [file_times_of_log] on the lines git printed. *)
Lemma _get_file_times_run (r : Releaser) (paths : list string) (w w1 : world)
    (text : string) :
  Executer_check_output (executer r)
    ["git"; "log"; "--name-status"; "--pretty=time=%cI"; commit r]
    None (Some dry_git_log) w = (Ok (Some text), w1) ->
  _get_file_times r paths w = (file_times_of_log paths (splitlines text), w1).
Proof.
  intros Hout. unfold _get_file_times. rewrite (bind_step _ _ _ _ _ Hout).
  reflexivity.
Qed.

Lemma file_times_of_log_ok (paths log : list string)
    (path_times : gmap string datetime) :
  file_times_of_log paths log = Ok path_times ->
  dom path_times = list_to_set paths
  /\ forall p, p ∈ paths ->
       exists t, path_times !! p = Some t /\ first_touch log p t.
Proof.
  unfold file_times_of_log.
  destruct (file_times_loop _ log (None, ∅)) as [[cur pt]|e] eqn:Hloop;
    [|discriminate].
  destruct (bool_decide (dom pt = list_to_set paths)) eqn:Hdom; [|discriminate].
  intros [= <-]. apply bool_decide_eq_true in Hdom. split; [exact Hdom|].
  intros p Hp.
  pose proof (times_inv_loop _ _ _ _ _ (times_inv_start _) Hloop) as (_ & Hrec & _).
  assert (Hin : p ∈ dom pt) by (rewrite Hdom; by apply elem_of_list_to_set).
  apply elem_of_dom in Hin as [t Ht]. exists t. split; [exact Ht|].
  by destruct (Hrec p t Ht).
Qed.

Lemma file_times_of_log_raise (paths log : list string) (e : exn) :
  file_times_of_log paths log = Raise e ->
  e = AssertionError \/ (e = ValueError /\ Exists (fun l => line_ok l = false) log).
Proof.
  unfold file_times_of_log.
  destruct (file_times_loop _ log (None, ∅)) as [[cur pt]|e1] eqn:Hloop.
  - destruct (bool_decide _); [discriminate|]. intros [= <-]. by left.
  - intros [= <-]. by eapply file_times_loop_raise.
Qed.

Lemma well_formed_line_ok (seen : bool) (log : list string) :
  well_formed seen log = true -> Forall (fun l => line_ok l = true) log.
Proof.
  revert seen. induction log as [|line log IH]; intros seen; simpl; [constructor|].
  intros [Hok Hrest]%andb_true_iff. constructor; [exact Hok|].
  destruct (is_header line); [by eapply IH|].
  apply andb_true_iff in Hrest as [_ Hrest]. by eapply IH.
Qed.

Lemma file_times_of_log_total (paths log : list string) :
  well_formed false log = true ->
  (forall p, p ∈ paths -> Exists (fun l => p ∈ touching l) log) ->
  exists path_times, file_times_of_log paths log = Ok path_times.
Proof.
  intros Hwf Hall. unfold file_times_of_log.
  destruct (file_times_loop_total (list_to_set paths) log None ∅ Hwf)
    as [[cur pt] Hloop].
  rewrite Hloop.
  pose proof (times_inv_loop _ _ _ _ _ (times_inv_start _) Hloop)
    as (_ & Hrec & Hnone). simpl in *.
  rewrite bool_decide_eq_true_2; [by eexists|].
  apply set_eq. intros p. rewrite elem_of_dom, elem_of_list_to_set. split.
  - intros [t Ht]. destruct (Hrec p t Ht) as [HS _].
    by apply elem_of_list_to_set in HS.
  - intros Hp. destruct (pt !! p) as [t|] eqn:Ht; [by eexists|].
    exfalso. assert (HS : p ∈ (list_to_set paths : gset string))
      by by apply elem_of_list_to_set.
    pose proof (Hnone p HS Ht) as Hun.
    specialize (Hall p Hp). apply Exists_exists in Hall as (l & Hl & Hin).
    unfold untouched in Hun. rewrite Forall_forall in Hun. by apply (Hun l).
Qed.

End FileTimes.

(** ** Strings and paths *)

Lemma append_cons (c : ascii) (s t : string) :
  String c s +:+ t = String c (s +:+ t).
Proof. reflexivity. Qed.

Lemma startswith_cons (a b : ascii) (p s : string) :
  PyStr.startswith (String a p) (String b s)
  = Ascii.eqb a b && PyStr.startswith p s.
Proof. reflexivity. Qed.

Lemma startswith_nil (s : string) : PyStr.startswith EmptyString s = true.
Proof. by destruct s. Qed.

Lemma append_nil_l (s : string) : EmptyString +:+ s = s.
Proof. reflexivity. Qed.

Lemma append_assoc (a b c : string) : (a +:+ b) +:+ c = a +:+ (b +:+ c).
Proof.
  induction a as [|x a IH]; [reflexivity|].
  by rewrite !append_cons, IH.
Qed.

Lemma append_inj_l (a b c : string) : a +:+ b = a +:+ c -> b = c.
Proof.
  induction a as [|x a IH]; [done|].
  rewrite !append_cons. intros [= E]. by apply IH.
Qed.

Lemma length_append (a b : string) :
  String.length (a +:+ b) = (String.length a + String.length b)%nat.
Proof.
  induction a as [|x a IH]; [reflexivity|].
  rewrite append_cons. simpl. by rewrite IH.
Qed.

Lemma drop_append (a b : string) (n : nat) :
  PyStr.drop (String.length a + n) (a +:+ b) = PyStr.drop n b.
Proof.
  induction a as [|x a IH]; [reflexivity|].
  rewrite append_cons. simpl. exact IH.
Qed.

Lemma rfind_dot_append (a b : string) :
  PyPath.rfind_dot (a +:+ b)
  = match PyPath.rfind_dot b with
    | Some i => Some (String.length a + i)%nat
    | None => PyPath.rfind_dot a
    end.
Proof.
  induction a as [|x a IH].
  - rewrite append_nil_l. by destruct (PyPath.rfind_dot b).
  - rewrite append_cons. simpl. rewrite IH. by destruct (PyPath.rfind_dot b).
Qed.

(** A piece without the separator stays in the last field. *)
Lemma split_sep_append (sep : ascii) (a e : string) :
  PyStr.split_sep sep e = [e] ->
  exists init lst,
    PyStr.split_sep sep a = (init ++ [lst])%list
    /\ PyStr.split_sep sep (a +:+ e) = (init ++ [lst +:+ e])%list.
Proof.
  intros He. induction a as [|x a (init & lst & Ea & Eae)].
  - exists [], EmptyString. split; [reflexivity|]. by rewrite append_nil_l, He.
  - rewrite append_cons. simpl. rewrite Ea, Eae.
    destruct (Ascii.eqb x sep).
    + exists (EmptyString :: init), lst. by split.
    + destruct init as [|h t]; simpl.
      * exists [], (String x lst). by split.
      * exists (String x h :: t), lst. by split.
Qed.

Lemma last_filter_keep {A} (f : A -> bool) (l : list A) (x d : A) :
  f x = true -> List.last (List.filter f (l ++ [x])) d = x.
Proof.
  intros Hx. rewrite List.filter_app. simpl. rewrite Hx. apply last_last.
Qed.

(** The name of a path that ends in an extension ends in it too. *)
Lemma name_append (a e : string) :
  PyStr.split_sep PyPath.slash e = [e] ->
  (2 <= String.length e)%nat ->
  exists stem, PyPath.name (a +:+ e) = stem +:+ e.
Proof.
  intros He Hlen.
  destruct (split_sep_append PyPath.slash a e He) as (init & lst & _ & Eae).
  exists lst. unfold PyPath.name, PyPath.components. rewrite Eae.
  apply last_filter_keep.
  assert (Hl : (2 <= String.length (lst +:+ e))%nat) by (rewrite length_append; lia).
  destruct (lst +:+ e) as [|c1 [|c2 s]]; simpl in Hl; try lia.
  apply negb_true_iff, orb_false_iff. split; [reflexivity|].
  simpl. destruct (Ascii.eqb c1 "."); reflexivity.
Qed.

Lemma suffix_extension (a e : string) (i : nat) :
  PyStr.split_sep PyPath.slash e = [e] ->
  PyPath.rfind_dot e = Some i ->
  (0 < i)%nat ->
  (i + 2 <= String.length e)%nat ->
  PyPath.suffix (a +:+ e) = PyStr.drop i e.
Proof.
  intros Hsep Hdot Hpos Hlen.
  destruct (name_append a e Hsep) as [stem Hname]; [lia|].
  unfold PyPath.suffix. rewrite Hname, rfind_dot_append, Hdot, length_append.
  assert ((0 <? String.length stem + i)%nat
          && (String.length stem + i <? String.length stem + String.length e - 1)%nat
          = true) as ->.
  { apply andb_true_iff. split; apply Nat.ltb_lt; lia. }
  apply drop_append.
Qed.

Lemma suffix_tar_gz (a : string) : PyPath.suffix (a +:+ ".tar.gz") = ".gz".
Proof. apply (suffix_extension a ".tar.gz" 4); [reflexivity | reflexivity | lia | simpl; lia]. Qed.

Lemma suffix_tar_xz (a : string) : PyPath.suffix (a +:+ ".tar.xz") = ".xz".
Proof. apply (suffix_extension a ".tar.xz" 4); [reflexivity | reflexivity | lia | simpl; lia]. Qed.

(** Joining a directory and a name that ends in an extension: what comes
    before the extension does not depend on it. *)
Lemma join_extension (a base : string) :
  exists stem, forall ext : string,
    PyPath.join a (base +:+ String "." ext) = stem +:+ String "." ext.
Proof.
  unfold PyPath.join, PyPath.is_absolute.
  destruct base as [|c base].
  - destruct (String.eqb a EmptyString) eqn:Ea.
    + exists EmptyString. intros ext. by rewrite !append_nil_l.
    + destruct (PyPath.ends_with_slash a).
      * exists a. intros ext. by rewrite !append_nil_l.
      * exists (a +:+ "/"). intros ext. rewrite !append_nil_l.
        rewrite startswith_cons. simpl. by rewrite append_assoc.
  - destruct (Ascii.eqb "/" c) eqn:Ec.
    + exists (String c base). intros ext.
      by rewrite append_cons, startswith_cons, Ec, startswith_nil.
    + destruct (String.eqb a EmptyString) eqn:Ea.
      * exists (String c base). intros ext.
        by rewrite append_cons, startswith_cons, Ec.
      * destruct (PyPath.ends_with_slash a).
        -- exists (a +:+ String c base). intros ext.
           rewrite append_cons, startswith_cons, Ec. simpl.
           by rewrite <- append_cons, append_assoc.
        -- exists (a +:+ "/" +:+ String c base). intros ext.
           rewrite append_cons, startswith_cons, Ec. simpl.
           by rewrite <- !append_cons, !append_assoc.
Qed.

(** ** Files *)

Section FileFacts.
Context `{Platform}.

Lemma node_at_run (p : string) (w : world) :
  node_at p w = (Ok (fs w !! abspath p), w).
Proof. reflexivity. Qed.

Lemma write_file_run (p d : string) (w : world) :
  write_file p d w
  = match fs w !! abspath p with
    | Some Dir => (Raise IsADirectoryError, w)
    | Some (File _) => (Ok tt, with_fs (<[abspath p := File d]> (fs w)) w)
    | None =>
        match fs w !! abspath (PyPath.parent (abspath p)) with
        | Some Dir => (Ok tt, with_fs (<[abspath p := File d]> (fs w)) w)
        | _ => (Raise FileNotFoundError, w)
        end
    end.
Proof.
  unfold write_file. rewrite bind_run, node_at_run.
  destruct (fs w !! abspath p) as [[?|]|]; try reflexivity.
  rewrite bind_run, node_at_run.
  by destruct (fs w !! abspath (PyPath.parent (abspath p))) as [[?|]|].
Qed.

Lemma write_file_ok (p d : string) (w w' : world) :
  write_file p d w = (Ok tt, w') ->
  w' = with_fs (<[abspath p := File d]> (fs w)) w.
Proof.
  rewrite write_file_run.
  destruct (fs w !! abspath p) as [[?|]|]; try congruence.
  destruct (fs w !! abspath (PyPath.parent (abspath p))) as [[?|]|]; congruence.
Qed.

Lemma write_file_raise (p d : string) (w w' : world) (e : exn) :
  write_file p d w = (Raise e, w') -> w' = w.
Proof.
  rewrite write_file_run.
  destruct (fs w !! abspath p) as [[?|]|]; try congruence.
  destruct (fs w !! abspath (PyPath.parent (abspath p))) as [[?|]|]; congruence.
Qed.

Lemma read_file_run (p : string) (w : world) :
  read_file p w
  = (match fs w !! abspath p with
     | Some (File d) => Ok d
     | Some Dir => Raise IsADirectoryError
     | None => Raise FileNotFoundError
     end, w).
Proof.
  unfold read_file. rewrite bind_run, node_at_run.
  by destruct (fs w !! abspath p) as [[?|]|].
Qed.

Lemma patch_file_run (p : string) (off : nat) (new : string) (w : world) :
  patch_file p off new w
  = match fs w !! abspath p with
    | Some (File old) =>
        (Ok tt, with_fs (<[abspath p := File (write_at off new old)]> (fs w)) w)
    | Some Dir => (Raise IsADirectoryError, w)
    | None => (Raise FileNotFoundError, w)
    end.
Proof.
  unfold patch_file. rewrite bind_run, read_file_run.
  by destruct (fs w !! abspath p) as [[?|]|].
Qed.

Lemma touch_run (p : string) (w : world) :
  touch p w
  = match fs w !! abspath p with
    | Some _ => (Ok tt, w)
    | None => write_file p EmptyString w
    end.
Proof.
  unfold touch. rewrite bind_run, node_at_run.
  by destruct (fs w !! abspath p).
Qed.

Lemma set_artifact_run (k p : string) (w : world) :
  set_artifact k p w
  = (Ok tt, mkWorld (fs w) (procs w) (dict_set k p (artifacts w))).
Proof. reflexivity. Qed.

(** Overwriting four bytes at offset four. *)
Lemma write_at_4_zero (old : string) (i : nat) :
  (4 <= i < 8)%nat ->
  byte_at i (write_at 4 four_zero_bytes old) = Some zero.
Proof.
  intros Hi.
  assert (i = 4 \/ i = 5 \/ i = 6 \/ i = 7)%nat as Hcases by lia.
  destruct old as [|c0 [|c1 [|c2 [|c3 [|c4 [|c5 [|c6 [|c7 old]]]]]]]];
    destruct Hcases as [->|[->|[->| ->]]]; reflexivity.
Qed.

Lemma write_at_4_other (old : string) (i : nat) :
  (i < 4 \/ 8 <= i)%nat -> (8 <= String.length old)%nat ->
  byte_at i (write_at 4 four_zero_bytes old) = byte_at i old.
Proof.
  intros Hi Hlen.
  destruct old as [|c0 [|c1 [|c2 [|c3 [|c4 [|c5 [|c6 [|c7 old]]]]]]]];
    simpl in Hlen; try lia.
  do 8 (destruct i as [|i]; [first [reflexivity | lia]|]).
  reflexivity.
Qed.

Lemma write_at_4_length (old : string) :
  (8 <= String.length old)%nat ->
  String.length (write_at 4 four_zero_bytes old) = String.length old.
Proof.
  intros Hlen.
  destruct old as [|c0 [|c1 [|c2 [|c3 [|c4 [|c5 [|c6 [|c7 old]]]]]]]];
    simpl in Hlen; try lia.
  reflexivity.
Qed.

End FileFacts.

(** ** Ordered dictionaries *)

Lemma elem_of_dict_set {V} (k : string) (v : V) (d : list (string * V))
    (x : string * V) :
  x ∈ dict_set k v d -> x = (k, v) \/ x ∈ d.
Proof.
  induction d as [|[k' v'] d IH]; simpl.
  - intros ->%list_elem_of_singleton. by left.
  - destruct (String.eqb k k').
    + intros [->|Hx]%elem_of_cons; [by left | right; by right].
    + intros [->|Hx]%elem_of_cons; [right; by left|].
      destruct (IH Hx) as [->|?]; [by left | right; by right].
Qed.

Lemma dict_set_key {V} (k : string) (v : V) (d : list (string * V)) :
  k ∈ dict_keys (dict_set k v d).
Proof.
  unfold dict_keys. induction d as [|[k' v'] d IH]; simpl.
  - by left.
  - destruct (String.eqb k k'); simpl; [by left | by right].
Qed.

Lemma dict_set_keys_mono {V} (k k0 : string) (v : V) (d : list (string * V)) :
  k0 ∈ dict_keys d -> k0 ∈ dict_keys (dict_set k v d).
Proof.
  unfold dict_keys. induction d as [|[k' v'] d IH]; simpl.
  - by intros ?%elem_of_nil.
  - destruct (String.eqb k k') eqn:E; simpl.
    + apply String.eqb_eq in E as ->. done.
    + intros [->|Hx]%elem_of_cons; [by left | right; by apply IH].
Qed.

Lemma dict_get_set_eq {V} (k : string) (v : V) (d : list (string * V)) :
  dict_get k (dict_set k v d) = Some v.
Proof.
  induction d as [|[k' v'] d IH]; simpl.
  - by rewrite String.eqb_refl.
  - destruct (String.eqb k k') eqn:E; simpl; [by rewrite String.eqb_refl|].
    by rewrite E.
Qed.

Lemma dict_get_set_ne {V} (k k0 : string) (v : V) (d : list (string * V)) :
  k <> k0 -> dict_get k0 (dict_set k v d) = dict_get k0 d.
Proof.
  intros Hne. induction d as [|[k' v'] d IH]; simpl.
  - destruct (String.eqb k0 k) eqn:E; [|done].
    apply String.eqb_eq in E. congruence.
  - destruct (String.eqb k k') eqn:E; simpl.
    + apply String.eqb_eq in E as <-.
      destruct (String.eqb k0 k) eqn:E'; [|done].
      apply String.eqb_eq in E'. congruence.
    + destruct (String.eqb k0 k'); [done | exact IH].
Qed.

(** ** Releaser._get_git_contents *)

Section GitContents.
Context `{Platform}.

(** When run dry, [check_output] hands [None] to [io.BytesIO], and
    [tarfile.open] rejects the empty stream. *)
Lemma _get_git_contents_dry (r : Releaser) (w : world) :
  dry r = true -> _get_git_contents r w = (Raise ReadError, w).
Proof.
  unfold dry, _get_git_contents, Executer_check_output. intros ->.
  reflexivity.
Qed.

Lemma _get_git_contents_ok (r : Releaser) (w w1 : world)
    (git_contents : list (string * TreeItem)) :
  _get_git_contents r w = (Ok git_contents, w1) ->
  dry r = false
  /\ exists out w0 contents file_times,
       Executer_check_output (executer r)
         ["git"; "archive"; "--format=tar.gz"; commit r; "-o"; "/dev/stdout"]
         None None w = (Ok out, w0)
       /\ tarfile_open (io_BytesIO out) = Ok contents
       /\ Forall (fun file => file ∈ filenames contents)
            (mf_source_checks (release_info r))
       /\ _get_file_times r (filenames contents) w0 = (Ok file_times, w1)
       /\ git_contents_loop file_times contents contents [] = Ok git_contents.
Proof.
  intros Hrun. split.
  { destruct (dry r) eqn:Hdry; [|reflexivity].
    rewrite (_get_git_contents_dry r w Hdry) in Hrun. discriminate. }
  unfold _get_git_contents in Hrun.
  apply bind_ok in Hrun as (out & w0 & Hout & Hrun).
  apply bind_ok in Hrun as (contents & w0' & Hopen & Hrun).
  unfold lift in Hopen. injection Hopen as Hopen <-.
  apply bind_ok in Hrun as ([] & w0' & Hchecks & Hrun).
  rewrite for_each_assert in Hchecks.
  destruct (forallb _ _) eqn:Hall; [|discriminate].
  injection Hchecks as <-.
  apply bind_ok in Hrun as (file_times & w1' & Htimes & Hrun).
  unfold lift in Hrun. injection Hrun as Hloop <-.
  exists out, w0, contents, file_times. repeat split; try assumption.
  apply Forall_forall. intros file Hin.
  rewrite forallb_forall in Hall. apply list_elem_of_In in Hin.
  specialize (Hall file Hin). by apply bool_decide_eq_true in Hall.
Qed.

Lemma git_contents_loop_spec (file_times : gmap string datetime)
    (contents todo : list TarInfo) (acc git_contents : list (string * TreeItem)) :
  git_contents_loop file_times contents todo acc = Ok git_contents ->
  (forall ti, ti ∈ todo -> ti ∈ contents) ->
  Forall (from_snapshot file_times contents) acc ->
  Forall (from_snapshot file_times contents) git_contents
  /\ (forall k, k ∈ dict_keys acc -> k ∈ dict_keys git_contents)
  /\ (forall ti, ti ∈ todo -> ti_isfile ti = true ->
        _path_filter (ti_name ti) = true -> ti_name ti ∈ dict_keys git_contents).
Proof.
  revert acc. induction todo as [|ti todo IH]; intros acc; simpl.
  - intros [= <-] _ Hacc. repeat split; [done | done |].
    by intros ti ?%elem_of_nil.
  - intros Hloop Hsub Hacc.
    assert (Hsub' : forall x, x ∈ todo -> x ∈ contents)
      by (intros x Hx; apply Hsub; by right).
    assert (Hskip : forall gc',
               Forall (from_snapshot file_times contents) gc'
               /\ (forall k, k ∈ dict_keys acc -> k ∈ dict_keys gc')
               /\ (forall x, x ∈ todo -> ti_isfile x = true ->
                     _path_filter (ti_name x) = true -> ti_name x ∈ dict_keys gc') ->
               (ti_isfile ti = true -> _path_filter (ti_name ti) = true ->
                ti_name ti ∈ dict_keys gc') ->
               Forall (from_snapshot file_times contents) gc'
               /\ (forall k, k ∈ dict_keys acc -> k ∈ dict_keys gc')
               /\ (forall x, x ∈ ti :: todo -> ti_isfile x = true ->
                     _path_filter (ti_name x) = true -> ti_name x ∈ dict_keys gc')).
    { intros gc' (H1 & H2 & H3) Hti. repeat split; [done | done |].
      intros x [->|Hx]%elem_of_cons; [exact Hti | by apply H3]. }
    destruct (ti_isfile ti) eqn:Hfile; simpl in Hloop.
    2:{ apply Hskip; [by apply IH | discriminate]. }
    destruct (_path_filter (ti_name ti)) eqn:Hfilter; simpl in Hloop.
    2:{ apply Hskip; [by apply IH | discriminate]. }
    destruct (extractfile contents (ti_name ti)) as [[d|]|e] eqn:Hextract;
      try discriminate.
    destruct (file_times !! ti_name ti) as [t|] eqn:Htime; [|discriminate].
    specialize (IH _ Hloop Hsub').
    destruct IH as (H1 & H2 & H3).
    { apply Forall_forall. intros x [->|Hx]%elem_of_dict_set.
      - repeat split; simpl; try done.
        exists ti. repeat split; [apply Hsub; by left | done].
      - rewrite Forall_forall in Hacc. by apply Hacc. }
    apply Hskip.
    + repeat split; [done | | done].
      intros k Hk. apply H2. by apply dict_set_keys_mono.
    + intros _ _. apply H2, dict_set_key.
Qed.

Lemma from_snapshot_paths (file_times : gmap string datetime)
    (contents : list TarInfo) (git_contents : list (string * TreeItem)) :
  Forall (from_snapshot file_times contents) git_contents ->
  map path (dict_values git_contents) = dict_keys git_contents.
Proof.
  unfold dict_values, dict_keys. induction 1 as [|[k v] l (Hp & _) _ IH]; simpl.
  - reflexivity.
  - simpl in Hp. by rewrite Hp, IH.
Qed.

End GitContents.

(** ** Releaser.create_source_archives *)

Section SourceArchives.
Context `{Platform}.

(** The three archive paths differ only in their extension. *)
Lemma source_archive_paths (r : Releaser) :
  exists stem astem, forall ext : string,
    source_archive_path r (String "." ext) = stem +:+ String "." ext
    /\ abspath (source_archive_path r (String "." ext)) = astem +:+ String "." ext.
Proof.
  destruct (join_extension (dist_path r) (archive_base r)) as [stem Hstem].
  destruct (join_extension cwd stem) as [astem Hastem].
  exists stem, astem. intros ext. unfold source_archive_path, abspath.
  by rewrite Hstem, Hastem.
Qed.

(** A run of [create_source_archives] that returns: what it read, and
    the world it leaves. *)
Lemma create_source_archives_ok (r : Releaser) (w w' : world) :
  create_source_archives r w = (Ok tt, w') ->
  exists git_contents w1 latest_mod_time,
    _get_git_contents r w = (Ok git_contents, w1)
    /\ latest (map time (dict_values git_contents)) = Ok latest_mod_time
    /\ let git_files :=
         sort_by_time (appended r (dict_values git_contents) latest_mod_time) in
       let zip_path := source_archive_path r ".zip" in
       let tgz_path := source_archive_path r ".tar.gz" in
       let txz_path := source_archive_path r ".tar.xz" in
       archive_members r w = Ok git_files
       /\ fs w' =
            <[abspath txz_path :=
                File (tar_bytes "xz" (map (tar_entry (archive_base r)) git_files))]>
            (<[abspath tgz_path :=
                 File (write_at 4 four_zero_bytes
                         (tar_bytes "gz" (map (tar_entry (archive_base r)) git_files)))]>
             (<[abspath zip_path :=
                  File (zip_bytes (map (zip_entry (archive_base r)) git_files))]>
              (fs w1)))
       /\ procs w' = procs w1
       /\ artifacts w' =
            dict_set "src-tar-xz" txz_path
              (dict_set "src-tar-gz" tgz_path
                 (dict_set "src-zip" zip_path (artifacts w1))).
Proof.
  intros Hrun. unfold create_source_archives in Hrun.
  apply bind_ok in Hrun as (git_contents & w1 & Hgc & Hrun).
  destruct (_get_git_contents_ok _ _ _ _ Hgc) as [Hdry _].
  apply bind_ok in Hrun as ([] & w1' & Hlen & Hrun).
  unfold dict_values in Hlen at 1. rewrite length_map, Nat.eqb_refl in Hlen.
  injection Hlen as <-.
  apply bind_ok in Hrun as (t & w1' & Hlatest & Hrun).
  unfold lift in Hlatest. injection Hlatest as Hlatest <-.
  exists git_contents, w1, t. split; [exact Hgc|]. split; [exact Hlatest|].
  rewrite Hdry in Hrun. fold (source_archive_path r ".zip") in Hrun.
  set (git_files := sort_by_time _) in *. cbv zeta.
  split. { unfold archive_members. by rewrite Hgc, Hlatest. }
  apply bind_ok in Hrun as ([] & w2 & Hzip & Hrun).
  apply write_file_ok in Hzip. subst w2.
  apply bind_ok in Hrun as ([] & w3 & Hart & Hrun).
  rewrite set_artifact_run in Hart. injection Hart as <-.
  unfold tar_types in Hrun. rewrite !for_each_cons in Hrun.
  fold (source_archive_path r ".tar.gz") in Hrun.
  fold (source_archive_path r ".tar.xz") in Hrun.
  destruct (source_archive_paths r) as (stem & astem & Hpaths).
  pose proof (Hpaths "tar.gz") as [Hgz Hagz].
  pose proof (Hpaths "tar.xz") as [Hxz Haxz].
  assert (Hsgz : PyPath.suffix (source_archive_path r ".tar.gz") = ".gz")
    by (rewrite Hgz; apply suffix_tar_gz).
  assert (Hsxz : PyPath.suffix (source_archive_path r ".tar.xz") = ".xz")
    by (rewrite Hxz; apply suffix_tar_xz).
  rewrite Hsgz, Hsxz in Hrun. simpl String.eqb in Hrun. unfold when in Hrun.
  apply bind_ok in Hrun as ([] & w4 & Hgzrun & Hrun).
  apply bind_ok in Hgzrun as ([] & w5 & Hwrite & Hgzrun).
  apply write_file_ok in Hwrite. subst w5.
  apply bind_ok in Hgzrun as ([] & w5 & Hpatch & Hgzrun).
  rewrite patch_file_run in Hpatch. simpl fs in Hpatch.
  rewrite lookup_insert_eq in Hpatch. injection Hpatch as <-.
  rewrite set_artifact_run in Hgzrun. injection Hgzrun as <-.
  apply bind_ok in Hrun as ([] & w6 & Hxzrun & Hrun).
  injection Hrun as <-.
  apply bind_ok in Hxzrun as ([] & w7 & Hwrite & Hxzrun).
  apply write_file_ok in Hwrite. subst w7.
  apply bind_ok in Hxzrun as ([] & w7 & Hnop & Hxzrun).
  injection Hnop as <-.
  rewrite set_artifact_run in Hxzrun. injection Hxzrun as <-.
  simpl. rewrite insert_insert_eq. done.
Qed.

(** The three archives are three different files. *)
Lemma source_archive_paths_differ (r : Releaser) :
  abspath (source_archive_path r ".zip") <> abspath (source_archive_path r ".tar.gz")
  /\ abspath (source_archive_path r ".zip") <> abspath (source_archive_path r ".tar.xz")
  /\ abspath (source_archive_path r ".tar.gz") <> abspath (source_archive_path r ".tar.xz").
Proof.
  destruct (source_archive_paths r) as (stem & astem & Hpaths).
  pose proof (Hpaths "zip") as [_ Hzip].
  pose proof (Hpaths "tar.gz") as [_ Hgz].
  pose proof (Hpaths "tar.xz") as [_ Hxz].
  rewrite Hzip, Hgz, Hxz.
  repeat split; intros E%append_inj_l; discriminate.
Qed.

(** What a completed run leaves in the three archive files. *)
Lemma create_source_archives_files (r : Releaser) (w w' : world) :
  create_source_archives r w = (Ok tt, w') ->
  exists git_files,
    archive_members r w = Ok git_files
    /\ fs w' !! abspath (source_archive_path r ".zip")
       = Some (File (zip_bytes (map (zip_entry (archive_base r)) git_files)))
    /\ fs w' !! abspath (source_archive_path r ".tar.gz")
       = Some (File (write_at 4 four_zero_bytes
                       (tar_bytes "gz" (map (tar_entry (archive_base r)) git_files))))
    /\ fs w' !! abspath (source_archive_path r ".tar.xz")
       = Some (File (tar_bytes "xz" (map (tar_entry (archive_base r)) git_files))).
Proof.
  intros Hrun.
  destruct (create_source_archives_ok r w w' Hrun)
    as (gc & w1 & t & _ & _ & Hmembers & Hfs & _).
  cbv zeta in *. eexists. split; [exact Hmembers|].
  destruct (source_archive_paths_differ r) as (Hzg & Hzx & Hgx).
  rewrite Hfs. repeat split.
  - rewrite lookup_insert_ne by congruence.
    rewrite lookup_insert_ne by congruence.
    apply lookup_insert_eq.
  - rewrite lookup_insert_ne by congruence. apply lookup_insert_eq.
  - apply lookup_insert_eq.
Qed.

(** The members come from [_get_git_contents], plus the two markers. *)
Lemma archive_members_ok (r : Releaser) (w : world) (git_files : list TreeItem) :
  archive_members r w = Ok git_files ->
  exists git_contents w1 latest_mod_time,
    _get_git_contents r w = (Ok git_contents, w1)
    /\ latest (map time (dict_values git_contents)) = Ok latest_mod_time
    /\ git_files
       = sort_by_time (appended r (dict_values git_contents) latest_mod_time).
Proof.
  unfold archive_members.
  destruct (_get_git_contents r w) as [[gc|e] w1] eqn:Hgc; [|discriminate].
  destruct (latest _) as [t|e] eqn:Hlatest; [|discriminate].
  intros [= <-]. by exists gc, w1, t.
Qed.

End SourceArchives.

(** ** Claims about the source archives *)

(** C1: after the two synthetic entries are appended, the entry list is
    sorted in non-decreasing order of timestamp, entries of equal timestamp
    keep their prior relative order, and the zip, tar.gz and tar.xz archives
    are each written from that one list, in its order. *)
Theorem source_archives_sorted_by_time `{Platform} (r : Releaser) (w w' : world) :
  create_source_archives r w = (Ok tt, w') ->
  exists git_contents w1 latest_mod_time git_files,
    _get_git_contents r w = (Ok git_contents, w1)
    /\ latest (map time (dict_values git_contents)) = Ok latest_mod_time
    /\ git_files
       = sort_by_time (appended r (dict_values git_contents) latest_mod_time)
    /\ StronglySorted (fun a b => dt_le (time a) (time b)) git_files
    /\ Permutation git_files
         (appended r (dict_values git_contents) latest_mod_time)
    /\ (forall k,
          List.filter (same_time k) git_files
          = List.filter (same_time k)
              (appended r (dict_values git_contents) latest_mod_time))
    /\ fs w' !! abspath (source_archive_path r ".zip")
       = Some (File (zip_bytes (map (zip_entry (archive_base r)) git_files)))
    /\ fs w' !! abspath (source_archive_path r ".tar.gz")
       = Some (File (write_at 4 four_zero_bytes
                       (tar_bytes "gz" (map (tar_entry (archive_base r)) git_files))))
    /\ fs w' !! abspath (source_archive_path r ".tar.xz")
       = Some (File (tar_bytes "xz" (map (tar_entry (archive_base r)) git_files))).
Proof.
  intros Hrun.
  destruct (create_source_archives_files r w w' Hrun)
    as (git_files & Hmembers & Hzip & Hgz & Hxz).
  destruct (archive_members_ok r w git_files Hmembers)
    as (gc & w1 & t & Hgc & Hlatest & Hfiles).
  exists gc, w1, t, git_files. repeat split; try assumption.
  - rewrite Hfiles. apply sort_by_time_sorted.
  - rewrite Hfiles. apply sort_by_time_perm.
  - intros k. rewrite Hfiles. apply sort_by_time_stable.
Qed.

Lemma source_archives_sorted_by_time_witness :
  create_source_archives (Example.releaser false) Example.start
  = (Ok tt, Example.finish)
  /\ exists git_files,
       StronglySorted (fun a b => dt_le (time a) (time b)) git_files
       /\ fs Example.finish !! "/proj/dist/SDL2_image-2.8.1.zip"
          = Some (File (zip_bytes (map (zip_entry "SDL2_image-2.8.1") git_files))).
Proof.
  assert (Hrun : create_source_archives (Example.releaser false) Example.start
                 = (Ok tt, Example.finish)) by (vm_compute; reflexivity).
  split; [exact Hrun|].
  destruct (source_archives_sorted_by_time _ _ _ Hrun)
    as (gc & w1 & t & git_files & _ & _ & _ & Hsorted & _ & _ & Hzip & _).
  exists git_files. split; [exact Hsorted | exact Hzip].
Defined.

(** C3: exactly two synthetic entries are appended, [VERSION.txt] holding
    the dotted version and a newline and [.git-hash] holding the commit
    hash and a newline, both stamped with the latest modification time
    among the real files taken from the commit. *)
Theorem source_archives_synthetic_entries `{Platform} (r : Releaser) (w w' : world) :
  create_source_archives r w = (Ok tt, w') ->
  exists git_contents w1 latest_mod_time git_files,
    _get_git_contents r w = (Ok git_contents, w1)
    /\ archive_members r w = Ok git_files
    /\ Permutation git_files
         (dict_values git_contents
          ++ [ mkTreeItem "VERSION.txt" 33188
                 (PyStr.encode (version r +:+ PyStr.nl)) latest_mod_time;
               mkTreeItem ".git-hash" 33188
                 (PyStr.encode (commit r +:+ PyStr.nl)) latest_mod_time ])%list
    /\ length git_files = S (S (length git_contents))
    /\ In latest_mod_time (map time (dict_values git_contents))
    /\ Forall (fun item => dt_le (time item) latest_mod_time)
         (dict_values git_contents)
    /\ fs w' !! abspath (source_archive_path r ".zip")
       = Some (File (zip_bytes (map (zip_entry (archive_base r)) git_files))).
Proof.
  intros Hrun.
  destruct (create_source_archives_files r w w' Hrun)
    as (git_files & Hmembers & Hzip & Hgz & Hxz).
  destruct (archive_members_ok r w git_files Hmembers)
    as (gc & w1 & t & Hgc & Hlatest & Hfiles).
  destruct (latest_spec _ _ Hlatest) as [Hin Hmax].
  assert (Hperm : Permutation git_files
            (dict_values gc
             ++ [ mkTreeItem "VERSION.txt" 33188
                    (PyStr.encode (version r +:+ PyStr.nl)) t;
                  mkTreeItem ".git-hash" 33188
                    (PyStr.encode (commit r +:+ PyStr.nl)) t ])%list).
  { rewrite Hfiles, sort_by_time_perm. unfold appended.
    rewrite <- app_assoc. reflexivity. }
  exists gc, w1, t, git_files. repeat split; try assumption.
  - rewrite (Permutation_length Hperm), length_app.
    unfold dict_values. rewrite length_map. simpl. lia.
  - rewrite Forall_map in Hmax. exact Hmax.
Qed.

Lemma source_archives_synthetic_entries_witness :
  create_source_archives (Example.releaser false) Example.start
  = (Ok tt, Example.finish)
  /\ exists git_files,
       archive_members (Example.releaser false) Example.start = Ok git_files
       /\ length git_files = 5%nat.
Proof.
  assert (Hrun : create_source_archives (Example.releaser false) Example.start
                 = (Ok tt, Example.finish)) by (vm_compute; reflexivity).
  split; [exact Hrun|].
  destruct (source_archives_synthetic_entries _ _ _ Hrun)
    as (gc & w1 & t & git_files & Hgc & Hmembers & _ & Hlen & _).
  exists git_files. split; [exact Hmembers|].
  rewrite Hlen. f_equal. f_equal.
  assert (Hget : _get_git_contents (Example.releaser false) Example.start
                 = (Ok Example.contents, w1) -> length gc = 3%nat).
  { rewrite Hgc. intros [= ->]. reflexivity. }
  apply Hget. rewrite Hgc. f_equal. f_equal.
  assert (E : fst (_get_git_contents (Example.releaser false) Example.start)
              = Ok Example.contents) by (vm_compute; reflexivity).
  rewrite Hgc in E. simpl in E. by injection E.
Defined.

(** C4: once the .tar.gz archive is written, its bytes at offsets 4 to 7
    are overwritten with zero bytes; the .tar.xz and the .zip archive stay
    as they were written. *)
Theorem source_archives_gzip_time_zeroed `{Platform} (r : Releaser) (w w' : world) :
  create_source_archives r w = (Ok tt, w') ->
  exists git_files,
    archive_members r w = Ok git_files
    /\ let written := tar_bytes "gz" (map (tar_entry (archive_base r)) git_files) in
       let patched := write_at 4 four_zero_bytes written in
       fs w' !! abspath (source_archive_path r ".tar.gz") = Some (File patched)
       /\ (forall i, (4 <= i < 8)%nat -> byte_at i patched = Some zero)
       /\ ((8 <= String.length written)%nat ->
           String.length patched = String.length written
           /\ forall i, (i < 4 \/ 8 <= i)%nat ->
                byte_at i patched = byte_at i written)
       /\ fs w' !! abspath (source_archive_path r ".tar.xz")
          = Some (File (tar_bytes "xz" (map (tar_entry (archive_base r)) git_files)))
       /\ fs w' !! abspath (source_archive_path r ".zip")
          = Some (File (zip_bytes (map (zip_entry (archive_base r)) git_files))).
Proof.
  intros Hrun.
  destruct (create_source_archives_files r w w' Hrun)
    as (git_files & Hmembers & Hzip & Hgz & Hxz).
  exists git_files. split; [exact Hmembers|]. cbv zeta.
  split; [exact Hgz|]. split; [|split; [|split; assumption]].
  - intros i Hi. by apply write_at_4_zero.
  - intros Hlen. split; [by apply write_at_4_length|].
    intros i Hi. by apply write_at_4_other.
Qed.

Lemma source_archives_gzip_time_zeroed_witness :
  create_source_archives (Example.releaser false) Example.start
  = (Ok tt, Example.finish)
  /\ exists patched,
       fs Example.finish !! "/proj/dist/SDL2_image-2.8.1.tar.gz" = Some (File patched)
       /\ byte_at 4 patched = Some zero /\ byte_at 7 patched = Some zero.
Proof.
  assert (Hrun : create_source_archives (Example.releaser false) Example.start
                 = (Ok tt, Example.finish)) by (vm_compute; reflexivity).
  split; [exact Hrun|].
  destruct (source_archives_gzip_time_zeroed _ _ _ Hrun)
    as (git_files & _ & Hgz & Hzero & _).
  eexists. split; [exact Hgz|]. split; apply Hzero; lia.
Defined.

Section ArchiveMembers.
Context `{Platform}.

(** A regular file of the snapshot that passes the filter is among the
    members. *)
Lemma archive_members_snapshot (r : Releaser) (w w1 : world)
    (git_contents : list (string * TreeItem)) (git_files : list TreeItem)
    (file : string) :
  _get_git_contents r w = (Ok git_contents, w1) ->
  archive_members r w = Ok git_files ->
  file ∈ mf_source_checks (release_info r) ->
  _path_filter file = true ->
  file ∈ map path git_files.
Proof.
  intros Hgc Hmembers Hcheck Hfilter.
  destruct (archive_members_ok r w git_files Hmembers)
    as (gc & w1' & t & Hgc' & Hlatest & Hfiles).
  rewrite Hgc in Hgc'. injection Hgc' as <- <-.
  destruct (_get_git_contents_ok _ _ _ _ Hgc)
    as (_ & out & w0 & contents & file_times & _ & _ & Hchecks & _ & Hloop).
  rewrite Forall_forall in Hchecks. specialize (Hchecks file Hcheck).
  unfold filenames in Hchecks.
  apply list_elem_of_fmap in Hchecks as (ti & -> & Hti).
  apply list_elem_of_In, filter_In in Hti as [Hti Hfile].
  apply list_elem_of_In in Hti.
  destruct (git_contents_loop_spec _ _ _ _ _ Hloop) as (Hsnap & _ & Hkeys);
    [done | constructor |].
  specialize (Hkeys ti Hti Hfile Hfilter).
  rewrite <- (from_snapshot_paths _ _ _ Hsnap) in Hkeys.
  rewrite Hfiles, sort_by_time_perm. unfold appended.
  rewrite !map_app. apply elem_of_app. left. apply elem_of_app. by left.
Qed.

(** The entries [_get_git_contents] returns do not start with [.git]. *)
Lemma _get_git_contents_filtered (r : Releaser) (w w1 : world)
    (git_contents : list (string * TreeItem)) :
  _get_git_contents r w = (Ok git_contents, w1) ->
  exists file_times contents,
    Forall (from_snapshot file_times contents) git_contents
    /\ Forall (fun item => PyStr.startswith ".git" (path item) = false)
         (dict_values git_contents).
Proof.
  intros Hgc.
  destruct (_get_git_contents_ok _ _ _ _ Hgc)
    as (_ & out & w0 & contents & file_times & _ & _ & _ & _ & Hloop).
  destruct (git_contents_loop_spec _ _ _ _ _ Hloop) as (Hsnap & _ & _);
    [done | constructor |].
  exists file_times, contents. split; [exact Hsnap|].
  unfold dict_values. apply Forall_map.
  eapply Forall_impl; [exact Hsnap|].
  intros [k v] (Hp & Hf & _). simpl in *. rewrite Hp.
  unfold _path_filter in Hf. by destruct (PyStr.startswith ".git" k).
Qed.

(** A missing checks file stops the run at its assertion, right after
    [git archive] returned. *)
Lemma create_source_archives_check_fails (r : Releaser) (w w0 : world)
    (out : option string) (contents : list TarInfo) (file : string) :
  Executer_check_output (executer r)
    ["git"; "archive"; "--format=tar.gz"; commit r; "-o"; "/dev/stdout"]
    None None w = (Ok out, w0) ->
  tarfile_open (io_BytesIO out) = Ok contents ->
  file ∈ mf_source_checks (release_info r) ->
  file ∉ filenames contents ->
  create_source_archives r w = (Raise AssertionError, w0).
Proof.
  intros Hout Hopen Hcheck Hmissing.
  unfold create_source_archives. apply bind_raise.
  unfold _get_git_contents. rewrite (bind_step _ _ _ _ _ Hout).
  unfold lift at 1. rewrite bind_run, Hopen.
  apply bind_raise. rewrite for_each_assert.
  fold (filenames contents).
  assert (forallb (fun x => bool_decide (x ∈ filenames contents))
            (mf_source_checks (release_info r)) = false) as ->; [|reflexivity].
  apply not_true_is_false. intros Hall. rewrite forallb_forall in Hall.
  apply list_elem_of_In in Hcheck. specialize (Hall file Hcheck).
  by apply bool_decide_eq_true in Hall.
Qed.

End ArchiveMembers.






(** C2: every requested path gets the committer time of the newest commit
    of the log that touches it (the first mention from the top wins), and
    the function raises when the log touches a requested path nowhere: the
    final assertion fails, unless a line that is not of git's format has
    raised before. *)
Theorem get_file_times_newest_commit `{Platform} (r : Releaser) (paths : list string)
    (w w1 : world) (text : string) :
  Executer_check_output (executer r)
    ["git"; "log"; "--name-status"; "--pretty=time=%cI"; commit r]
    None (Some dry_git_log) w = (Ok (Some text), w1) ->
  let log := splitlines text in
  let outcome := fst (_get_file_times r paths w) in
  (forall path_times, outcome = Ok path_times ->
     forall p, p ∈ paths ->
       exists t, path_times !! p = Some t /\ first_touch log p t)
  /\ (forall p, p ∈ paths -> untouched log p ->
        outcome = Raise AssertionError
        \/ (outcome = Raise ValueError
            /\ Exists (fun line => line_ok line = false) log))
  /\ (well_formed false log = true ->
      (forall p, p ∈ paths -> untouched log p -> outcome = Raise AssertionError)
      /\ (Forall (fun p => Exists (fun line => p ∈ touching line) log) paths ->
          exists path_times, outcome = Ok path_times)).
Proof.
  intros Hout. cbv zeta. rewrite (_get_file_times_run r paths w w1 text Hout).
  simpl fst. set (log := splitlines text).
  assert (Hok : forall path_times, file_times_of_log paths log = Ok path_times ->
            forall p, p ∈ paths ->
              exists t, path_times !! p = Some t /\ first_touch log p t).
  { intros pt Hpt. by destruct (file_times_of_log_ok paths log pt Hpt). }
  assert (Hfail : forall p, p ∈ paths -> untouched log p ->
            file_times_of_log paths log = Raise AssertionError
            \/ (file_times_of_log paths log = Raise ValueError
                /\ Exists (fun line => line_ok line = false) log)).
  { intros p Hp Hun.
    destruct (file_times_of_log paths log) as [pt|e] eqn:Hres.
    - exfalso. destruct (Hok pt eq_refl p Hp)
        as (t & _ & before & line & after & Hlog & Hin & _).
      unfold untouched in Hun. rewrite Forall_forall in Hun.
      apply (Hun line); [|exact Hin].
      rewrite Hlog. apply elem_of_app. right. by left.
    - destruct (file_times_of_log_raise paths log e Hres) as [->|[-> Hbad]];
        [by left | by right]. }
  split; [exact Hok|]. split; [exact Hfail|].
  intros Hwf. split.
  - intros p Hp Hun. destruct (Hfail p Hp Hun) as [?|[_ Hbad]]; [done|].
    exfalso. pose proof (well_formed_line_ok _ _ Hwf) as Hall.
    apply Exists_exists in Hbad as (line & Hin & Hline).
    rewrite Forall_forall in Hall. specialize (Hall line Hin). congruence.
  - intros Hall. apply file_times_of_log_total; [exact Hwf|].
    intros p Hp. rewrite Forall_forall in Hall. by apply Hall.
Qed.

Lemma get_file_times_newest_commit_witness :
  let r := Example.releaser false in
  let w1 := mkWorld Example.files
              [["git"; "log"; "--name-status"; "--pretty=time=%cI"; commit r]] [] in
  Executer_check_output (executer r)
    ["git"; "log"; "--name-status"; "--pretty=time=%cI"; commit r]
    None (Some dry_git_log) Example.start = (Ok (Some Example.git_log), w1)
  /\ well_formed false (splitlines Example.git_log) = true
  /\ exists path_times t,
       fst (_get_file_times r ["CMakeLists.txt"; "src/IMG.c"] Example.start)
       = Ok path_times
       /\ path_times !! "CMakeLists.txt" = Some t
       /\ first_touch (splitlines Example.git_log) "CMakeLists.txt" t.
Proof.
  cbv zeta.
  assert (Hout : Executer_check_output (executer (Example.releaser false))
            ["git"; "log"; "--name-status"; "--pretty=time=%cI";
             commit (Example.releaser false)]
            None (Some dry_git_log) Example.start
          = (Ok (Some Example.git_log),
             mkWorld Example.files
               [["git"; "log"; "--name-status"; "--pretty=time=%cI";
                 commit (Example.releaser false)]] []))
    by (vm_compute; reflexivity).
  assert (Hwf : well_formed false (splitlines Example.git_log) = true)
    by (vm_compute; reflexivity).
  split; [exact Hout|]. split; [exact Hwf|].
  destruct (get_file_times_newest_commit (Example.releaser false)
              ["CMakeLists.txt"; "src/IMG.c"] _ _ _ Hout) as (Hok & _ & Htotal).
  destruct (Htotal Hwf) as [_ Hreturns].
  destruct Hreturns as [path_times Hpt].
  { apply List.Forall_cons; [|apply List.Forall_cons; [|apply List.Forall_nil]].
    - apply Exists_cons_tl, Exists_cons_tl, Exists_cons_hd.
      apply list_elem_of_In. vm_compute. left. reflexivity.
    - do 9 apply Exists_cons_tl. apply Exists_cons_hd.
      apply list_elem_of_In. vm_compute. right. left. reflexivity. }
  destruct (Hok path_times Hpt "CMakeLists.txt") as (t & Ht & Hfirst);
    [apply elem_of_cons; left; reflexivity|].
  exists path_times, t. split; [exact Hpt|]. split; [exact Ht | exact Hfirst].
Defined.

(** ** Releaser.extract_sdl_version *)

(** C5: the version is the first capture group of the first match of the
    major, the minor and the micro pattern in the version file, joined with
    dots in that order; a pattern without a match makes the function
    raise.  A group that took no part in its match prints as [None]. *)
Theorem extract_sdl_version_dotted `{Platform} (root_dir : string) (info : Manifest)
    (w : world) (text : string) :
  fs w !! abspath (PyPath.join root_dir (mf_version_file info)) = Some (File text) ->
  (forall m1 rest1 m2 rest2 m3 rest3 major minor micro,
     re_finditer (mf_re_major info) text = Ok (m1 :: rest1) ->
     nth_error m1 1 = Some major ->
     re_finditer (mf_re_minor info) text = Ok (m2 :: rest2) ->
     nth_error m2 1 = Some minor ->
     re_finditer (mf_re_micro info) text = Ok (m3 :: rest3) ->
     nth_error m3 1 = Some micro ->
     extract_sdl_version root_dir info w
     = (Ok (str_join "." [PyStr.fmt major; PyStr.fmt minor; PyStr.fmt micro]), w))
  /\ (re_finditer (mf_re_major info) text = Ok []
      \/ re_finditer (mf_re_minor info) text = Ok []
      \/ re_finditer (mf_re_micro info) text = Ok [] ->
      exists e, extract_sdl_version root_dir info w = (Raise e, w))
  /\ (re_finditer (mf_re_major info) text = Ok [] ->
      extract_sdl_version root_dir info w = (Raise StopIteration, w)).
Proof.
  intros Hfile.
  assert (Hread : read_file (PyPath.join root_dir (mf_version_file info)) w
                  = (Ok text, w)) by (by rewrite read_file_run, Hfile).
  unfold extract_sdl_version. rewrite (bind_step _ _ _ _ _ Hread).
  unfold first_group1, lift. split; [|split].
  - intros m1 rest1 m2 rest2 m3 rest3 major minor micro H1 G1 H2 G2 H3 G3.
    rewrite !bind_run, H1, G1, H2, G2, H3, G3. reflexivity.
  - rewrite !bind_run. intros [H1|[H2|H3]].
    + rewrite H1. by eexists.
    + destruct (re_finditer (mf_re_major info) text) as [[|m1 ?]|?];
        try by eexists.
      destruct (nth_error m1 1); [|by eexists].
      rewrite !bind_run, H2. by eexists.
    + destruct (re_finditer (mf_re_major info) text) as [[|m1 ?]|?];
        try by eexists.
      destruct (nth_error m1 1); [|by eexists].
      rewrite !bind_run.
      destruct (re_finditer (mf_re_minor info) text) as [[|m2 ?]|?];
        try by eexists.
      destruct (nth_error m2 1); [|by eexists].
      rewrite !bind_run, H3. by eexists.
  - intros H1. by rewrite bind_run, H1.
Qed.

Lemma extract_sdl_version_dotted_witness :
  fs Example.start !! abspath (PyPath.join "/proj" (mf_version_file Example.info))
  = Some (File "MAJOR_VERSION 2 MINOR_VERSION 8 PATCHLEVEL 1")
  /\ extract_sdl_version "/proj" Example.info Example.start
     = (Ok "2.8.1", Example.start).
Proof.
  assert (Hfile : fs Example.start
                    !! abspath (PyPath.join "/proj" (mf_version_file Example.info))
                  = Some (File "MAJOR_VERSION 2 MINOR_VERSION 8 PATCHLEVEL 1"))
    by (vm_compute; reflexivity).
  split; [exact Hfile|].
  destruct (extract_sdl_version_dotted "/proj" Example.info Example.start _ Hfile)
    as [Hok _].
  apply (Hok [Some "MAJOR_VERSION 2"; Some "2"] []
             [Some "MINOR_VERSION 8"; Some "8"] []
             [Some "PATCHLEVEL 1"; Some "1"] []
             (Some "2") (Some "8") (Some "1")); reflexivity.
Defined.

(** ** Releaser.verify_dependencies *)

Section Verify.
Context `{Platform}.

Lemma verify_dependency_run (r : Releaser) (dep : string) (w : world) :
  exists x,
    verify_dependency r dep w = (x, w)
    /\ (x = Ok tt <-> dependency_ok r w dep = true)
    /\ (declared r dep = true -> dependency_ok r w dep = false ->
        x = Raise AssertionError).
Proof.
  unfold dependency_ok, declared, dependency_patterns, one_match.
  cbv [verify_dependency mbind M_bind bind dict_lookup glob_deps gets assert
       ret raise].
  destruct (dict_get dep (mf_mingw_dependencies (release_info r))) as [p1|];
    destruct (dict_get dep (mf_dmg_dependencies (release_info r))) as [p2|];
    destruct (dict_get dep (mf_msvc_dependencies (release_info r))) as [d|];
    simpl;
    repeat match goal with
           | |- context [(length ?l =? 1)%nat] => destruct (length l =? 1)%nat
           end;
    simpl; eexists; (split; [reflexivity|]);
    (split; [split; intros E; first [reflexivity | discriminate E]
            | intros E1 E2; first [reflexivity | discriminate E1 | discriminate E2]]).
Qed.

Lemma verify_dependencies_world (r : Releaser) (w : world) :
  snd (verify_dependencies r w) = w.
Proof.
  unfold verify_dependencies.
  induction (mf_dependencies (release_info r)) as [|dep deps IH];
    [reflexivity|].
  destruct (verify_dependency_run r dep w) as (x & Hrun & _).
  rewrite for_each_cons, bind_run, Hrun.
  destruct x; [exact IH | reflexivity].
Qed.

Lemma verify_dependencies_ok (r : Releaser) (w : world) :
  fst (verify_dependencies r w) = Ok tt
  <-> forallb (dependency_ok r w) (mf_dependencies (release_info r)) = true.
Proof.
  unfold verify_dependencies.
  induction (mf_dependencies (release_info r)) as [|dep deps IH];
    [done|].
  destruct (verify_dependency_run r dep w) as (x & Hrun & Hok & _).
  rewrite for_each_cons, bind_run, Hrun. simpl forallb.
  rewrite andb_true_iff, <- Hok, <- IH.
  destruct x as [[]|e]; simpl; [tauto|].
  split; [discriminate | intros [E _]; discriminate E].
Qed.

Lemma verify_dependencies_raise (r : Releaser) (w : world) :
  forallb (declared r) (mf_dependencies (release_info r)) = true ->
  forallb (dependency_ok r w) (mf_dependencies (release_info r)) = false ->
  fst (verify_dependencies r w) = Raise AssertionError.
Proof.
  unfold verify_dependencies.
  induction (mf_dependencies (release_info r)) as [|dep deps IH];
    [discriminate|].
  simpl forallb. intros [Hdecl Hrest]%andb_true_iff.
  destruct (verify_dependency_run r dep w) as (x & Hrun & Hok & Hbad).
  rewrite for_each_cons, bind_run, Hrun.
  destruct (dependency_ok r w dep) eqn:Hdep; simpl.
  - destruct Hok as [_ Hok]. rewrite (Hok eq_refl). by apply IH.
  - intros _. by rewrite (Hbad Hdecl eq_refl).
Qed.

End Verify.

(** C8: [verify_dependencies] returns exactly when, for every declared
    dependency and each of the families mingw, dmg and msvc, one and only
    one file of the dependency folder matches the manifest's pattern; with
    no match or several it raises an assertion error; and it leaves the
    world as it found it. *)
Theorem verify_dependencies_exactly_one `{Platform} (r : Releaser) (w : world) :
  snd (verify_dependencies r w) = w
  /\ (fst (verify_dependencies r w) = Ok tt
      <-> forall dep, dep ∈ mf_dependencies (release_info r) ->
            forall pattern, pattern ∈ dependency_patterns r dep ->
              exists p, pattern = Some p
                        /\ length (glob p (deps_path r) (fs w)) = 1%nat)
  /\ (forallb (declared r) (mf_dependencies (release_info r)) = true ->
      (exists dep p, dep ∈ mf_dependencies (release_info r)
                     /\ Some p ∈ dependency_patterns r dep
                     /\ length (glob p (deps_path r) (fs w)) <> 1%nat) ->
      fst (verify_dependencies r w) = Raise AssertionError).
Proof.
  assert (Hone : forall pattern,
            one_match r w pattern = true
            <-> exists p, pattern = Some p
                          /\ length (glob p (deps_path r) (fs w)) = 1%nat).
  { intros [p|]; simpl.
    - rewrite Nat.eqb_eq. split; [by exists p | by intros (? & [= <-] & ?)].
    - split; [discriminate | by intros (? & ? & _)]. }
  split; [apply verify_dependencies_world|]. split.
  - rewrite verify_dependencies_ok, forallb_forall. split.
    + intros Hall dep Hdep pattern Hpat. apply Hone.
      apply list_elem_of_In in Hdep. specialize (Hall dep Hdep).
      unfold dependency_ok in Hall. rewrite forallb_forall in Hall.
      apply Hall. by apply list_elem_of_In.
    + intros Hall dep Hdep. unfold dependency_ok. apply forallb_forall.
      intros pattern Hpat. apply Hone, (Hall dep); by apply list_elem_of_In.
  - intros Hdecl (dep & p & Hdep & Hpat & Hlen).
    apply verify_dependencies_raise; [exact Hdecl|].
    apply not_true_is_false. rewrite forallb_forall. intros Hall.
    apply list_elem_of_In in Hdep. specialize (Hall dep Hdep).
    unfold dependency_ok in Hall. rewrite forallb_forall in Hall.
    apply list_elem_of_In in Hpat. specialize (Hall _ Hpat).
    apply Hone in Hall as (p' & [= <-] & Hlen'). contradiction.
Qed.

Lemma verify_dependencies_exactly_one_witness :
  forallb (declared (Example.releaser false)) (mf_dependencies Example.info) = true
  /\ fst (verify_dependencies (Example.releaser false) Example.start) = Ok tt
  /\ fst (verify_dependencies (Example.releaser false)
            (with_fs (<["/proj/deps/SDL2-2.30.2.dmg" := File "c"]> Example.files)
               Example.start))
     = Raise AssertionError.
Proof.
  assert (Hdecl : forallb (declared (Example.releaser false))
                    (mf_dependencies Example.info) = true) by reflexivity.
  split; [exact Hdecl|]. split.
  - destruct (verify_dependencies_exactly_one (Example.releaser false) Example.start)
      as (_ & Hiff & _).
    apply Hiff. intros dep Hdep pattern Hpat.
    apply list_elem_of_singleton in Hdep as ->.
    repeat (apply elem_of_cons in Hpat as [->|Hpat]);
      [eexists; split; [reflexivity | vm_compute; reflexivity] ..|].
    by apply elem_of_nil in Hpat.
  - destruct (verify_dependencies_exactly_one (Example.releaser false)
                (with_fs (<["/proj/deps/SDL2-2.30.2.dmg" := File "c"]> Example.files)
                   Example.start)) as (_ & _ & Hraise).
    apply Hraise; [exact Hdecl|].
    exists "SDL2", "SDL2-*.dmg". split; [by left|]. split; [right; by left|].
    vm_compute. discriminate.
Defined.

(** ** The two guards: dirty tree and overwriting *)

Lemma for_each_raise_at {A} (pre post : list A) (x : A) (body : A -> M unit)
    (w w1 w2 : world) (e : exn) :
  for_each pre body w = (Ok tt, w1) ->
  body x w1 = (Raise e, w2) ->
  for_each (pre ++ x :: post) body w = (Raise e, w2).
Proof.
  revert w. induction pre as [|y pre IH]; intros w; simpl app.
  - intros [= <-] Hx. rewrite for_each_cons. by apply bind_raise.
  - rewrite !for_each_cons. intros Hpre Hx.
    apply bind_ok in Hpre as ([] & w' & Hy & Hpre).
    rewrite (bind_step _ _ _ _ _ Hy). by apply IH.
Qed.

Section Guards.
Context `{Platform}.

Lemma check_clean_tree_run (ex : Executer) (force : bool) (w w1 : world)
    (out : string) :
  Executer_check_output ex ["git"; "status"; "--ignored"; "--porcelain"]
    None (Some PyStr.nl) w = (Ok (Some out), w1) ->
  check_clean_tree ex false force w
  = (if String.eqb (PyStr.strip out) EmptyString then Ok tt
     else if force then Ok tt else Raise Exception, w1).
Proof.
  intros Hout. unfold check_clean_tree. rewrite (bind_step _ _ _ _ _ Hout).
  unfold strip_output. rewrite bind_run. unfold ret at 1.
  destruct (String.eqb (PyStr.strip out) EmptyString); [reflexivity|].
  by destruct force.
Qed.

Lemma extract_to_existing (r : Releaser) (arch_platform : VsArchPlatformConfig)
    (zdata member : string) (instr : CopyInstr) (w : world) :
  fnmatch (member_path member) (configure arch_platform (ci_src instr)) = true ->
  is_Some (fs w !! abspath (destination r arch_platform instr member (fs w))) ->
  extract_to r arch_platform zdata member instr w
  = if overwrite r
    then write_member zdata member
           (destination r arch_platform instr member (fs w)) w
    else (Raise RuntimeError, w).
Proof.
  intros Hmatch [n Hn]. unfold extract_to. rewrite Hmatch. unfold when at 1.
  rewrite bind_run. unfold gets at 1.
  unfold path_exists. rewrite !bind_run, node_at_run, Hn. unfold ret at 1.
  by destruct (overwrite r).
Qed.

Lemma build_vs_raise_in_extraction (r : Releaser)
    (arch_platform : VsArchPlatformConfig) (vs : VisualStudio)
    (w w' : world) (e : exn) :
  extract_msvc_dependencies r arch_platform
    (snd (rmtree (PyPath.join (deps_path r) "msvc-deps") w)) = (Raise e, w') ->
  build_vs r arch_platform vs w = (Raise e, w').
Proof.
  intros Hextract. unfold build_vs. rewrite bind_run.
  change (rmtree (PyPath.join (deps_path r) "msvc-deps") w)
    with (Ok tt, snd (rmtree (PyPath.join (deps_path r) "msvc-deps") w)).
  by apply bind_raise.
Qed.

End Guards.




(** ** Dry runs *)

Section Quiet.
Context `{Platform}.

Lemma quiet_ret {A} (a : A) : quiet (ret a).
Proof. by intros w. Qed.

Lemma quiet_raise {A} (e : exn) : quiet (raise (A := A) e).
Proof. by intros w. Qed.

Lemma quiet_lift {A} (x : result A) : quiet (lift x).
Proof. by intros w. Qed.

Lemma quiet_gets {A} (f : world -> A) : quiet (gets f).
Proof. by intros w. Qed.

Lemma quiet_modify (f : world -> world) :
  (forall w, procs (f w) = procs w) -> quiet (modify f).
Proof. intros Hf w. apply Hf. Qed.

Lemma quiet_bind {A B} (m : M A) (k : A -> M B) :
  quiet m -> (forall a, quiet (k a)) -> quiet (m ≫= k).
Proof.
  intros Hm Hk w. rewrite bind_run. specialize (Hm w).
  destruct (m w) as [[a|e] w1]; simpl in *; [|exact Hm].
  by rewrite Hk.
Qed.

Lemma quiet_assert (c : bool) : quiet (assert c).
Proof. destruct c; [apply quiet_ret | apply quiet_raise]. Qed.

Lemma quiet_when (c : bool) (m : M unit) : quiet m -> quiet (when c m).
Proof. destruct c; [done | intros _; apply quiet_ret]. Qed.

Lemma quiet_for_each {A} (l : list A) (body : A -> M unit) :
  (forall x, quiet (body x)) -> quiet (for_each l body).
Proof.
  intros Hbody. induction l as [|x l IH]; [apply quiet_ret|].
  rewrite for_each_cons. apply quiet_bind; [apply Hbody | by intros _].
Qed.

Lemma quiet_set_artifact (k p : string) : quiet (set_artifact k p).
Proof. by intros w. Qed.

End Quiet.

(** One step of a proof that a computation starts no process. *)
Ltac quiet_step :=
  match goal with
  | |- quiet (_ ≫= _) => apply quiet_bind; [|intros ?]
  | |- quiet (ret _) => apply quiet_ret
  | |- quiet (raise _) => apply quiet_raise
  | |- quiet (lift _) => apply quiet_lift
  | |- quiet (gets _) => apply quiet_gets
  | |- quiet (modify _) => apply quiet_modify; intros ?; reflexivity
  | |- quiet (assert _) => apply quiet_assert
  | |- quiet (set_artifact _ _) => apply quiet_set_artifact
  | |- quiet (when _ _) => apply quiet_when
  | |- quiet (for_each _ _) => apply quiet_for_each; intros ?
  | |- quiet (match ?x with _ => _ end) => destruct x
  | |- quiet _ => solve [auto with quiet]
  end.

Ltac quiet_run := repeat quiet_step.

Create HintDb quiet.

Section QuietFiles.
Context `{Platform}.

Lemma quiet_node_at (p : string) : quiet (node_at p).
Proof. unfold node_at. quiet_run. Qed.
Hint Resolve quiet_node_at : quiet.

Lemma quiet_set_node (a : string) (n : node) : quiet (set_node a n).
Proof. unfold set_node. quiet_run. Qed.
Hint Resolve quiet_set_node : quiet.

Lemma quiet_path_exists (p : string) : quiet (path_exists p).
Proof. unfold path_exists. quiet_run. Qed.

Lemma quiet_is_file (p : string) : quiet (is_file p).
Proof. unfold is_file. quiet_run. Qed.

Lemma quiet_is_dir (p : string) : quiet (is_dir p).
Proof. unfold is_dir. quiet_run. Qed.

Lemma quiet_write_file (p d : string) : quiet (write_file p d).
Proof. unfold write_file. quiet_run. Qed.
Hint Resolve quiet_write_file : quiet.

Lemma quiet_read_file (p : string) : quiet (read_file p).
Proof. unfold read_file. quiet_run. Qed.

Lemma quiet_touch (p : string) : quiet (touch p).
Proof. unfold touch. quiet_run. Qed.

Lemma quiet_mkdir_parents (p : string) : quiet (mkdir_parents p).
Proof. unfold mkdir_parents. quiet_run. Qed.

Lemma quiet_unlink_missing_ok (p : string) : quiet (unlink_missing_ok p).
Proof. unfold unlink_missing_ok. quiet_run. Qed.

Lemma quiet_rmtree (p : string) : quiet (rmtree p).
Proof. unfold rmtree. quiet_run. Qed.

Hint Resolve quiet_path_exists quiet_is_file quiet_is_dir quiet_read_file
  quiet_touch quiet_mkdir_parents quiet_unlink_missing_ok quiet_rmtree : quiet.

Lemma quiet_copy (src dst : string) : quiet (copy src dst).
Proof. unfold copy. quiet_run. Qed.

Lemma quiet_patch_file (p : string) (off : nat) (new : string) :
  quiet (patch_file p off new).
Proof. unfold patch_file. quiet_run. Qed.

(** Run dry, the executer starts nothing. *)
Lemma quiet_Executer_run (ex : Executer) (cmd : list string) (dir : option string) :
  ex_dry ex = true -> quiet (Executer_run ex cmd dir).
Proof. unfold Executer_run. intros ->. apply quiet_ret. Qed.

Lemma Executer_check_output_dry (ex : Executer) (cmd : list string)
    (dir : option string) (dry_out : option string) (w : world) :
  ex_dry ex = true ->
  Executer_check_output ex cmd dir dry_out w = (Ok dry_out, w).
Proof. unfold Executer_check_output. by intros ->. Qed.

Lemma quiet_zip_from_file (p a : string) : quiet (zip_from_file p a).
Proof. unfold zip_from_file. quiet_run. Qed.

Lemma quiet_zip_add_all (p : string) (acc : list ZipEntry)
    (steps : list (M ZipEntry)) :
  Forall quiet steps -> quiet (zip_add_all p acc steps).
Proof.
  intros Hsteps. revert acc.
  induction Hsteps as [|s steps Hs _ IH]; intros acc; simpl.
  - apply quiet_write_file.
  - intros w. specialize (Hs w).
    destruct (s w) as [[e|x] w1]; simpl in *.
    + by rewrite IH.
    + rewrite <- Hs.
      apply (quiet_bind (write_file p (zip_bytes acc)) (fun _ => raise x));
        [apply quiet_write_file | intros _; apply quiet_raise].
Qed.

Lemma quiet_lib_steps (r : Releaser) (arch_platform : VsArchPlatformConfig)
    (l : list FilesEntry) :
  Forall quiet (lib_steps r arch_platform l).
Proof.
  unfold lib_steps. induction l as [|entry l IH]; simpl; [constructor|].
  apply Forall_app. split; [|exact IH].
  destruct (fe_lib entry); [|constructor].
  apply Forall_map, Forall_forall. intros p _. apply quiet_zip_from_file.
Qed.

Lemma quiet_zipfile_write (p : string) (steps : list (M ZipEntry)) :
  Forall quiet steps -> quiet (zipfile_write p steps).
Proof.
  intros Hsteps. unfold zipfile_write.
  apply quiet_bind; [apply quiet_write_file | intros _].
  by apply quiet_zip_add_all.
Qed.

Hint Resolve quiet_copy quiet_patch_file quiet_zip_from_file : quiet.

Lemma quiet_create_dmg (r : Releaser) (configuration : string) :
  dry r = true -> quiet (create_dmg r configuration).
Proof.
  intros Hdry. unfold create_dmg. rewrite Hdry.
  pose proof (quiet_Executer_run (executer r)) as Hrun.
  quiet_run; try (by apply Hrun).
Qed.

Lemma quiet_VisualStudio_build (vs : VisualStudio)
    (arch_platform : VsArchPlatformConfig) (projects : list string) :
  ex_dry (vs_executer vs) = true ->
  quiet (VisualStudio_build vs arch_platform projects).
Proof.
  intros Hdry. unfold VisualStudio_build.
  pose proof (quiet_Executer_run (vs_executer vs)) as Hrun.
  quiet_run; try (by apply Hrun).
Qed.

Lemma quiet_extract_msvc_dependencies (r : Releaser)
    (arch_platform : VsArchPlatformConfig) :
  quiet (extract_msvc_dependencies r arch_platform).
Proof.
  unfold extract_msvc_dependencies, extract_dependency, glob_deps,
    extract_member, extract_to, write_member.
  quiet_run.
Qed.

Lemma quiet_build_vs (r : Releaser) (arch_platform : VsArchPlatformConfig)
    (vs : VisualStudio) :
  ex_dry (vs_executer vs) = true -> quiet (build_vs r arch_platform vs).
Proof.
  intros Hdry. unfold build_vs.
  apply quiet_bind; [apply quiet_rmtree | intros _].
  apply quiet_bind; [apply quiet_extract_msvc_dependencies | intros _].
  destruct (mf_msvc_msbuild (release_info r)) as [mb|]; [|apply quiet_raise].
  apply quiet_bind; [apply quiet_assert | intros _].
  apply quiet_bind; [quiet_run | intros _].
  apply quiet_bind; [by apply quiet_VisualStudio_build | intros _].
  apply quiet_bind; [quiet_run | intros _].
  apply quiet_bind; [quiet_run | intros _].
  apply quiet_bind; [quiet_run | intros _].
  apply quiet_bind; [|intros _; quiet_run].
  apply quiet_zipfile_write. rewrite !Forall_app.
  repeat split; try apply quiet_lib_steps.
  constructor; [apply quiet_ret | constructor].
Qed.

Lemma quiet_verify_dependencies (r : Releaser) : quiet (verify_dependencies r).
Proof.
  intros w. by rewrite verify_dependencies_world.
Qed.

(** Run dry, the source archives are never reached: the snapshot that
    [git archive] would print is missing. *)
Lemma create_source_archives_dry (r : Releaser) (w : world) :
  dry r = true -> create_source_archives r w = (Raise ReadError, w).
Proof.
  intros Hdry. unfold create_source_archives. apply bind_raise.
  by apply _get_git_contents_dry.
Qed.

End QuietFiles.

Section Artifacts.
Context `{Platform}.

Lemma is_file_run (p : string) (w : world) :
  is_file p w
  = (Ok (match fs w !! abspath p with Some (File _) => true | _ => false end), w).
Proof. reflexivity. Qed.

Lemma is_dir_run (p : string) (w : world) :
  is_dir p w
  = (Ok (match fs w !! abspath p with Some Dir => true | _ => false end), w).
Proof. reflexivity. Qed.

(** A loop that only asserts that files are there changes nothing. *)
Lemma for_each_is_file_world (l : list string) (w w' : world) (x : result unit) :
  for_each l (fun p => f ← is_file p; assert f) w = (x, w') -> w' = w.
Proof.
  revert x. induction l as [|p l IH]; intros x; [by intros [= _ <-]|].
  rewrite for_each_cons, bind_run, bind_run, is_file_run.
  destruct (fs w !! abspath p) as [[?|]|]; simpl; try by intros [= _ <-].
  apply IH.
Qed.

Lemma copy_ok (src dst : string) (w w' : world) :
  copy src dst w = (Ok tt, w') ->
  artifacts w' = artifacts w /\ is_Some (fs w' !! abspath dst).
Proof.
  unfold copy. intros Hrun.
  apply bind_ok in Hrun as (d & w1 & Hread & Hrun).
  rewrite read_file_run in Hread. injection Hread as _ <-.
  apply bind_ok in Hrun as (isdir & w1 & Hdir & Hrun).
  rewrite is_dir_run in Hdir. injection Hdir as <- <-.
  apply write_file_ok in Hrun. subst w'. simpl. split; [reflexivity|].
  destruct (fs w !! abspath dst) as [[?|]|] eqn:Hdst.
  - by rewrite lookup_insert_eq.
  - destruct (decide (abspath (PyPath.join dst (PyPath.name src)) = abspath dst))
      as [->|Hne].
    + by rewrite lookup_insert_eq.
    + rewrite lookup_insert_ne by done. by rewrite Hdst.
  - by rewrite lookup_insert_eq.
Qed.

(** A completed [create_dmg] has registered its artifact, and the path
    it registered exists. *)
Lemma create_dmg_artifact (r : Releaser) (configuration : string) (w w' : world) :
  create_dmg r configuration w = (Ok tt, w') ->
  dict_get "dmg" (artifacts w')
  = Some (PyPath.join (dist_path r) (project r +:+ "-" +:+ version r +:+ ".dmg"))
  /\ is_Some (fs w' !! abspath (PyPath.join (dist_path r)
                                  (project r +:+ "-" +:+ version r +:+ ".dmg"))).
Proof.
  unfold create_dmg. intros Hrun.
  do 7 (apply bind_ok in Hrun as (? & ? & _ & Hrun)).
  apply bind_ok in Hrun as ([] & w1 & Hcopy & Hrun).
  apply copy_ok in Hcopy as [_ Hexists].
  rewrite set_artifact_run in Hrun. injection Hrun as <-. simpl.
  split; [apply dict_get_set_eq | exact Hexists].
Qed.

Lemma zip_add_all_ok (p : string) (acc : list ZipEntry) (steps : list (M ZipEntry))
    (w w' : world) :
  zip_add_all p acc steps w = (Ok tt, w') ->
  exists entries, fs w' !! abspath p = Some (File (zip_bytes entries)).
Proof.
  revert acc w. induction steps as [|s steps IH]; intros acc w; simpl.
  - intros Hw. apply write_file_ok in Hw. subst w'. simpl.
    exists acc. apply lookup_insert_eq.
  - destruct (s w) as [[e|x] w1].
    + apply IH.
    + rewrite bind_run. destruct (write_file p (zip_bytes acc) w1) as [[[]|?] ?];
        discriminate.
Qed.

(** A completed [build_vs] has registered its artifact, and the zip
    archive is there. *)
Lemma build_vs_artifact (r : Releaser) (arch_platform : VsArchPlatformConfig)
    (vs : VisualStudio) (w w' : world) :
  build_vs r arch_platform vs w = (Ok tt, w') ->
  dict_get ("VC-" +:+ arch arch_platform) (artifacts w')
  = Some (PyPath.join (dist_path r)
            (project r +:+ "-" +:+ version r +:+ "-win32-" +:+ arch arch_platform
             +:+ ".zip"))
  /\ exists entries,
       fs w' !! abspath (PyPath.join (dist_path r)
                           (project r +:+ "-" +:+ version r +:+ "-win32-"
                            +:+ arch arch_platform +:+ ".zip"))
       = Some (File (zip_bytes entries)).
Proof.
  unfold build_vs. intros Hrun.
  apply bind_ok in Hrun as (? & ? & _ & Hrun).
  apply bind_ok in Hrun as (? & ? & _ & Hrun).
  destruct (mf_msvc_msbuild (release_info r)) as [mb|]; [|discriminate].
  do 6 (apply bind_ok in Hrun as (? & ? & _ & Hrun)).
  apply bind_ok in Hrun as ([] & w1 & Hzip & Hrun).
  apply bind_ok in Hrun as ([] & w2 & Hart & Hrun).
  rewrite set_artifact_run in Hart. injection Hart as <-.
  apply for_each_is_file_world in Hrun. subst w'. simpl.
  split; [apply dict_get_set_eq|].
  unfold zipfile_write in Hzip.
  apply bind_ok in Hzip as ([] & w3 & _ & Hzip).
  by eapply zip_add_all_ok.
Qed.

End Artifacts.




(** * Further properties *)


Section MoreFileFacts.
Context `{Platform}.

Lemma with_fs_same (w : world) : with_fs (fs w) w = w.
Proof. by destruct w. Qed.

Lemma unlink_missing_ok_ok (p : string) (w w1 : world) :
unlink_missing_ok p w = (Ok tt, w1) ->
w1 = with_fs (delete (abspath p) (fs w)) w.
Proof.
unfold unlink_missing_ok. rewrite bind_run, node_at_run.
destruct (fs w !! abspath p) as [[?|]|] eqn:Hp; try discriminate.
- by intros [= <-].
- intros [= <-]. by rewrite delete_id, with_fs_same.
Qed.

Lemma spawn_ok (cmd : list string) (dir : string) (w w1 : world) (out : string) :
spawn cmd dir w = (Ok out, w1) ->
exists built,
  subprocess cmd dir (fs w) = (Some out, built)
  /\ w1 = mkWorld built (procs w ++ [cmd])%list (artifacts w).
Proof.
unfold spawn. destruct (subprocess cmd dir (fs w)) as [[o|] built]; [|discriminate].
intros [= <- <-]. by exists built.
Qed.

End MoreFileFacts.


(** ** VsArchPlatformConfig.configure *)

Lemma replace_go_no_at (old new s : string) :
has_at s = false ->
PyStr.replace_go (String "@" old) new 0 s = s.
Proof.
induction s as [|c s IH]; [reflexivity|].
simpl has_at. intros [Hc Hs]%orb_false_iff.
simpl. rewrite startswith_cons.
rewrite Ascii.eqb_sym, Hc. simpl. by rewrite IH.
Qed.

(** X1: [configure] leaves a template without [@] as it is. *)
Theorem configure_without_placeholder (c : VsArchPlatformConfig) (s : string) :
has_at s = false -> configure c s = s.
Proof.
intros Hs. unfold configure, PyStr.replace.
rewrite (replace_go_no_at "ARCH@" (arch c) s Hs).
rewrite (replace_go_no_at "PLATFORM@" (platform c) s Hs).
exact (replace_go_no_at "CONFIGURATION@" (configuration c) s Hs).
Qed.

Lemma configure_without_placeholder_witness :
has_at "VisualC/SDL_image.sln" = false
/\ configure Example.x86 "VisualC/SDL_image.sln" = "VisualC/SDL_image.sln".
Proof.
assert (Hs : has_at "VisualC/SDL_image.sln" = false) by reflexivity.
split; [exact Hs | exact (configure_without_placeholder Example.x86 _ Hs)].
Defined.

(** ** class VisualStudio *)

(** X2: A year that is not in the table is no error for
    [VisualStudio.__init__]: the install path is not looked up at all, and
    the object is built with [vsdevcmd] left at [None]. *)
Theorem VisualStudio_init_unknown_year `{Platform} (ex : Executer) (year : string)
  (w : world) :
dict_get year VS_YEAR_TO_VERSION = None ->
VisualStudio_init ex (Some year) w
= match find_msbuild ex w with
  | (Ok m, w') => (Ok (mkVisualStudio ex None m), w')
  | (Raise e, w') => (Raise e, w')
  end.
Proof.
intros Hyear. unfold VisualStudio_init, find_vsdevcmd. rewrite Hyear.
rewrite bind_run. unfold ret at 1. rewrite bind_run.
by destruct (find_msbuild ex w) as [[m|e] w'].
Qed.

Lemma VisualStudio_init_unknown_year_witness :
dict_get "2010" VS_YEAR_TO_VERSION = None
/\ exists w', VisualStudio_init (mkExecuter "/proj" true) (Some "2010") Example.start
              = (Ok (mkVisualStudio (mkExecuter "/proj" true) None
                       (Some "/tmp/MSBuild.exe")), w').
Proof.
assert (Hyear : dict_get "2010" VS_YEAR_TO_VERSION = None) by reflexivity.
split; [exact Hyear|].
eexists.
rewrite (VisualStudio_init_unknown_year (mkExecuter "/proj" true) "2010"
           Example.start Hyear).
vm_compute. reflexivity.
Defined.

(** X3: [VisualStudio.build] refuses an empty project list before it writes
    anything; otherwise it writes the batch file into the temporary
    directory and, unless run dry, starts exactly one process, [cmd.exe]
    calling that file, in the project root. *)
Theorem VisualStudio_build_effects `{Platform} (vs : VisualStudio)
  (arch_platform : VsArchPlatformConfig) (projects : list string) (w : world) :
(projects = [] ->
 VisualStudio_build vs arch_platform projects w = (Raise AssertionError, w))
/\ (forall w', projects <> [] ->
      VisualStudio_build vs arch_platform projects w = (Ok tt, w') ->
      let bat_path := PyPath.join gettempdir "cmd.bat" in
      let cmd := ["cmd.exe"; "/D"; "/E:ON"; "/V:OFF"; "/S"; "/C"; "CALL " +:+ bat_path] in
      exists contents,
        if ex_dry (vs_executer vs)
        then w' = with_fs (<[abspath bat_path := File contents]> (fs w)) w
        else exists out,
               subprocess cmd (ex_root (vs_executer vs))
                 (<[abspath bat_path := File contents]> (fs w)) = (Some out, fs w')
               /\ procs w' = (procs w ++ [cmd])%list
               /\ artifacts w' = artifacts w).
Proof.
split.
- intros ->. reflexivity.
- intros w' Hne Hrun. cbv zeta. unfold VisualStudio_build in Hrun.
  destruct projects as [|project projects]; [done|].
  apply bind_ok in Hrun as ([] & w0 & Hassert & Hrun).
  injection Hassert as <-.
  apply bind_ok in Hrun as ([] & w1 & Hwrite & Hrun).
  apply write_file_ok in Hwrite. subst w1.
  unfold Executer_run in Hrun.
  destruct (ex_dry (vs_executer vs)).
  + injection Hrun as <-. eexists. reflexivity.
  + apply bind_ok in Hrun as (out & w2 & Hspawn & Hrun).
    injection Hrun as <-. unfold spawn, cwd_or_root in Hspawn.
    destruct (subprocess _ _ _) as [[o|] f] eqn:Hproc; [|discriminate].
    injection Hspawn as <- <-. eexists. exists o.
    split; [exact Hproc | split; reflexivity].
Qed.

Lemma VisualStudio_build_effects_witness :
["VisualC/SDL_image.sln"] <> []
/\ exists w', VisualStudio_build (Example.studio false) Example.x86
                ["VisualC/SDL_image.sln"] Example.start = (Ok tt, w')
              /\ procs w'
                 = [["cmd.exe"; "/D"; "/E:ON"; "/V:OFF"; "/S"; "/C"; "CALL /tmp/cmd.bat"]].
Proof.
assert (Hne : ["VisualC/SDL_image.sln"] <> []) by discriminate.
split; [exact Hne|].
exists (snd (VisualStudio_build (Example.studio false) Example.x86
               ["VisualC/SDL_image.sln"] Example.start)).
assert (Hrun : VisualStudio_build (Example.studio false) Example.x86
                 ["VisualC/SDL_image.sln"] Example.start
               = (Ok tt, snd (VisualStudio_build (Example.studio false) Example.x86
                                ["VisualC/SDL_image.sln"] Example.start)))
  by (vm_compute; reflexivity).
split; [exact Hrun|].
destruct (VisualStudio_build_effects (Example.studio false) Example.x86
            ["VisualC/SDL_image.sln"] Example.start) as [_ Hok].
destruct (Hok _ Hne Hrun) as (contents & out & _ & Hprocs & _).
exact Hprocs.
Defined.

(** ** Releaser.create_dmg *)

(** X4: When the Xcode project is not a directory, [create_dmg] stops before it
    touches anything, and what it raises is [NameError]: the message of the
    failing assertion names [xcode_projet], which is not defined. *)
Theorem create_dmg_project_missing `{Platform} (r : Releaser) (configuration : string)
  (w : world) :
fs w !! abspath (PyPath.join (root r) (mf_dmg_project (release_info r))) <> Some Dir ->
create_dmg r configuration w = (Raise NameError, w).
Proof.
intros Hdir. unfold create_dmg. rewrite bind_run, is_dir_run.
destruct (fs w !! abspath _) as [[?|]|]; try reflexivity. done.
Qed.

Lemma create_dmg_project_missing_witness :
let r := Sample.releaser (Sample.manifest [] [] "missing.xcodeproj" None) in
fs Example.start !! abspath (PyPath.join (root r) (mf_dmg_project (release_info r)))
<> Some Dir
/\ create_dmg r "Release" Example.start = (Raise NameError, Example.start).
Proof.
cbv zeta.
assert (Hdir :
  fs Example.start
    !! abspath (PyPath.join
                  (root (Sample.releaser (Sample.manifest [] [] "missing.xcodeproj" None)))
                  (mf_dmg_project
                     (release_info
                        (Sample.releaser
                           (Sample.manifest [] [] "missing.xcodeproj" None)))))
  <> Some Dir) by (vm_compute; discriminate).
split; [exact Hdir|].
exact (create_dmg_project_missing
         (Sample.releaser (Sample.manifest [] [] "missing.xcodeproj" None))
         "Release" Example.start Hdir).
Defined.

(** X5: Not run dry, a completed [create_dmg] has copied the disk image that
    [xcodebuild] left: the image of an earlier build is removed before the
    process starts, so that it cannot stand in for a missing one; and
    [xcodebuild] is the only process started. *)
Theorem create_dmg_copies_fresh_image `{Platform} (r : Releaser)
  (configuration : string) (w w' : world) :
dry r = false ->
create_dmg r configuration w = (Ok tt, w') ->
let dmg_in := PyPath.join (root r) (mf_dmg_path (release_info r)) in
let dmg_out :=
  PyPath.join (dist_path r) (project r +:+ "-" +:+ version r +:+ ".dmg") in
let cmd :=
  ["xcodebuild"; "-project"; PyPath.join (root r) (mf_dmg_project (release_info r));
   "-target"; mf_dmg_target (release_info r); "-configuration"; configuration] in
exists out built image,
  subprocess cmd (ex_root (executer r)) (delete (abspath dmg_in) (fs w))
  = (Some out, built)
  /\ built !! abspath dmg_in = Some (File image)
  /\ fs w' = <[abspath (if match built !! abspath dmg_out with
                           | Some Dir => true
                           | _ => false
                           end
                        then PyPath.join dmg_out (PyPath.name dmg_in)
                        else dmg_out) := File image]> built
  /\ procs w' = (procs w ++ [cmd])%list.
Proof.
intros Hdry Hrun. cbv zeta. unfold create_dmg in Hrun.
rewrite Hdry in Hrun. unfold dry in Hdry. unfold Executer_run in Hrun.
rewrite Hdry in Hrun.
apply bind_ok in Hrun as (d & w0 & Hd & Hrun).
rewrite is_dir_run in Hd. injection Hd as _ <-.
apply bind_ok in Hrun as ([] & w0 & Hproject & Hrun).
destruct d; [|discriminate Hproject]. injection Hproject as <-.
apply bind_ok in Hrun as ([] & w1 & Hunlink & Hrun).
apply bind_ok in Hrun as ([] & w2 & Hbuild & Hrun).
apply bind_ok in Hbuild as (out & w2' & Hspawn & Hret).
injection Hret as <-.
apply bind_ok in Hrun as ([] & w3 & Hskip & Hrun).
injection Hskip as <-.
apply bind_ok in Hrun as (f & w3 & Hfile & Hrun).
rewrite is_file_run in Hfile. injection Hfile as <- <-.
apply bind_ok in Hrun as ([] & w3 & Hassert & Hrun).
apply bind_ok in Hrun as ([] & w4 & Hcopy & Hrun).
rewrite set_artifact_run in Hrun. injection Hrun as <-. simpl.
unfold copy in Hcopy.
apply bind_ok in Hcopy as (image & w5 & Hread & Hcopy).
rewrite read_file_run in Hread.
apply bind_ok in Hcopy as (isdir & w6 & Hisdir & Hcopy).
apply write_file_ok in Hcopy.
apply unlink_missing_ok_ok in Hunlink. subst w1.
apply spawn_ok in Hspawn as (built & Hproc & ->).
simpl in Hassert, Hproc.
destruct (built !! abspath (PyPath.join (root r) (mf_dmg_path (release_info r))))
  as [[img|]|] eqn:Himg; try discriminate Hassert.
injection Hassert as <-. simpl in Hread. rewrite Himg in Hread.
injection Hread as <- <-.
rewrite is_dir_run in Hisdir. simpl in Hisdir. injection Hisdir as <- <-.
subst w4. simpl.
exists out, built, img. split; [exact Hproc|]. split; [exact Himg|].
split; [|reflexivity].
by destruct (built !! abspath (PyPath.join (dist_path r)
                                 (project r +:+ "-" +:+ version r +:+ ".dmg")))
  as [[?|]|].
Qed.

Lemma create_dmg_copies_fresh_image_witness :
dry (Example.releaser false) = false
/\ @create_dmg Mac.platform (Example.releaser false) "Release" Example.start
   = (Ok tt, Mac.finish)
/\ procs Mac.finish
   = [["xcodebuild"; "-project"; "/proj/Xcode/SDL_image.xcodeproj";
       "-target"; "Create DMG"; "-configuration"; "Release"]].
Proof.
assert (Hdry : dry (Example.releaser false) = false) by reflexivity.
assert (Hrun : @create_dmg Mac.platform (Example.releaser false) "Release"
                 Example.start = (Ok tt, Mac.finish)) by (vm_compute; reflexivity).
split; [exact Hdry|]. split; [exact Hrun|].
destruct (@create_dmg_copies_fresh_image Mac.platform (Example.releaser false)
            "Release" Example.start Mac.finish Hdry Hrun)
  as (out & built & image & _ & _ & _ & Hprocs).
exact Hprocs.
Defined.


(** ** Releaser.download_dependencies *)

Section DownloadFacts.
Context `{Platform}.

Lemma foldr_insert_dir_lookup (chain : list string) (m : gmap string node)
  (p : string) :
foldr (fun d f => <[d := Dir]> f) m chain !! p = Some Dir
\/ foldr (fun d f => <[d := Dir]> f) m chain !! p = m !! p.
Proof.
induction chain as [|d chain IH]; simpl; [by right|].
destruct (decide (d = p)) as [->|Hne].
- left. apply lookup_insert_eq.
- rewrite lookup_insert_ne by done. exact IH.
Qed.

Lemma rmtree_run (p : string) (w : world) :
rmtree p w
= (Ok tt, with_fs (filter (fun kv => under (abspath p) (fst kv) = false) (fs w)) w).
Proof. reflexivity. Qed.

Lemma rmtree_lookup (d p : string) (m : gmap string node) :
under d p = true ->
filter (fun kv => under d (fst kv) = false) m !! p = None.
Proof.
intros Hunder. apply map_lookup_filter_None. right.
intros n _. simpl. by rewrite Hunder.
Qed.

End DownloadFacts.




(** ** main *)

Section MainFacts.
Context `{Platform}.

(** [extract_sdl_version] only reads. *)
Lemma extract_sdl_version_world (root_dir : string) (info : Manifest) (w : world) :
snd (extract_sdl_version root_dir info w) = w.
Proof.
unfold extract_sdl_version. rewrite bind_run, read_file_run.
destruct (fs w !! abspath _) as [[text|]|]; try reflexivity.
unfold lift. rewrite bind_run.
destruct (first_group1 (mf_re_major info) text); [|reflexivity].
rewrite bind_run.
destruct (first_group1 (mf_re_minor info) text); [|reflexivity].
rewrite bind_run.
by destruct (first_group1 (mf_re_micro info) text).
Qed.

End MainFacts.





(** ** chdir *)





(** ** class GitHubSectionPrinter *)

(** X11: A group opened inside a group of the GitHub printer fails: the second
    header is printed, then [AssertionError] is raised before the inner
    body runs; no [::endgroup::] is printed and the printer stays inside a
    group. *)
Theorem GitHubSectionPrinter_group_nested (outer inner : string) (body : PM unit)
  (s : printer) :
in_group s = false ->
GitHubSectionPrinter_group outer (GitHubSectionPrinter_group inner body) s
= (Raise AssertionError,
   mkPrinter true (printed s ++ ["::group::" +:+ outer; "::group::" +:+ inner])).
Proof.
intros Hout. unfold GitHubSectionPrinter_group, pm_then, print, set_in_group.
simpl. rewrite Hout. simpl. by rewrite <- app_assoc.
Qed.

Lemma GitHubSectionPrinter_group_nested_witness :
in_group (mkPrinter false []) = false
/\ GitHubSectionPrinter_group "Build"
     (GitHubSectionPrinter_group "Install" (print "done")) (mkPrinter false [])
   = (Raise AssertionError, mkPrinter true ["::group::Build"; "::group::Install"]).
Proof.
split; [reflexivity|].
exact (GitHubSectionPrinter_group_nested "Build" "Install" (print "done")
         (mkPrinter false []) eq_refl).
Defined.

(** X12: The GitHub printer has no clean-up for a body that raises: the
    exception passes through, [::endgroup::] is not printed, and, the body
    not having touched the flag, the printer stays inside the group, so
    that the next group on it fails with [AssertionError] without running
    its body; a body that returns closes the group. *)
Theorem GitHubSectionPrinter_group_exit (title : string) (body : PM unit)
  (s s1 : printer) (x : result unit) :
in_group s = false ->
body (mkPrinter true (printed s ++ ["::group::" +:+ title])) = (x, s1) ->
in_group s1 = true ->
match x with
| Ok _ =>
    GitHubSectionPrinter_group title body s
    = (Ok tt, mkPrinter false (printed s1 ++ ["::endgroup::"]))
| Raise e =>
    GitHubSectionPrinter_group title body s = (Raise e, s1)
    /\ forall next later,
         GitHubSectionPrinter_group next later s1
         = (Raise AssertionError,
            mkPrinter true (printed s1 ++ ["::group::" +:+ next]))
end.
Proof.
intros Hout Hbody Hin.
unfold GitHubSectionPrinter_group, pm_then, print, set_in_group.
simpl. rewrite Hout. simpl. rewrite Hbody.
destruct x as [[]|e]; [reflexivity|].
split; [reflexivity|]. intros next later. by rewrite Hin.
Qed.

Lemma GitHubSectionPrinter_group_exit_witness :
let body : PM unit := fun s => (Raise RuntimeError, s) in
GitHubSectionPrinter_group "Build" body (mkPrinter false [])
= (Raise RuntimeError, mkPrinter true ["::group::Build"])
/\ fst (GitHubSectionPrinter_group "Summary" (print "done")
          (mkPrinter true ["::group::Build"]))
   = Raise AssertionError.
Proof.
cbv zeta.
destruct (GitHubSectionPrinter_group_exit "Build"
            (fun s => (Raise RuntimeError, s)) (mkPrinter false [])
            (mkPrinter true ["::group::Build"]) (Raise RuntimeError)
            eq_refl eq_refl eq_refl) as [Hrun Hnext].
split; [exact Hrun|]. by rewrite Hnext.
Defined.

(** ** Releaser.verify_dependencies: what it raises *)

Section VerifyFacts.
Context `{Platform}.

Lemma verify_dependency_raises (r : Releaser) (dep : string) (w : world) (e : exn) :
fst (verify_dependency r dep w) = Raise e ->
e = AssertionError \/ (e = KeyError /\ declared r dep = false).
Proof.
unfold declared, dependency_patterns.
cbv [verify_dependency mbind M_bind bind dict_lookup glob_deps gets assert
     ret raise].
destruct (dict_get dep (mf_mingw_dependencies (release_info r))) as [p1|];
  destruct (dict_get dep (mf_dmg_dependencies (release_info r))) as [p2|];
  destruct (dict_get dep (mf_msvc_dependencies (release_info r))) as [d|];
  simpl;
  repeat match goal with
         | |- context [(length ?l =? 1)%nat] => destruct (length l =? 1)%nat
         end;
  simpl; intros E; first [discriminate E | injection E as <-];
  first [by left | by right].
Qed.

End VerifyFacts.

(** X13: [verify_dependencies] fails in two ways only: with [AssertionError],
    or with [KeyError], and the latter only when the manifest names a
    dependency for which one of the three platform families has no
    entry. *)
Theorem verify_dependencies_raises `{Platform} (r : Releaser) (w : world) (e : exn) :
fst (verify_dependencies r w) = Raise e ->
e = AssertionError
\/ (e = KeyError
    /\ exists dep, dep ∈ mf_dependencies (release_info r)
                   /\ declared r dep = false).
Proof.
unfold verify_dependencies.
induction (mf_dependencies (release_info r)) as [|dep deps IH]; [discriminate|].
destruct (verify_dependency_run r dep w) as (x & Hrun & _).
pose proof (verify_dependency_raises r dep w) as Hraise.
rewrite for_each_cons, bind_run, Hrun. rewrite Hrun in Hraise.
destruct x as [[]|e'].
- intros E. destruct (IH E) as [->|(-> & dep' & Hin & Hdecl)]; [by left|].
  right. split; [reflexivity|]. exists dep'. split; [by right | exact Hdecl].
- simpl. intros E. injection E as <-.
  destruct (Hraise e' eq_refl) as [->|(-> & Hdecl)]; [by left|].
  right. split; [reflexivity|]. exists dep. split; [by left | exact Hdecl].
Qed.

Lemma verify_dependencies_raises_witness :
let r := Sample.releaser (Sample.manifest [] ["SDL2"] "x.xcodeproj" None) in
fst (verify_dependencies r Example.start) = Raise KeyError
/\ exists dep, dep ∈ mf_dependencies (release_info r) /\ declared r dep = false.
Proof.
cbv zeta.
assert (Hrun :
  fst (verify_dependencies
         (Sample.releaser (Sample.manifest [] ["SDL2"] "x.xcodeproj" None))
         Example.start)
  = Raise KeyError) by reflexivity.
split; [exact Hrun|].
destruct (verify_dependencies_raises _ _ _ Hrun) as [E|(_ & Hdep)];
  [discriminate E | exact Hdep].
Defined.

(** ** Releaser.create_source_archives: a commit with nothing to pack *)

Section NothingToPack.
Context `{Platform}.

Lemma git_contents_loop_skips (file_times : gmap string datetime)
  (contents todo : list TarInfo) (acc : list (string * TreeItem)) :
Forall (fun ti => ti_isfile ti && _path_filter (ti_name ti) = false) todo ->
git_contents_loop file_times contents todo acc = Ok acc.
Proof.
induction 1 as [|ti todo Hti _ IH]; [reflexivity|].
simpl. apply andb_false_iff in Hti as [-> | ->]; simpl; [exact IH|].
by destruct (ti_isfile ti).
Qed.

End NothingToPack.

(** X14: When no regular file of the commit passes [_path_filter],
    [create_source_archives] fails with [ValueError], the maximum of an
    empty sequence of times, once git has been asked for the archive and
    for the log: no archive is written and no artifact is registered. *)
Theorem create_source_archives_nothing_to_pack `{Platform} (r : Releaser)
  (w w0 w1 : world) (out : option string) (contents : list TarInfo)
  (file_times : gmap string datetime) :
Executer_check_output (executer r)
  ["git"; "archive"; "--format=tar.gz"; commit r; "-o"; "/dev/stdout"]
  None None w = (Ok out, w0) ->
tarfile_open (io_BytesIO out) = Ok contents ->
Forall (fun ti => ti_isfile ti && _path_filter (ti_name ti) = false) contents ->
Forall (fun file => file ∈ filenames contents) (mf_source_checks (release_info r)) ->
_get_file_times r (filenames contents) w0 = (Ok file_times, w1) ->
create_source_archives r w = (Raise ValueError, w1).
Proof.
intros Hout Hopen Hnone Hchecks Htimes.
assert (Hgit : _get_git_contents r w = (Ok [], w1)).
{ unfold _get_git_contents. rewrite (bind_step _ _ _ _ _ Hout).
  unfold lift. rewrite bind_run, Hopen.
  rewrite bind_run, for_each_assert. fold (filenames contents).
  assert (forallb (fun x => bool_decide (x ∈ filenames contents))
            (mf_source_checks (release_info r)) = true) as ->.
  { apply forallb_forall. intros x Hx. apply bool_decide_eq_true.
    rewrite List.Forall_forall in Hchecks. by apply Hchecks. }
  rewrite (bind_step _ _ _ _ _ Htimes).
  by rewrite (git_contents_loop_skips _ _ _ _ Hnone). }
unfold create_source_archives. rewrite (bind_step _ _ _ _ _ Hgit).
reflexivity.
Qed.

Lemma create_source_archives_nothing_to_pack_witness :
let r := Sample.releaser (Sample.manifest [".gitignore"] [] "x.xcodeproj" None) in
exists w1,
  @create_source_archives Bare.platform r Example.start = (Raise ValueError, w1)
  /\ fs w1 = fs Example.start /\ artifacts w1 = [].
Proof.
cbv zeta.
eexists. split.
- eapply (@create_source_archives_nothing_to_pack Bare.platform _ Example.start
            _ _ (Some "TGZ") Bare.members).
  + vm_compute. reflexivity.
  + reflexivity.
  + repeat constructor.
  + repeat constructor.
  + vm_compute. reflexivity.
- split; reflexivity.
Defined.

(** ** Releaser.create_source_archives: run dry, and what a completed run
    leaves *)

(** X15: Run dry, the source archives cannot be made: [git archive] is not run,
    its stand-in output is [None], and opening the empty stream as a tar
    file raises [ReadError] before anything is written or registered. *)
Theorem create_source_archives_dry_run_fails `{Platform} (r : Releaser) (w : world) :
dry r = true ->
_get_git_contents r w = (Raise ReadError, w)
/\ create_source_archives r w = (Raise ReadError, w).
Proof.
intros Hdry. split.
- by apply _get_git_contents_dry.
- by apply create_source_archives_dry.
Qed.

Lemma create_source_archives_dry_run_fails_witness :
dry (Example.releaser true) = true
/\ create_source_archives (Example.releaser true) Example.start
   = (Raise ReadError, Example.start).
Proof.
split; [reflexivity|].
exact (proj2 (create_source_archives_dry_run_fails (Example.releaser true)
                Example.start eq_refl)).
Defined.

(** X16: A completed [create_source_archives] was not run dry; it has started
    two processes, [git archive] and then [git log], both for the commit
    of the release, and has registered the three archives, under
    [src-zip], [src-tar-gz] and [src-tar-xz]. *)
Theorem create_source_archives_effects `{Platform} (r : Releaser) (w w' : world) :
create_source_archives r w = (Ok tt, w') ->
dry r = false
/\ procs w'
   = (procs w
      ++ [["git"; "archive"; "--format=tar.gz"; commit r; "-o"; "/dev/stdout"];
          ["git"; "log"; "--name-status"; "--pretty=time=%cI"; commit r]])%list
/\ artifacts w'
   = dict_set "src-tar-xz" (source_archive_path r ".tar.xz")
       (dict_set "src-tar-gz" (source_archive_path r ".tar.gz")
          (dict_set "src-zip" (source_archive_path r ".zip") (artifacts w))).
Proof.
intros Hrun.
destruct (create_source_archives_ok r w w' Hrun)
  as (git_contents & w1 & t & Hgc & _ & _ & _ & Hprocs & Hart).
destruct (_get_git_contents_ok r w w1 git_contents Hgc)
  as (Hdry & out & w0 & contents & file_times & Hout & _ & _ & Htimes & _).
split; [exact Hdry|].
unfold dry in Hdry. unfold Executer_check_output in Hout. rewrite Hdry in Hout.
apply bind_ok in Hout as (o & w0' & Hspawn & Hret).
injection Hret as <- <-.
apply spawn_ok in Hspawn as (built & _ & ->).
unfold _get_file_times, Executer_check_output in Htimes. rewrite Hdry in Htimes.
apply bind_ok in Htimes as (o2 & w2 & Hlog & Hrest).
apply bind_ok in Hlog as (o3 & w3 & Hspawn & Hret).
injection Hret as <- <-.
apply spawn_ok in Hspawn as (built2 & _ & ->).
unfold lift in Hrest.
destruct (file_times_of_log _ _); [|discriminate Hrest].
injection Hrest as _ <-.
rewrite Hprocs, Hart. simpl. by rewrite <- app_assoc.
Qed.

Lemma create_source_archives_effects_witness :
create_source_archives (Example.releaser false) Example.start
= (Ok tt, Example.finish)
/\ procs Example.finish
   = [["git"; "archive"; "--format=tar.gz"; "0123abcd"; "-o"; "/dev/stdout"];
      ["git"; "log"; "--name-status"; "--pretty=time=%cI"; "0123abcd"]]
/\ dict_keys (artifacts Example.finish) = ["src-zip"; "src-tar-gz"; "src-tar-xz"].
Proof.
assert (Hrun : create_source_archives (Example.releaser false) Example.start
               = (Ok tt, Example.finish)) by (vm_compute; reflexivity).
split; [exact Hrun|].
destruct (create_source_archives_effects _ _ _ Hrun) as (_ & Hprocs & Hart).
split; [exact Hprocs|]. rewrite Hart. reflexivity.
Defined.

(** ** Releaser.build_vs: what a completed run leaves *)

Section BuildFacts.
Context `{Platform}.

(** The archive of a [with zipfile.ZipFile] block whose last step is a
    [writestr] ends with that entry. *)
Lemma zip_add_all_last (p : string) (steps : list (M ZipEntry)) (e : ZipEntry)
  (acc : list ZipEntry) (w w' : world) :
zip_add_all p acc (steps ++ [ret e]) w = (Ok tt, w') ->
exists entries, fs w' !! abspath p = Some (File (zip_bytes (entries ++ [e]))).
Proof.
revert acc w. induction steps as [|s steps IH]; intros acc w; simpl.
- intros Hw. apply write_file_ok in Hw. subst w'. simpl.
  exists acc. apply lookup_insert_eq.
- destruct (s w) as [[e'|x] w1].
  + apply IH.
  + rewrite bind_run. destruct (write_file p (zip_bytes acc) w1) as [[[]|?] ?];
      discriminate.
Qed.

Lemma for_each_is_file_ok (l : list string) (w w' : world) :
for_each l (fun p => f ← is_file p; assert f) w = (Ok tt, w') ->
Forall (fun p => exists d, fs w !! abspath p = Some (File d)) l.
Proof.
induction l as [|p l IH]; [constructor|].
rewrite for_each_cons, bind_run, bind_run, is_file_run.
destruct (fs w !! abspath p) as [[d|]|] eqn:Hp; simpl; try discriminate.
intros Hrest. apply List.Forall_cons; [by exists d | by apply IH].
Qed.

End BuildFacts.

(** X17: A completed [build_vs] went through msbuild: the manifest has an
    [msbuild] section with at least one project and no [cmake] section;
    every path the build was to produce is a regular file at the end; and
    the archive it registered ends with the [.git-hash] entry, the commit
    hash and a newline. *)
Theorem build_vs_completed `{Platform} (r : Releaser)
  (arch_platform : VsArchPlatformConfig) (vs : VisualStudio) (w w' : world) :
build_vs r arch_platform vs w = (Ok tt, w') ->
mf_msvc_has_cmake (release_info r) = false
/\ exists mb,
     mf_msvc_msbuild (release_info r) = Some mb
     /\ mb_projects mb <> []
     /\ Forall (fun b => exists d, fs w' !! abspath b = Some (File d))
          (flat_map (fun msbuild_files =>
                       map (configure arch_platform) (fe_paths msbuild_files))
             (mb_files mb))
     /\ exists entries,
          fs w' !! abspath (PyPath.join (dist_path r)
                              (project r +:+ "-" +:+ version r +:+ "-win32-"
                               +:+ arch arch_platform +:+ ".zip"))
          = Some (File (zip_bytes
                          (entries
                           ++ [mkZipEntry GIT_HASH_FILENAME
                                 (Some ((2024, 4, 1, 0, 0, 0), Z.shiftl 33188 16))
                                 (PyStr.encode (commit r +:+ PyStr.nl))]))).
Proof.
unfold build_vs. intros Hrun.
apply bind_ok in Hrun as (? & ? & _ & Hrun).
apply bind_ok in Hrun as (? & ? & _ & Hrun).
destruct (mf_msvc_msbuild (release_info r)) as [mb|]; [|discriminate].
apply bind_ok in Hrun as ([] & w0 & Hcmake & Hrun).
apply bind_ok in Hrun as (? & ? & _ & Hrun).
apply bind_ok in Hrun as ([] & w1 & Hbuild & Hrun).
do 3 (apply bind_ok in Hrun as (? & ? & _ & Hrun)).
apply bind_ok in Hrun as ([] & w2 & Hzip & Hrun).
apply bind_ok in Hrun as ([] & w3 & Hart & Hrun).
rewrite set_artifact_run in Hart. injection Hart as <-.
pose proof (for_each_is_file_world _ _ _ _ Hrun) as ->.
apply for_each_is_file_ok in Hrun.
split.
{ unfold assert in Hcmake. by destruct (mf_msvc_has_cmake (release_info r)). }
exists mb. split; [reflexivity|]. split.
{ unfold VisualStudio_build in Hbuild.
  apply bind_ok in Hbuild as ([] & ? & Hassert & _).
  intros Hnil. rewrite Hnil in Hassert. discriminate Hassert. }
split; [exact Hrun|].
unfold zipfile_write in Hzip.
apply bind_ok in Hzip as ([] & w4 & _ & Hzip).
rewrite app_assoc in Hzip.
apply zip_add_all_last in Hzip as [entries Hentries].
exists entries. exact Hentries.
Qed.

Lemma build_vs_completed_witness :
exists w',
  build_vs (Example.releaser true) Example.x86 (Example.studio true) Example.start
  = (Ok tt, w')
  /\ exists d, fs w' !! abspath "VisualC/Win32/SDL2_image.dll" = Some (File d).
Proof.
exists (snd (build_vs (Example.releaser true) Example.x86 (Example.studio true)
               Example.start)).
assert (Hrun : build_vs (Example.releaser true) Example.x86 (Example.studio true)
                 Example.start
               = (Ok tt, snd (build_vs (Example.releaser true) Example.x86
                                (Example.studio true) Example.start)))
  by (vm_compute; reflexivity).
split; [exact Hrun|].
destruct (build_vs_completed _ _ _ _ _ Hrun) as (_ & mb & Hmb & _ & Hbuilt & _).
injection Hmb as <-.
apply List.Forall_inv in Hbuilt. exact Hbuilt.
Defined.

(** ** Releaser.build_vs_devel *)

Section DevelFacts.
Context `{Platform}.

(** A loop that only appends to the first component of its state keeps
    what was there. *)
Lemma fold_left_prefix {A B C : Type} (f : list A * C -> B -> list A * C)
  (xs : list B) (acc : list A * C) :
(forall acc x, exists l, fst (f acc x) = (fst acc ++ l)%list) ->
exists l, fst (fold_left f xs acc) = (fst acc ++ l)%list.
Proof.
intros Hf. revert acc. induction xs as [|x xs IH]; intros acc; simpl.
- exists []. by rewrite app_nil_r.
- destruct (IH (f acc x)) as [l Hl]. destruct (Hf acc x) as [l0 Hl0].
  exists (l0 ++ l)%list. by rewrite Hl, Hl0, app_assoc.
Qed.

Lemma devel_path_steps_prefix (r : Releaser) (arch_platforms : list VsArchPlatformConfig)
  (literal : option string -> string -> option string) (devel : string)
  (acc : list (M ZipEntry) * option string) (path : string) :
exists l,
  fst (devel_path_steps r arch_platforms literal devel acc path) = (fst acc ++ l)%list.
Proof.
unfold devel_path_steps. destruct acc as [steps p].
destruct (has_at path || has_at devel).
- apply (fold_left_prefix _ arch_platforms (steps, p)).
  intros acc x. by eexists.
- destruct (literal p path); by eexists.
Qed.

Lemma devel_paths_prefix (r : Releaser) (arch_platforms : list VsArchPlatformConfig)
  (literal : option string -> string -> option string) (devel : string)
  (paths : list string) (acc : list (M ZipEntry) * option string) :
exists l,
  fst (fold_left (devel_path_steps r arch_platforms literal devel) paths acc)
  = (fst acc ++ l)%list.
Proof.
apply fold_left_prefix. intros acc' x. apply devel_path_steps_prefix.
Qed.

Lemma devel_steps_prefix (r : Releaser) (arch_platforms : list VsArchPlatformConfig)
  (literal : option string -> string -> option string)
  (files : list FilesEntry) (acc : list (M ZipEntry) * option string) :
exists l,
  fst (devel_steps r arch_platforms literal files acc) = (fst acc ++ l)%list.
Proof.
unfold devel_steps. apply fold_left_prefix. intros acc' entry.
destruct (fe_devel entry) as [devel|].
- apply devel_paths_prefix.
- exists []. by rewrite app_nil_r.
Qed.

Lemma devel_steps_cons (r : Releaser) (arch_platforms : list VsArchPlatformConfig)
  (literal : option string -> string -> option string)
  (entry : FilesEntry) (files : list FilesEntry)
  (acc : list (M ZipEntry) * option string) :
devel_steps r arch_platforms literal (entry :: files) acc
= devel_steps r arch_platforms literal files
    match fe_devel entry with
    | Some devel =>
        fold_left (devel_path_steps r arch_platforms literal devel)
          (fe_paths entry) acc
    | None => acc
    end.
Proof. reflexivity. Qed.

Lemma devel_steps_skip (r : Releaser) (arch_platforms : list VsArchPlatformConfig)
  (literal : option string -> string -> option string)
  (pre files : list FilesEntry) (acc : list (M ZipEntry) * option string) :
Forall (fun entry => fe_devel entry = None) pre ->
devel_steps r arch_platforms literal (pre ++ files) acc
= devel_steps r arch_platforms literal files acc.
Proof.
unfold devel_steps. induction 1 as [|entry pre Hentry _ IH]; [reflexivity|].
simpl. by rewrite Hentry.
Qed.

End DevelFacts.

(** X18: [build_vs_devel] reads the variable [p] where it means [path]: when
    the first path of the msbuild files that goes into the development
    archive has no placeholder, nor has its directory, [p] is not bound
    yet and the run stops with [NameError] (its subclass
    [UnboundLocalError]); the archive is left empty, without the
    [.git-hash] entry, and is not registered. *)
Theorem build_vs_devel_unbound_path `{Platform} (r : Releaser)
  (arch_platforms : list VsArchPlatformConfig) (mb : Msbuild)
  (pre rest : list FilesEntry) (entry : FilesEntry) (devel path : string)
  (paths : list string) (w w0 : world) :
let zip_path :=
  PyPath.join (dist_path r) (project r +:+ "-devel-" +:+ version r +:+ "-VC.zip") in
mf_msvc_msbuild (release_info r) = Some mb ->
mb_files mb = (pre ++ entry :: rest)%list ->
Forall (fun entry => fe_devel entry = None) pre ->
fe_devel entry = Some devel ->
fe_paths entry = path :: paths ->
has_at path = false ->
has_at devel = false ->
write_file zip_path EmptyString w = (Ok tt, w0) ->
build_vs_devel r arch_platforms w
= (Raise NameError,
   with_fs (<[abspath zip_path := File (zip_bytes [])]> (fs w)) w).
Proof.
intros zip_path Hmb Hfiles Hpre Hdevel Hpaths Hpath Hdir Hopen.
unfold build_vs_devel. rewrite Hmb. fold zip_path.
destruct (devel_steps_prefix r arch_platforms literal_path
            (mf_msvc_files (release_info r))
            (devel_steps r arch_platforms literal_p (mb_files mb) ([], None)))
  as [l2 Hl2].
rewrite Hl2.
assert (exists l1, fst (devel_steps r arch_platforms literal_p (mb_files mb) ([], None))
                   = (raise NameError :: l1)) as [l1 Hl1].
{ rewrite Hfiles, devel_steps_skip by exact Hpre.
  rewrite devel_steps_cons, Hdevel, Hpaths. cbn [fold_left].
  assert (devel_path_steps r arch_platforms literal_p devel ([], None) path
          = ([raise NameError], None)) as ->.
  { unfold devel_path_steps. by rewrite Hpath, Hdir. }
  destruct (devel_paths_prefix r arch_platforms literal_p devel paths
              ([raise NameError], None)) as [la Hla].
  destruct (devel_steps_prefix r arch_platforms literal_p rest
              (fold_left (devel_path_steps r arch_platforms literal_p devel) paths
                 ([raise NameError], None))) as [lb Hlb].
  exists (la ++ lb)%list. rewrite Hlb, Hla. by rewrite <- app_assoc. }
rewrite Hl1. apply bind_raise.
unfold zipfile_write. rewrite (bind_step _ _ _ _ _ Hopen). simpl.
apply write_file_ok in Hopen. subst w0.
rewrite bind_run, write_file_run. simpl. rewrite lookup_insert_eq.
unfold raise. simpl. by rewrite insert_insert_eq.
Qed.

Lemma build_vs_devel_unbound_path_witness :
let entry := mkFilesEntry None (Some "lib") ["VisualC/x.lib"] in
let r := Sample.releaser
           (Sample.manifest [] [] "x.xcodeproj" (Some (mkMsbuild [entry] ["x.sln"]))) in
build_vs_devel r [Example.x86] Example.start
= (Raise NameError,
   with_fs (<["/proj/dist/x-devel-1.0.0-VC.zip" := File (zip_bytes [])]> Example.files)
     Example.start).
Proof.
cbv zeta.
exact (build_vs_devel_unbound_path
         (Sample.releaser
            (Sample.manifest [] [] "x.xcodeproj"
               (Some (mkMsbuild [mkFilesEntry None (Some "lib") ["VisualC/x.lib"]]
                        ["x.sln"]))))
         [Example.x86]
         (mkMsbuild [mkFilesEntry None (Some "lib") ["VisualC/x.lib"]] ["x.sln"])
         [] [] (mkFilesEntry None (Some "lib") ["VisualC/x.lib"]) "lib"
         "VisualC/x.lib" [] Example.start
         (with_fs (<["/proj/dist/x-devel-1.0.0-VC.zip" := File EmptyString]>
                     Example.files) Example.start)
         eq_refl eq_refl (List.Forall_nil _) eq_refl eq_refl eq_refl eq_refl eq_refl).
Defined.

(** X19: Without an [msbuild] section in the manifest, [build_vs_devel] fails
    with [KeyError] inside the [with] block: the archive has been opened
    and is closed empty, and is not registered. *)
Theorem build_vs_devel_without_msbuild `{Platform} (r : Releaser)
  (arch_platforms : list VsArchPlatformConfig) (w w0 : world) :
let zip_path :=
  PyPath.join (dist_path r) (project r +:+ "-devel-" +:+ version r +:+ "-VC.zip") in
mf_msvc_msbuild (release_info r) = None ->
write_file zip_path EmptyString w = (Ok tt, w0) ->
build_vs_devel r arch_platforms w
= (Raise KeyError,
   with_fs (<[abspath zip_path := File (zip_bytes [])]> (fs w)) w).
Proof.
intros zip_path Hmb Hopen.
unfold build_vs_devel. rewrite Hmb. fold zip_path.
unfold zipfile_write. rewrite (bind_step _ _ _ _ _ Hopen). simpl.
apply write_file_ok in Hopen. subst w0.
rewrite bind_run, write_file_run. simpl. rewrite lookup_insert_eq.
unfold raise. simpl. by rewrite insert_insert_eq.
Qed.

Lemma build_vs_devel_without_msbuild_witness :
let r := Sample.releaser (Sample.manifest [] [] "x.xcodeproj" None) in
build_vs_devel r [Example.x86] Example.start
= (Raise KeyError,
   with_fs (<["/proj/dist/x-devel-1.0.0-VC.zip" := File (zip_bytes [])]> Example.files)
     Example.start).
Proof.
cbv zeta.
exact (build_vs_devel_without_msbuild
         (Sample.releaser (Sample.manifest [] [] "x.xcodeproj" None))
         [Example.x86] Example.start
         (with_fs (<["/proj/dist/x-devel-1.0.0-VC.zip" := File EmptyString]>
                     Example.files) Example.start)
         eq_refl eq_refl).
Defined.

(** X20: A completed [build_vs_devel] has registered the archive under
    [VC-devel], and the archive ends with the [.git-hash] entry, placed
    under the top-level directory of the archive. *)
Theorem build_vs_devel_completed `{Platform} (r : Releaser)
  (arch_platforms : list VsArchPlatformConfig) (w w' : world) :
let zip_path :=
  PyPath.join (dist_path r) (project r +:+ "-devel-" +:+ version r +:+ "-VC.zip") in
build_vs_devel r arch_platforms w = (Ok tt, w') ->
dict_get "VC-devel" (artifacts w') = Some zip_path
/\ exists entries,
     fs w' !! abspath zip_path
     = Some (File (zip_bytes
                     (entries
                      ++ [mkZipEntry
                            (if String.eqb (archive_base r) EmptyString
                             then GIT_HASH_FILENAME
                             else archive_base r +:+ "/" +:+ GIT_HASH_FILENAME)
                            (Some ((2024, 4, 1, 0, 0, 0), Z.shiftl 33188 16))
                            (PyStr.encode (commit r +:+ PyStr.nl))]))).
Proof.
intros zip_path. unfold build_vs_devel. fold zip_path.
destruct (mf_msvc_msbuild (release_info r)) as [mb|].
- intros Hrun. apply bind_ok in Hrun as ([] & w1 & Hzip & Hart).
  rewrite set_artifact_run in Hart. injection Hart as <-. simpl.
  split; [apply dict_get_set_eq|].
  unfold zipfile_write in Hzip.
  apply bind_ok in Hzip as ([] & w2 & _ & Hzip).
  apply zip_add_all_last in Hzip as [entries Hentries].
  exists entries. exact Hentries.
- intros Hrun. unfold zipfile_write in Hrun.
  apply bind_ok in Hrun as ([] & w2 & _ & Hrun). simpl in Hrun.
  rewrite bind_run in Hrun.
  destruct (write_file zip_path (zip_bytes []) w2) as [[[]|?] ?]; discriminate Hrun.
Qed.

Lemma build_vs_devel_completed_witness :
let entry := mkFilesEntry None (Some "lib/@ARCH@") ["include/SDL_image.h"] in
let r := Sample.releaser
           (Sample.manifest [] [] "x.xcodeproj" (Some (mkMsbuild [entry] ["x.sln"]))) in
exists w',
  build_vs_devel r [Example.x86] Example.start = (Ok tt, w')
  /\ dict_get "VC-devel" (artifacts w') = Some "/proj/dist/x-devel-1.0.0-VC.zip".
Proof.
cbv zeta. eexists. split.
- vm_compute. reflexivity.
- apply (build_vs_devel_completed
           (Sample.releaser
              (Sample.manifest [] [] "x.xcodeproj"
                 (Some (mkMsbuild
                          [mkFilesEntry None (Some "lib/@ARCH@") ["include/SDL_image.h"]]
                          ["x.sln"]))))
           [Example.x86] Example.start).
  vm_compute. reflexivity.
Defined.

(** ** Releaser.build_vs: unpacking the dependencies *)

(** X21: What one copy instruction does to an archive member it matches, when
    it goes through: the file at the destination holds the bytes read from
    the archive; and unless [--overwrite] was given there was nothing at
    the destination before. *)
Theorem extract_to_writes_member `{Platform} (r : Releaser)
  (arch_platform : VsArchPlatformConfig) (zdata member : string)
  (instr : CopyInstr) (w w' : world) :
let dst := destination r arch_platform instr member (fs w) in
fnmatch (member_path member) (configure arch_platform (ci_src instr)) = true ->
extract_to r arch_platform zdata member instr w = (Ok tt, w') ->
(exists data, zip_read zdata member = Ok data
              /\ fs w' !! abspath dst = Some (File data))
/\ (overwrite r = false -> fs w !! abspath dst = None)
/\ procs w' = procs w
/\ artifacts w' = artifacts w.
Proof.
intros dst Hmatch Hrun. unfold extract_to in Hrun. rewrite Hmatch in Hrun.
unfold when at 1 in Hrun.
apply bind_ok in Hrun as (dst' & w1 & Hdst & Hrun).
unfold gets in Hdst. injection Hdst as <- <-. fold dst in Hrun.
apply bind_ok in Hrun as (e & w1 & Hexists & Hrun).
unfold path_exists in Hexists. rewrite bind_run, node_at_run in Hexists.
injection Hexists as <- <-.
apply bind_ok in Hrun as ([] & w1 & Hguard & Hrun).
unfold write_member in Hrun.
apply bind_ok in Hrun as (data & w2 & Hread & Hrun).
unfold lift in Hread.
apply bind_ok in Hrun as ([] & w3 & Hmkdir & Hwrite).
apply write_file_ok in Hwrite. subst w'. simpl.
assert (Hw1 : w1 = w).
{ destruct (fs w !! abspath dst); destruct (overwrite r); simpl in Hguard;
    by injection Hguard. }
subst w1.
assert (Hw3 : procs w3 = procs w /\ artifacts w3 = artifacts w).
{ unfold mkdir_parents in Hmkdir. rewrite bind_run in Hmkdir. unfold gets in Hmkdir.
  destruct (existsb _ _); [discriminate Hmkdir|].
  injection Hread as _ <-. by injection Hmkdir as <-. }
destruct Hw3 as [Hprocs Harts].
split.
{ exists data. split; [by injection Hread | apply lookup_insert_eq]. }
split; [|by split].
intros Hover. rewrite Hover in Hguard.
destruct (fs w !! abspath dst); [discriminate Hguard | reflexivity].
Qed.

Lemma extract_to_writes_member_witness :
exists w',
  extract_to (Example.releaser false) Example.x86 "zip" "SDL2-2.30.0/lib/x86/SDL2.dll"
    (mkCopyInstr "lib/@ARCH@/*" "VisualC/external/@ARCH@") Example.start
  = (Ok tt, w')
  /\ fs w' !! "/proj/VisualC/external/x86/SDL2.dll"
     = Some (File "SDL2-2.30.0/lib/x86/SDL2.dll").
Proof.
eexists. split; [vm_compute; reflexivity|].
destruct (extract_to_writes_member (Example.releaser false) Example.x86 "zip"
            "SDL2-2.30.0/lib/x86/SDL2.dll"
            (mkCopyInstr "lib/@ARCH@/*" "VisualC/external/@ARCH@") Example.start
            (snd (extract_to (Example.releaser false) Example.x86 "zip"
                    "SDL2-2.30.0/lib/x86/SDL2.dll"
                    (mkCopyInstr "lib/@ARCH@/*" "VisualC/external/@ARCH@")
                    Example.start)))
  as ((data & Hdata & Hfile) & _); [reflexivity | vm_compute; reflexivity |].
injection Hdata as <-. exact Hfile.
Defined.



(** ** Releaser._get_file_times, run dry *)

Section DryLog.
Context `{Platform}.

Lemma dry_log_lines :
splitlines dry_git_log
= ["time=2024-03-14T15:40:25-07:00"; EmptyString;
   "M" +:+ String PyStr.tab "CMakeLists.txt"].
Proof. vm_compute. reflexivity. Qed.

Lemma dry_log_loop (set_paths : gset string) (t : datetime) :
fromisoformat "2024-03-14T15:40:25-07:00" = Some t ->
file_times_loop set_paths (splitlines dry_git_log) (None, ∅)
= Ok (Some t,
      if bool_decide ("CMakeLists.txt" ∈ set_paths)
      then {["CMakeLists.txt" := t]} else ∅).
Proof.
intros Hiso. rewrite dry_log_lines.
cbn [file_times_loop].
assert (Hline1 : file_times_line set_paths (None, ∅) "time=2024-03-14T15:40:25-07:00"
                 = Ok (Some t, ∅)).
{ unfold file_times_line.
  change (String.eqb "time=2024-03-14T15:40:25-07:00" EmptyString) with false.
  change (PyStr.startswith "time=" "time=2024-03-14T15:40:25-07:00") with true.
  change (PyStr.removeprefix "time=" "time=2024-03-14T15:40:25-07:00")
    with "2024-03-14T15:40:25-07:00".
  cbv beta iota. by rewrite Hiso. }
rewrite Hline1.
assert (Hline2 : file_times_line set_paths (Some t, ∅) EmptyString
                 = Ok (Some t, ∅)) by reflexivity.
rewrite Hline2.
assert (Hline3 : file_times_line set_paths (Some t, ∅)
                   ("M" +:+ String PyStr.tab "CMakeLists.txt")
                 = Ok (Some t,
                       if bool_decide ("CMakeLists.txt" ∈ set_paths)
                       then {["CMakeLists.txt" := t]} else ∅)).
{ unfold file_times_line.
  change (String.eqb ("M" +:+ String PyStr.tab "CMakeLists.txt") EmptyString)
    with false.
  change (PyStr.startswith "time=" ("M" +:+ String PyStr.tab "CMakeLists.txt"))
    with false.
  change (PyStr.split_maxsplit1 ("M" +:+ String PyStr.tab "CMakeLists.txt"))
    with ["M"; "CMakeLists.txt"].
  cbv beta iota. unfold record_paths.
  change (PyStr.split_sep PyStr.tab "CMakeLists.txt") with ["CMakeLists.txt"].
  cbn [fold_left].
  destruct (bool_decide ("CMakeLists.txt" ∈ set_paths)); [|reflexivity].
  rewrite lookup_empty.
  rewrite bool_decide_eq_false_2 by (intros [? ?]; discriminate).
  reflexivity. }
by rewrite Hline3.
Qed.

End DryLog.

(** X23: Run dry, [_get_file_times] asks git nothing and reads the stand-in
    log, which has one commit touching [CMakeLists.txt]: it gives that
    file the time of that commit, and fails with [AssertionError] as soon
    as it is asked for any other path. *)
Theorem _get_file_times_dry `{Platform} (r : Releaser) (paths : list string)
  (w : world) (t : datetime) :
dry r = true ->
fromisoformat "2024-03-14T15:40:25-07:00" = Some t ->
exists x,
  _get_file_times r paths w = (x, w)
  /\ ((forall p, p ∈ paths -> p = "CMakeLists.txt") ->
      x = Ok (if bool_decide ("CMakeLists.txt" ∈ paths)
              then {["CMakeLists.txt" := t]} else ∅))
  /\ (forall p, p ∈ paths -> p <> "CMakeLists.txt" -> x = Raise AssertionError).
Proof.
intros Hdry Hiso. unfold _get_file_times, dry in *.
rewrite bind_run, (Executer_check_output_dry _ _ _ _ _ Hdry).
unfold lift, file_times_of_log. rewrite (dry_log_loop _ t Hiso).
eexists. split; [reflexivity|].
destruct (bool_decide ("CMakeLists.txt" ∈ (list_to_set paths : gset string)))
  eqn:Hin.
- apply bool_decide_eq_true in Hin. apply elem_of_list_to_set in Hin.
  rewrite (bool_decide_eq_true_2 _ Hin). rewrite dom_singleton_L.
  split.
  + intros Hall. rewrite bool_decide_eq_true_2; [reflexivity|].
    apply set_eq. intros p. rewrite elem_of_singleton, elem_of_list_to_set.
    split; [by intros -> | apply Hall].
  + intros p Hp Hne. rewrite bool_decide_eq_false_2; [reflexivity|].
    intros Heq. apply Hne.
    apply (proj1 (elem_of_singleton (C := gset string) p "CMakeLists.txt")).
    rewrite Heq. by apply elem_of_list_to_set.
- apply bool_decide_eq_false in Hin. rewrite elem_of_list_to_set in Hin.
  rewrite (bool_decide_eq_false_2 _ Hin). rewrite dom_empty_L.
  split.
  + intros Hall. rewrite bool_decide_eq_true_2; [reflexivity|].
    apply set_eq. intros p. rewrite elem_of_list_to_set.
    split; [set_solver|]. intros Hp. exfalso. apply Hin.
    by rewrite <- (Hall p Hp).
  + intros p Hp Hne. rewrite bool_decide_eq_false_2; [reflexivity|].
    intros Heq. assert (p ∈ (∅ : gset string)) as Hp'; [|set_solver].
    rewrite Heq. by apply elem_of_list_to_set.
Qed.

Lemma _get_file_times_dry_witness :
dry (Example.releaser true) = true
/\ fromisoformat "2024-03-14T15:40:25-07:00"
   = Some (mkDatetime 2024 3 14 15 40 25 (-25200))
/\ fst (_get_file_times (Example.releaser true) ["CMakeLists.txt"; "src/IMG.c"]
          Example.start)
   = Raise AssertionError.
Proof.
assert (Hdry : dry (Example.releaser true) = true) by reflexivity.
assert (Hiso : fromisoformat "2024-03-14T15:40:25-07:00"
               = Some (mkDatetime 2024 3 14 15 40 25 (-25200)))
  by (vm_compute; reflexivity).
split; [exact Hdry|]. split; [exact Hiso|].
destruct (_get_file_times_dry (Example.releaser true) ["CMakeLists.txt"; "src/IMG.c"]
            Example.start _ Hdry Hiso) as (x & Hrun & _ & Hraise).
rewrite Hrun. simpl. apply (Hraise "src/IMG.c").
- apply list_elem_of_In. right. left. reflexivity.
- discriminate.
Defined.

(** ** main: the source action *)

Section MainActionFacts.
Context `{Platform}.

Lemma then_never_ok {A} (m : M A) (k : M unit) (w : world) :
(forall w1, fst (k w1) <> Ok tt) ->
fst ((m ;; k) w) <> Ok tt.
Proof.
intros Hk. rewrite bind_run. destruct (m w) as [[a|e] w1]; [apply Hk | discriminate].
Qed.

End MainActionFacts.

(** X24: The ["source"] action cannot succeed when the script runs dry, nor
    when it runs in an extracted archive: whatever the dependency folder
    and the other actions, [main] does not get past it. *)
Theorem main_source_action_fails `{Platform} (actions : list string) (r : Releaser)
  (root_is_maybe_archive : bool) (dependencies : list (string * DepInfo))
  (w : world) :
has_action "source" actions = true ->
dry r = true \/ root_is_maybe_archive = true ->
fst (main_source_stage actions r root_is_maybe_archive dependencies w) <> Ok tt.
Proof.
intros Hsource Hcase. unfold main_source_stage. rewrite Hsource.
do 3 (apply then_never_ok; intros ?).
unfold when. destruct root_is_maybe_archive; [discriminate|].
destruct Hcase as [Hdry|?]; [|discriminate].
by rewrite create_source_archives_dry.
Qed.

Lemma main_source_action_fails_witness :
has_action "source" ["source"] = true
/\ fst (main_source_stage ["source"] (Example.releaser true) false [] Example.start)
   = Raise ReadError.
Proof.
split; [reflexivity|].
pose proof (main_source_action_fails ["source"] (Example.releaser true) false []
              Example.start eq_refl (or_introl eq_refl)) as Hfails.
destruct (fst (main_source_stage ["source"] (Example.releaser true) false []
                 Example.start)) as [[]|e] eqn:Hrun.
- by destruct Hfails.
- vm_compute in Hrun. exact (eq_sym Hrun).
Defined.

(** ** Releaser.prepare *)

Section PrepareFacts.
Context `{Platform}.

Lemma foldr_insert_dir_in (chain : list string) (m : gmap string node) (p : string) :
p ∈ chain -> foldr (fun d f => <[d := Dir]> f) m chain !! p = Some Dir.
Proof.
induction chain as [|d chain IH]; simpl; [by intros ?%elem_of_nil|].
intros [->|Hin]%elem_of_cons; [apply lookup_insert_eq|].
destruct (decide (d = p)) as [->|Hne]; [apply lookup_insert_eq|].
rewrite lookup_insert_ne by done. by apply IH.
Qed.

Lemma foldr_insert_dir_notin (chain : list string) (m : gmap string node)
  (p : string) :
p ∉ chain -> foldr (fun d f => <[d := Dir]> f) m chain !! p = m !! p.
Proof.
induction chain as [|d chain IH]; simpl; [done|].
intros [Hne Hnotin]%not_elem_of_cons.
rewrite lookup_insert_ne by done. by apply IH.
Qed.

End PrepareFacts.

(** X25: When [prepare] returns, the output folder is a directory, and
    everything that was in the file system is still there: no file was
    replaced or removed to make room for it. *)
Theorem prepare_keeps_files `{Platform} (r : Releaser) (w w' : world) :
prepare r w = (Ok tt, w') ->
fs w' !! abspath (dist_path r) = Some Dir
/\ (forall q n, fs w !! q = Some n -> fs w' !! q = Some n)
/\ procs w' = procs w
/\ artifacts w' = artifacts w.
Proof.
unfold prepare, mkdir_parents. set (p := dist_path r).
rewrite bind_run. unfold gets at 1.
destruct (existsb _ _) eqn:Hblocked; [discriminate|].
intros [= <-]. unfold with_fs. cbn [fs procs artifacts].
split; [apply lookup_insert_eq|].
split; [|by split].
intros q n Hq.
change (<[abspath p := Dir]>
          (foldr (fun d f => <[d := Dir]> f) (fs w) (PyPath.ancestors (abspath p))))
  with (foldr (fun d f => <[d := Dir]> f) (fs w)
          (abspath p :: PyPath.ancestors (abspath p))).
destruct (decide (q ∈ abspath p :: PyPath.ancestors (abspath p))) as [Hin|Hnotin].
- rewrite (foldr_insert_dir_in (abspath p :: PyPath.ancestors (abspath p)) _ _ Hin).
  destruct n as [d|]; [|reflexivity].
  exfalso. apply not_true_iff_false in Hblocked. apply Hblocked.
  apply existsb_exists. exists q. split; [by apply list_elem_of_In|].
  by rewrite Hq.
- by rewrite (foldr_insert_dir_notin (abspath p :: PyPath.ancestors (abspath p))
                _ _ Hnotin).
Qed.

Lemma prepare_keeps_files_witness :
let r := mkReleaser Example.info "SDL2_image" "2.8.1" "/proj" "c" "/proj/out/dry"
           (mkExecuter "/proj" true) "/proj/deps" false in
exists w',
  prepare r Example.start = (Ok tt, w')
  /\ fs w' !! "/proj/out/dry" = Some Dir
  /\ fs w' !! "/proj/deps/SDL2-2.30.0.dmg" = Some (File "b").
Proof.
cbv zeta. eexists. split; [vm_compute; reflexivity|].
destruct (prepare_keeps_files
            (mkReleaser Example.info "SDL2_image" "2.8.1" "/proj" "c" "/proj/out/dry"
               (mkExecuter "/proj" true) "/proj/deps" false)
            Example.start
            (snd (prepare
                    (mkReleaser Example.info "SDL2_image" "2.8.1" "/proj" "c"
                       "/proj/out/dry" (mkExecuter "/proj" true) "/proj/deps" false)
                    Example.start)))
  as (Hdir & Hkept & _); [vm_compute; reflexivity|].
split; [exact Hdir|]. apply Hkept. vm_compute. reflexivity.
Defined.

(** ** class VisualStudio, run dry *)

Section VisualStudioDry.
Context `{Platform}.

Lemma find_msbuild_dry (ex : Executer) (w w' : world) (m : option string) :
ex_dry ex = true ->
find_msbuild ex w = (Ok m, w') ->
m = Some "/tmp/MSBuild.exe"
/\ (exists d, fs w' !! abspath "/tmp/MSBuild.exe" = Some (File d))
/\ procs w' = procs w.
Proof.
intros Hdry Hrun.
assert (Hquiet : quiet (find_msbuild ex)).
{ unfold find_msbuild, Executer_check_output, strip_output. rewrite Hdry.
  quiet_run; auto using quiet_mkdir_parents, quiet_touch, quiet_is_file, quiet_is_dir. }
specialize (Hquiet w). rewrite Hrun in Hquiet. simpl in Hquiet.
unfold find_msbuild in Hrun.
rewrite bind_run, (Executer_check_output_dry _ _ _ _ _ Hdry) in Hrun.
cbv beta iota in Hrun. unfold strip_output in Hrun.
change (PyStr.strip "/tmp/MSBuild.exe") with "/tmp/MSBuild.exe" in Hrun.
apply bind_ok in Hrun as (p & w0 & Hp & Hrun).
unfold ret in Hp. injection Hp as <- <-.
apply bind_ok in Hrun as ([] & w1 & _ & Hrun).
apply bind_ok in Hrun as (f & w2 & Hfile & Hrun).
rewrite is_file_run in Hfile. injection Hfile as <- <-.
apply bind_ok in Hrun as ([] & w3 & Hassert & Hrun).
unfold ret in Hrun. injection Hrun as <- <-.
split; [reflexivity|]. split; [|exact Hquiet].
destruct (fs w1 !! abspath "/tmp/MSBuild.exe") as [[d|]|] eqn:Hlook;
  try discriminate Hassert.
injection Hassert as <-. by exists d.
Qed.

Lemma find_vsdevcmd_dry (ex : Executer) (year : option string) (w w' : world)
  (v : option string) :
ex_dry ex = true ->
find_vsdevcmd ex year w = (Ok v, w') ->
(v = None \/ v = Some "/tmp/Common7/Tools/vsdevcmd.bat")
/\ procs w' = procs w.
Proof.
intros Hdry Hrun.
assert (Hquiet : quiet (find_vsdevcmd ex year)).
{ unfold find_vsdevcmd, Executer_check_output, strip_output. rewrite Hdry.
  quiet_run; auto using quiet_mkdir_parents, quiet_touch, quiet_is_file, quiet_is_dir. }
specialize (Hquiet w). rewrite Hrun in Hquiet. simpl in Hquiet.
split; [|exact Hquiet].
unfold find_vsdevcmd in Hrun.
destruct year as [y|]; [destruct (dict_get y VS_YEAR_TO_VERSION) as [n|]|].
- rewrite bind_run, (Executer_check_output_dry _ _ _ _ _ Hdry) in Hrun.
  cbv beta iota in Hrun. unfold strip_output in Hrun.
  change (PyStr.strip "/tmp") with "/tmp" in Hrun.
  apply bind_ok in Hrun as (p & w0 & Hp & Hrun).
  unfold ret in Hp. injection Hp as <- <-.
  do 5 (apply bind_ok in Hrun as (? & ? & _ & Hrun)).
  unfold ret in Hrun. injection Hrun as <- _. by right.
- unfold ret in Hrun. injection Hrun as <- _. by left.
- rewrite bind_run, (Executer_check_output_dry _ _ _ _ _ Hdry) in Hrun.
  cbv beta iota in Hrun. unfold strip_output in Hrun.
  change (PyStr.strip "/tmp") with "/tmp" in Hrun.
  apply bind_ok in Hrun as (p & w0 & Hp & Hrun).
  unfold ret in Hp. injection Hp as <- <-.
  do 5 (apply bind_ok in Hrun as (? & ? & _ & Hrun)).
  unfold ret in Hrun. injection Hrun as <- _. by right.
Qed.

End VisualStudioDry.

(** X26: Run dry, [VisualStudio()] starts no process and finds the stand-in
    tools below [/tmp]: [MSBuild.exe], which it has made a file, and
    [vsdevcmd.bat], unless the year is not in the table. *)
Theorem VisualStudio_init_dry `{Platform} (ex : Executer) (year : option string)
  (w w' : world) (vs : VisualStudio) :
ex_dry ex = true ->
VisualStudio_init ex year w = (Ok vs, w') ->
vs_executer vs = ex
/\ msbuild vs = Some "/tmp/MSBuild.exe"
/\ (vsdevcmd vs = None \/ vsdevcmd vs = Some "/tmp/Common7/Tools/vsdevcmd.bat")
/\ (exists d, fs w' !! abspath "/tmp/MSBuild.exe" = Some (File d))
/\ procs w' = procs w.
Proof.
intros Hdry Hrun. unfold VisualStudio_init in Hrun.
apply bind_ok in Hrun as (v & w1 & Hv & Hrun).
apply bind_ok in Hrun as (m & w2 & Hm & Hrun).
injection Hrun as <- <-. simpl.
destruct (find_vsdevcmd_dry ex year w w1 v Hdry Hv) as [Hcmd Hprocs1].
destruct (find_msbuild_dry ex w1 w2 m Hdry Hm) as (-> & Hfile & Hprocs2).
split; [reflexivity|]. split; [reflexivity|]. split; [exact Hcmd|].
split; [exact Hfile|]. by rewrite Hprocs2.
Qed.

Lemma VisualStudio_init_dry_witness :
exists w',
  VisualStudio_init (mkExecuter "/proj" true) (Some "2022") Example.start
  = (Ok (Example.studio true), w')
  /\ procs w' = [].
Proof.
eexists. split; [vm_compute; reflexivity|].
destruct (VisualStudio_init_dry (mkExecuter "/proj" true) (Some "2022")
            Example.start
            (snd (VisualStudio_init (mkExecuter "/proj" true) (Some "2022")
                    Example.start))
            (Example.studio true) eq_refl) as (_ & _ & _ & _ & Hprocs);
  [vm_compute; reflexivity | exact Hprocs].
Defined.

(** ** Releaser.download_dependencies, not run dry *)

Section DownloadProcesses.
Context `{Platform}.

(** The two [gh] calls for one dependency, given the tag the first one
    printed. *)
Lemma download_dependency_processes (r : Releaser) (item : string * DepInfo)
  (w w' : world) :
dry r = false ->
download_dependency r item w = (Ok tt, w') ->
exists out,
  procs w'
  = (procs w
     ++ [["gh"; "-R"; di_repo (snd item); "release"; "list"; "--exclude-drafts";
          "--exclude-pre-releases"; "--json"; "name,createdAt,tagName"; "--jq";
          release_filter (di_startswith (snd item))];
         ["gh"; "-R"; di_repo (snd item); "release"; "download"; PyStr.strip out]])%list.
Proof.
intros Hdry Hrun. unfold dry in Hdry.
unfold download_dependency, Executer_check_output, Executer_run in Hrun.
rewrite Hdry in Hrun.
apply bind_ok in Hrun as (o & w1 & Hquery & Hrun).
apply bind_ok in Hquery as (out & w0 & Hspawn & Hret).
unfold ret in Hret. injection Hret as <- <-.
apply spawn_ok in Hspawn as (f1 & _ & ->).
apply bind_ok in Hrun as (tag & w2 & Htag & Hrun).
unfold strip_output, ret in Htag. injection Htag as <- <-.
apply bind_ok in Hrun as (o2 & w3 & Hspawn & Hret).
unfold ret in Hret. injection Hret as <-.
apply spawn_ok in Hspawn as (f2 & _ & ->).
exists out. simpl. by rewrite <- app_assoc.
Qed.

End DownloadProcesses.


